(** * Pressure-vessel cost estimator: consolidation and cost roll-up

    A shallow embedding of the application logic of the repository
    (TypeScript/React) and the properties its specification states.

    Conventions of the embedding.
    - A JavaScript [number] is an IEEE-754 binary64 value: [float].
    - A JavaScript string is a [string]; template literals are
      concatenations, a number inside one is its decimal rendering.  The
      Chinese literals of the sources are kept as they are; equality and
      containment of well-formed strings do not depend on the encoding.
      [toLowerCase] is a parameter wherever it is used.
    - A property that a value of TypeScript type [any] may lack (the output
      of the extraction service is parsed JSON) is an [option]; [None] is
      [undefined].  Fields are taken to carry the type the response schema
      requests whenever they are present.
    - The external service calls are function parameters that return [None]
      when the promise is rejected.
    - [Date.now()] and [Math.random()] only feed identifiers and time
      stamps; they are parameters of the functions that read them. *)

From Stdlib Require Import Floats List String Ascii Bool Arith Lia ZArith NArith.
From Stdlib Require Import Permutation DecimalString DecimalNat.
Import ListNotations.

Set Warnings "-inexact-float".

(** ** JavaScript values and built-ins used by the sources *)

Module JS.

(** [ToBoolean] of a number: [+0], [-0] and [NaN] are falsy. *)
Definition truthyNum (x : float) : bool :=
  negb (PrimFloat.is_zero x || PrimFloat.is_nan x).

(** [ToBoolean] of a string: only the empty string is falsy. *)
Definition truthyStr (s : string) : bool := negb (String.eqb s "").

Definition truthyOptNum (o : option float) : bool :=
  match o with Some x => truthyNum x | None => false end.

Definition truthyOptStr (o : option string) : bool :=
  match o with Some s => truthyStr s | None => false end.

(** [a || d] where [d] is a number or string literal. *)
Definition orNum (o : option float) (d : float) : float :=
  match o with
  | Some x => if truthyNum x then x else d
  | None => d
  end.

Definition orStr (o : option string) (d : string) : string :=
  match o with
  | Some s => if truthyStr s then s else d
  | None => d
  end.

(** [a || b] where both sides may be undefined. *)
Definition orOptStr (a b : option string) : option string :=
  if truthyOptStr a then a else b.

Definition orOptNum (a b : option float) : option float :=
  if truthyOptNum a then a else b.

(** [ToNumber] at an arithmetic operator: [undefined] becomes [NaN]. *)
Definition toNumber (o : option float) : float :=
  match o with Some x => x | None => nan end.

(** [Array.prototype.reduce] with an initial value. *)
Definition reduce {A B : Type} (f : B -> A -> B) (init : B) (l : list A) : B :=
  fold_left f l init.

(** [s.startsWith(p)] and [s.includes(sub)]. *)
Definition startsWith (s p : string) : bool := String.prefix p s.

Fixpoint includes (s sub : string) : bool :=
  if String.prefix sub s then true
  else match s with
       | EmptyString => false
       | String _ rest => includes rest sub
       end.

(** An ASCII instance of [toLowerCase], used to run examples; the
    functions below take the case mapping as a parameter. *)
Definition lowerAscii (c : ascii) : ascii :=
  let n := nat_of_ascii c in
  if (65 <=? n) && (n <=? 90) then ascii_of_nat (n + 32) else c.

Fixpoint toLowerCaseAscii (s : string) : string :=
  match s with
  | EmptyString => EmptyString
  | String c rest => String (lowerAscii c) (toLowerCaseAscii rest)
  end.

(** Decimal rendering of a non-negative integer inside a template literal. *)
Definition natToString (n : nat) : string :=
  NilEmpty.string_of_uint (Nat.to_uint n).

(** [Array.prototype.map] and [forEach] with the element index. *)
Fixpoint mapFrom {A B : Type} (f : A -> nat -> B) (l : list A) (start : nat) : list B :=
  match l with
  | [] => []
  | x :: rest => f x start :: mapFrom f rest (S start)
  end.

Definition mapIdx {A B : Type} (f : A -> nat -> B) (l : list A) : list B :=
  mapFrom f l 0.

Fixpoint forEachFrom {A St : Type} (f : St -> A -> nat -> St) (l : list A)
         (start : nat) (st : St) : St :=
  match l with
  | [] => st
  | x :: rest => forEachFrom f rest (S start) (f st x start)
  end.

(** [l.forEach((x, idx) => ...)] where the callback updates the state [st]. *)
Definition forEachIdx {A St : Type} (f : St -> A -> nat -> St) (l : list A) (st : St) : St :=
  forEachFrom f l 0 st.

(** [Array.from(new Set(l))]: first occurrences, in order. *)
Fixpoint uniqueAcc {A : Type} (eqb : A -> A -> bool) (l seen : list A) : list A :=
  match l with
  | [] => []
  | x :: rest =>
      if existsb (eqb x) seen then uniqueAcc eqb rest seen
      else x :: uniqueAcc eqb rest (x :: seen)
  end.

Definition unique {A : Type} (eqb : A -> A -> bool) (l : list A) : list A :=
  uniqueAcc eqb l [].

(** [===] on possibly-undefined strings. *)
Definition optStrEqb (a b : option string) : bool :=
  match a, b with
  | Some x, Some y => String.eqb x y
  | None, None => true
  | _, _ => false
  end.

(** [Array.prototype.find]. *)
Definition find {A : Type} (p : A -> bool) (l : list A) : option A :=
  List.find p l.

(** [Array.prototype.includes] on an array of strings. *)
Definition arrayIncludes (l : list string) (x : string) : bool :=
  existsb (String.eqb x) l.

(** *** Plain objects used as string-keyed dictionaries

    Own properties are kept in creation order; assigning to an existing
    key replaces the value in place.  [keys] is [Object.keys]: array-index
    keys first, in ascending numeric order, then the other keys in
    creation order. *)
Definition Obj (V : Type) : Type := list (string * V).

Fixpoint objGet {V : Type} (o : Obj V) (k : string) : option V :=
  match o with
  | [] => None
  | (k', v) :: rest => if String.eqb k k' then Some v else objGet rest k
  end.

Fixpoint objSet {V : Type} (o : Obj V) (k : string) (v : V) : Obj V :=
  match o with
  | [] => [(k, v)]
  | (k', v') :: rest =>
      if String.eqb k k' then (k', v) :: rest else (k', v') :: objSet rest k v
  end.

Definition digitOf (c : ascii) : option N :=
  let n := N_of_ascii c in
  if ((48 <=? n) && (n <=? 57))%N then Some (n - 48)%N else None.

Fixpoint parseDigits (s : string) (acc : N) : option N :=
  match s with
  | EmptyString => Some acc
  | String c rest =>
      match digitOf c with
      | Some d => parseDigits rest (acc * 10 + d)%N
      | None => None
      end
  end.

(** A canonical array index: decimal digits, no leading zero, below 2^32-1. *)
Definition arrayIndex (s : string) : option N :=
  match s with
  | EmptyString => None
  | String c rest =>
      if Ascii.eqb c "0" && negb (String.eqb rest "") then None
      else match parseDigits s 0 with
           | Some n => if (n <? 4294967295)%N then Some n else None
           | None => None
           end
  end.

Fixpoint insertIndex (n : N) (k : string) (l : list (N * string)) : list (N * string) :=
  match l with
  | [] => [(n, k)]
  | (m, k') :: rest =>
      if (n <=? m)%N then (n, k) :: l else (m, k') :: insertIndex n k rest
  end.

Fixpoint indexKeys (ks : list string) : list (N * string) :=
  match ks with
  | [] => []
  | k :: rest =>
      match arrayIndex k with
      | Some n => insertIndex n k (indexKeys rest)
      | None => indexKeys rest
      end
  end.

Definition isIndexKey (k : string) : bool :=
  match arrayIndex k with Some _ => true | None => false end.

Definition keys {V : Type} (o : Obj V) : list string :=
  let ks := map fst o in
  map snd (indexKeys ks) ++ filter (fun k => negb (isIndexKey k)) ks.

(** *** [Map<string, V>]: entries in insertion order *)
Definition Map (V : Type) : Type := list (string * V).

Definition mapGet {V : Type} (m : Map V) (k : string) : option V := objGet m k.

Definition mapHas {V : Type} (m : Map V) (k : string) : bool :=
  match mapGet m k with Some _ => true | None => false end.

(** [m.set(k, v)] for a key that may or may not be present. *)
Definition mapSet {V : Type} (m : Map V) (k : string) (v : V) : Map V := objSet m k v.

(** In-place mutation of the object stored under [k]. *)
Fixpoint mapMutate {V : Type} (m : Map V) (k : string) (f : V -> V) : Map V :=
  match m with
  | [] => []
  | (k', v) :: rest =>
      if String.eqb k k' then (k', f v) :: rest else (k', v) :: mapMutate rest k f
  end.

Definition mapValues {V : Type} (m : Map V) : list V := map snd m.

(** [Array.prototype.join] on an array of strings. *)
Fixpoint join (sep : string) (l : list string) : string :=
  match l with
  | [] => EmptyString
  | x :: rest =>
      match rest with
      | [] => x
      | _ :: _ => (x ++ sep ++ join sep rest)%string
      end
  end.

(** [l.filter((x, i) => p x i)]. *)
Fixpoint filterFrom {A : Type} (p : A -> nat -> bool) (l : list A) (start : nat) : list A :=
  match l with
  | [] => []
  | x :: rest =>
      if p x start then x :: filterFrom p rest (S start) else filterFrom p rest (S start)
  end.

Definition filterIdx {A : Type} (p : A -> nat -> bool) (l : list A) : list A :=
  filterFrom p l 0.

(** [o[k] = v] on a plain object, for a value [v] that is not an object:
    the name [__proto__] is the accessor of [Object.prototype], whose setter
    ignores such a value, so the assignment creates no own property; every
    other name becomes or stays an own property. *)
Definition objAssign {V : Type} (o : Obj V) (k : string) (v : V) : Obj V :=
  if String.eqb k "__proto__" then o else objSet o k v.

(** The properties a plain object inherits from [Object.prototype]: those
    of the language standard and its annex for browsers. *)
Definition objectPrototypeNames : list string :=
  ["constructor"; "hasOwnProperty"; "isPrototypeOf"; "propertyIsEnumerable";
   "toLocaleString"; "toString"; "valueOf"; "__proto__"; "__defineGetter__";
   "__defineSetter__"; "__lookupGetter__"; "__lookupSetter__"]%string.

(** What [o[k]] reads on a plain object: the own property, or the function
    or object inherited under that name.  Two inherited values are the same
    object exactly when they are read under the same name. *)
Inductive Value (V : Type) : Type :=
| own (v : V)
| inherited (name : string).

Arguments own {V} v.
Arguments inherited {V} name.

(** [o[k]]; [None] is [undefined]. *)
Definition objRead {V : Type} (o : Obj V) (k : string) : option (Value V) :=
  match objGet o k with
  | Some v => Some (own v)
  | None => if existsb (String.eqb k) objectPrototypeNames then Some (inherited k) else None
  end.

(** [a === b] on what a property of strings reads. *)
Definition valueEqb (a b : Value string) : bool :=
  match a, b with
  | own x, own y => String.eqb x y
  | inherited x, inherited y => String.eqb x y
  | _, _ => false
  end.

(** What [JSON.parse] reads back from what [JSON.stringify] writes for a
    number: the number itself, 0 for negative zero, and [None] for the
    [null] that is written for NaN and the infinities. *)
Definition jsonNumber (x : float) : option float :=
  if PrimFloat.is_nan x || PrimFloat.is_infinity x then None
  else if PrimFloat.is_zero x then Some 0%float
  else Some x.

(** [l.map(f)] where [f] may fail: all the results, or none. *)
Fixpoint allOrNone {A B : Type} (f : A -> option B) (l : list A) : option (list B) :=
  match l with
  | [] => Some []
  | x :: rest =>
      match f x, allOrNone f rest with
      | Some y, Some ys => Some (y :: ys)
      | _, _ => None
      end
  end.

End JS.

(** ** types.ts *)

Module Types.

(** [MaterialItem].  The declared types are [string] and [number]; the
    importer builds lines by spreading a raw response line, so the
    descriptive fields and [weight], [quantity] can be absent at run time.
    [category] is whatever string the response carried. *)
Record MaterialItem : Type := mkMaterialItem {
  m_id : string;
  m_name : option string;
  m_material : option string;
  m_specification : option string;
  m_weight : option float;
  m_quantity : option float;
  m_unitPrice : float;
  m_totalPrice : float;
  m_category : string
}.

Inductive Status : Type := identified | extracting | complete | error.

Record Equipment : Type := mkEquipment {
  id : string;
  tag : string;
  name : option string;
  specification : option string;
  mainMaterial : option string;
  designWeight : option float;
  pageRange : option string;
  sourceFileId : option string;
  materials : list MaterialItem;
  drawings : list string;
  lastModified : nat;
  status : Status
}.

Record UploadedFile : Type := mkUploadedFile {
  f_id : string;
  f_name : string;
  f_mimeType : string;
  f_data : string
}.

(** The closed enumeration of categories. *)
Definition recognizedCategory (c : string) : bool :=
  existsb (String.eqb c) ["plate"; "forging"; "pipe"; "consumable"; "other"]%string.

End Types.

Import Types.

(** ** services/gemini.ts

    Shapes of the parsed service responses and the two functions that
    post-process them. *)

Module Gemini.

(** One entry of the structure scan. *)
Record ScanEntry : Type := mkScanEntry {
  s_tag : option string;
  s_name : option string;
  s_pageRange : option string
}.

(** One bill-of-materials line of a detail response. *)
Record RawLine : Type := mkRawLine {
  r_name : option string;
  r_material : option string;
  r_specification : option string;
  r_weight : option float;
  r_quantity : option float;
  r_category : option string
}.

(** The detail response for one equipment. *)
Record Details : Type := mkDetails {
  d_tag : option string;
  d_name : option string;
  d_specification : option string;
  d_mainMaterial : option string;
  d_designWeight : option float;
  d_materials : option (list RawLine)
}.

(** The object [{...eq, ...details}] handed to the extraction view. *)
Record RawEquipment : Type := mkRawEquipment {
  e_tag : option string;
  e_name : option string;
  e_pageRange : option string;
  e_specification : option string;
  e_mainMaterial : option string;
  e_designWeight : option float;
  e_materials : option (list RawLine)
}.

(** A property of an object spread: the later object wins when it has it. *)
Definition spread {A : Type} (base over : option A) : option A :=
  match over with Some v => Some v | None => base end.

Section Analyze.

Variable scanDocumentStructure : string -> string -> option (list ScanEntry).
Variable extractEquipmentDetails :
  string -> string -> option string -> option string -> option Details.

Definition withDetails (eq : ScanEntry) (details : Details) : RawEquipment :=
  {| e_tag := spread (s_tag eq) (d_tag details);
     e_name := spread (s_name eq) (d_name details);
     e_pageRange := s_pageRange eq;
     e_specification := d_specification details;
     e_mainMaterial := d_mainMaterial details;
     e_designWeight := d_designWeight details;
     e_materials := d_materials details |}.

Definition withoutDetails (eq : ScanEntry) : RawEquipment :=
  {| e_tag := s_tag eq;
     e_name := s_name eq;
     e_pageRange := s_pageRange eq;
     e_specification := None;
     e_mainMaterial := None;
     e_designWeight := None;
     e_materials := Some [] |}.

Definition analyzeOne (base64Data mimeType : string) (eq : ScanEntry) : RawEquipment :=
  match extractEquipmentDetails base64Data mimeType (s_tag eq) (s_pageRange eq) with
  | Some details => withDetails eq details
  | None => withoutDetails eq
  end.

Definition analyzeDrawingForMaterials (base64Data mimeType : string)
  : option (list RawEquipment) :=
  match scanDocumentStructure base64Data mimeType with
  | Some equipments => Some (map (analyzeOne base64Data mimeType) equipments)
  | None => None
  end.

End Analyze.

(** One entry of the [prices] array of a pricing response. *)
Record RawPrice : Type := mkRawPrice {
  p_material : option string;
  p_pricePerKg : option float
}.

(** The callback of [data.prices.forEach]:
    [if (p.material && p.pricePerKg) priceMap[p.material] = p.pricePerKg]. *)
Definition addPrice (priceMap : JS.Obj float) (p : RawPrice) : JS.Obj float :=
  match p_material p, p_pricePerKg p with
  | Some material, Some pricePerKg =>
      if JS.truthyStr material && JS.truthyNum pricePerKg
      then JS.objAssign priceMap material pricePerKg
      else priceMap
  | _, _ => priceMap
  end.

Section Pricing.

(** The model call followed by [JSON.parse]: [None] when either throws,
    [Some None] when the parsed object has no [prices] array. *)
Variable lookupPrices : list (option string) -> option (option (list RawPrice)).

Definition findMaterialPrices (materials : list (option string)) : JS.Obj float :=
  match materials with
  | [] => []
  | _ :: _ =>
      match lookupPrices (JS.unique JS.optStrEqb materials) with
      | Some (Some prices) => fold_left addPrice prices []
      | Some None => []
      | None => []
      end
  end.

End Pricing.

End Gemini.

Import Gemini.

(** ** components/BudgetView.tsx: cost roll-up of one equipment *)

Module BudgetView.

Open Scope float_scope.

Definition lineWeight (item : MaterialItem) : float :=
  JS.toNumber (m_weight item) * JS.toNumber (m_quantity item).

Definition lineCost (item : MaterialItem) : float :=
  JS.toNumber (m_weight item) * JS.toNumber (m_quantity item) * m_unitPrice item.

Record Rollup : Type := mkRollup {
  totalWeight : float;
  materialCost : float;
  laborCost : float;
  overheadCost : float;
  grandTotal : float
}.

Definition rollup (equipment : Equipment) (laborCostPerKg overheadPercent : float) : Rollup :=
  let materials := Types.materials equipment in
  let totalBOMWeight := JS.reduce (fun sum item => sum + lineWeight item) 0 materials in
  let totalMaterialCost := JS.reduce (fun sum item => sum + lineCost item) 0 materials in
  let laborCost := totalBOMWeight * laborCostPerKg in
  let overheadCost := (totalMaterialCost + laborCost) * (overheadPercent / 100) in
  let grandTotal := totalMaterialCost + laborCost + overheadCost in
  mkRollup totalBOMWeight totalMaterialCost laborCost overheadCost grandTotal.

Definition setUnitPrice (item : MaterialItem) (price : float) : MaterialItem :=
  {| m_id := m_id item;
     m_name := m_name item;
     m_material := m_material item;
     m_specification := m_specification item;
     m_weight := m_weight item;
     m_quantity := m_quantity item;
     m_unitPrice := price;
     m_totalPrice := m_totalPrice item;
     m_category := m_category item |}.

Definition updateMaterials (equipment : Equipment) (newMaterials : list MaterialItem)
  : Equipment :=
  {| id := id equipment;
     tag := tag equipment;
     name := name equipment;
     specification := specification equipment;
     mainMaterial := mainMaterial equipment;
     designWeight := designWeight equipment;
     pageRange := pageRange equipment;
     sourceFileId := sourceFileId equipment;
     materials := newMaterials;
     drawings := drawings equipment;
     lastModified := lastModified equipment;
     status := status equipment |}.

Section FetchPrices.

(** [String.prototype.toLowerCase]. *)
Variable toLowerCase : string -> string.
Variable lookupPrices : list (option string) -> option (option (list RawPrice)).

Definition keyMatches (material key : string) : bool :=
  JS.includes (toLowerCase material) (toLowerCase key)
  || JS.includes (toLowerCase key) (toLowerCase material).

(** The value read back at a key of [Object.keys(prices)]; the key is an
    own property, the default is never reached. *)
Definition priceAt (prices : JS.Obj float) (key : string) : float :=
  match JS.objGet prices key with Some v => v | None => nan end.

(** The callback of [materials.map]; [None] is the [TypeError] of
    [item.material.toLowerCase()] on a line without a material, raised at
    the first key the search visits. *)
Definition priceLine (prices : JS.Obj float) (item : MaterialItem) : option MaterialItem :=
  match m_material item with
  | Some material =>
      match JS.find (keyMatches material) (JS.keys prices) with
      | Some foundPriceKey =>
          if JS.truthyStr foundPriceKey
          then Some (setUnitPrice item (priceAt prices foundPriceKey))
          else Some item
      | None => Some item
      end
  | None =>
      match JS.keys prices with
      | [] => Some item
      | _ :: _ => None
      end
  end.

Fixpoint mapThrowing {A B : Type} (f : A -> option B) (l : list A) : option (list B) :=
  match l with
  | [] => Some []
  | x :: rest =>
      match f x with
      | Some y =>
          match mapThrowing f rest with
          | Some ys => Some (y :: ys)
          | None => None
          end
      | None => None
      end
  end.

Definition materialNames (materials : list MaterialItem) : list (option string) :=
  filter (fun m => negb (JS.optStrEqb m (Some "N/A"%string))
                   && negb (JS.optStrEqb m (Some ""%string)))
         (map m_material materials).

(** The new material list passed to [updateMaterials]; [None] when the
    exception escapes the [try ... finally]. *)
Definition handleFetchPrices (materials : list MaterialItem) : option (list MaterialItem) :=
  let prices := findMaterialPrices lookupPrices (materialNames materials) in
  mapThrowing (priceLine prices) materials.

End FetchPrices.

(** *** Editing the material list *)

Definition setWeight (item : MaterialItem) (w : float) : MaterialItem :=
  {| m_id := m_id item;
     m_name := m_name item;
     m_material := m_material item;
     m_specification := m_specification item;
     m_weight := Some w;
     m_quantity := m_quantity item;
     m_unitPrice := m_unitPrice item;
     m_totalPrice := m_totalPrice item;
     m_category := m_category item |}.

Definition setQuantity (item : MaterialItem) (q : float) : MaterialItem :=
  {| m_id := m_id item;
     m_name := m_name item;
     m_material := m_material item;
     m_specification := m_specification item;
     m_weight := m_weight item;
     m_quantity := Some q;
     m_unitPrice := m_unitPrice item;
     m_totalPrice := m_totalPrice item;
     m_category := m_category item |}.

(** The handlers return the list they pass to [updateMaterials]. *)
Definition handlePriceChange (materials : list MaterialItem) (id : string) (newPrice : float)
  : list MaterialItem :=
  map (fun m => if String.eqb (m_id m) id then setUnitPrice m newPrice else m) materials.

Definition handleWeightChange (materials : list MaterialItem) (id : string) (newWeight : float)
  : list MaterialItem :=
  map (fun m => if String.eqb (m_id m) id then setWeight m newWeight else m) materials.

Definition handleQuantityChange (materials : list MaterialItem) (id : string) (newQty : float)
  : list MaterialItem :=
  map (fun m => if String.eqb (m_id m) id then setQuantity m newQty else m) materials.

(** [parseFloat(e.target.value) || 0], from what [parseFloat] returned. *)
Definition typedNumber (parsed : float) : float := JS.orNum (Some parsed) 0.

Definition newItem (now : nat) : MaterialItem :=
  {| m_id := ("manual-" ++ JS.natToString now)%string;
     m_name := Some "新组件"%string;
     m_material := Some ""%string;
     m_specification := Some ""%string;
     m_weight := Some 0;
     m_quantity := Some 1;
     m_unitPrice := 0;
     m_totalPrice := 0;
     m_category := "other" |}.

Definition addNewRow (now : nat) (materials : list MaterialItem) : list MaterialItem :=
  materials ++ [newItem now].

Definition removeRow (materials : list MaterialItem) (id : string) : list MaterialItem :=
  filter (fun m => negb (String.eqb (m_id m) id)) materials.

(** *** Cost per category, for the chart *)

Definition CATEGORY_LABELS : JS.Obj string :=
  [("plate", "板材"); ("forging", "锻件"); ("pipe", "管材"); ("consumable", "耗材");
   ("other", "其他")]%string.

(** What the chart shows a group under: a text, or the inherited function
    or object that [CATEGORY_LABELS[category]] reads for a category named
    like a property of [Object.prototype]. *)
Definition Label : Type := JS.Value string.

(** [CATEGORY_LABELS[category] || '其他']. *)
Definition categoryLabel (category : string) : Label :=
  match JS.objRead CATEGORY_LABELS category with
  | Some (JS.own label) => if JS.truthyStr label then JS.own label else JS.own "其他"%string
  | Some (JS.inherited name) => JS.inherited name
  | None => JS.own "其他"%string
  end.

(** The body of the reducer: add to the entry of that name, or push one. *)
Fixpoint addToCategory (acc : list (Label * float)) (catLabel : Label) (cost : float)
  : list (Label * float) :=
  match acc with
  | [] => [(catLabel, cost)]
  | (name, value) :: rest =>
      if JS.valueEqb name catLabel then (name, value + cost) :: rest
      else (name, value) :: addToCategory rest catLabel cost
  end.

Definition categoryData (materials : list MaterialItem) : list (Label * float) :=
  JS.reduce (fun acc item => addToCategory acc (categoryLabel (m_category item)) (lineCost item))
            [] materials.

End BudgetView.

(** ** components/EquipmentDirectory.tsx *)

Module EquipmentDirectory.

Open Scope float_scope.

Definition calculateCost (laborCostPerKg overheadPercent : float) (eq : Equipment) : float :=
  let totalWeight :=
    JS.reduce (fun sum item =>
                 sum + (JS.toNumber (m_weight item) * JS.toNumber (m_quantity item)))
              0 (materials eq) in
  let materialCost :=
    JS.reduce (fun sum item =>
                 sum + (JS.toNumber (m_weight item) * JS.toNumber (m_quantity item)
                        * m_unitPrice item))
              0 (materials eq) in
  let labor := totalWeight * laborCostPerKg in
  let overhead := (materialCost + labor) * (overheadPercent / 100) in
  materialCost + labor + overhead.

Definition grandTotal (laborCostPerKg overheadPercent : float)
           (equipments : list Equipment) : float :=
  JS.reduce (fun sum eq => sum + calculateCost laborCostPerKg overheadPercent eq)
            0 equipments.

Definition bomWeight (eq : Equipment) : float :=
  JS.reduce (fun sum item =>
               sum + (JS.toNumber (m_weight item) * JS.toNumber (m_quantity item)))
            0 (materials eq).

Definition designW (eq : Equipment) : float := JS.orNum (designWeight eq) 0.

Definition weightWarning (eq : Equipment) : bool :=
  (0 <? designW eq) && (0 <? bomWeight eq)
  && (0.1 <? abs (designW eq - bomWeight eq) / designW eq).

Definition totalDesignWeight (equipments : list Equipment) : float :=
  JS.reduce (fun sum eq => sum + JS.orNum (designWeight eq) 0) 0 equipments.

(** *** CSV export *)

Definition newline : string := String "010"%char EmptyString.

(** U+FEFF, as its three bytes. *)
Definition byteOrderMark : string :=
  String "239"%char (String "187"%char (String "191"%char EmptyString)).

Definition csvPrefix : string := ("data:text/csv;charset=utf-8," ++ byteOrderMark)%string.

Definition csvHeader : string :=
  ("位号,名称,规格,主体材质,图纸重量(kg),BOM重量(kg),预估造价(¥)" ++ newline)%string.

Section CsvExport.

(** The rendering of a number by [join], and [n.toFixed(2)]. *)
Variable numberToString : float -> string.
Variable toFixed2 : float -> string.

(** The array [row] of one equipment; [join] renders an absent name as the
    empty string. *)
Definition csvFields (laborCostPerKg overheadPercent : float) (eq : Equipment) : list string :=
  [tag eq;
   match name eq with Some n => n | None => EmptyString end;
   JS.orStr (specification eq) "";
   JS.orStr (mainMaterial eq) "";
   numberToString (JS.orNum (designWeight eq) 0);
   toFixed2 (bomWeight eq);
   toFixed2 (calculateCost laborCostPerKg overheadPercent eq)].

(** The text [csvContent] that [exportToCSV] hands to [encodeURI]. *)
Definition csvContent (laborCostPerKg overheadPercent : float)
           (equipments : list Equipment) : string :=
  fold_left
    (fun csv eq =>
       (csv ++ (JS.join "," (csvFields laborCostPerKg overheadPercent eq) ++ newline))%string)
    equipments (csvPrefix ++ csvHeader)%string.

End CsvExport.

End EquipmentDirectory.

(** ** components/ExtractionView.tsx: consolidation of a file queue *)

Module ExtractionView.

Open Scope string_scope.

Inductive QueueStatus : Type := q_pending | q_processing | q_success | q_error.

(** A browser [File] with the data URL [readAsDataURL] produces for it. *)
Record File : Type := mkFile {
  file_name : string;
  file_type : string;
  file_dataUrl : string
}.

Record FileStatus : Type := mkFileStatus {
  fs_file : File;
  fs_status : QueueStatus
}.

Section Queue.

(** The reading of [Date.now()]. *)
Variable now : nat.

(** Reading the file and [analyzeDrawingForMaterials] on its payload;
    [None] when the promise is rejected. *)
Variable analyze : File -> option (list RawEquipment).

Definition rawItem (i eqIdx : nat) (item : RawLine) (itemIdx : nat) : MaterialItem :=
  {| m_id := "mat-" ++ JS.natToString now ++ "-" ++ JS.natToString i ++ "-"
             ++ JS.natToString eqIdx ++ "-" ++ JS.natToString itemIdx;
     m_name := Some (JS.orStr (r_name item) "未知组件");
     m_material := Some (JS.orStr (r_material item) "N/A");
     m_specification := Some (JS.orStr (r_specification item) "-");
     m_weight := Some (JS.orNum (r_weight item) 0%float);
     m_quantity := Some (JS.orNum (r_quantity item) 1%float);
     m_unitPrice := 0%float;
     m_totalPrice := 0%float;
     m_category := JS.orStr (r_category item) "other" |}.

Definition rawItems (i eqIdx : nat) (eqData : RawEquipment) : list MaterialItem :=
  JS.mapIdx (rawItem i eqIdx)
            (match e_materials eqData with Some l => l | None => [] end).

Definition unknownKey (fileName : string) (eqIdx : nat) : string :=
  "Unknown-" ++ fileName ++ "-" ++ JS.natToString eqIdx.

Definition tagKey (fileName : string) (eqIdx : nat) (eqData : RawEquipment) : string :=
  match e_tag eqData with
  | Some t =>
      if String.eqb t "Unknown" || negb (JS.truthyStr t)
      then unknownKey fileName eqIdx
      else t
  | None => unknownKey fileName eqIdx
  end.

Definition fillStr (existing incoming : option string) : option string :=
  if negb (JS.truthyOptStr existing) && JS.truthyOptStr incoming
  then incoming else existing.

Definition fillNum (existing incoming : option float) : option float :=
  if negb (JS.truthyOptNum existing) && JS.truthyOptNum incoming
  then incoming else existing.

(** [if (!drawings.includes(base64)) drawings.push(base64)]. *)
Definition pushIfAbsent (drawings : list string) (base64 : string) : list string :=
  if negb (JS.arrayIncludes drawings base64)
  then (drawings ++ [base64])%list
  else drawings.

(** The branch that merges into the record already stored under the key. *)
Definition mergeInto (base64 : string) (items : list MaterialItem)
           (eqData : RawEquipment) (existing : Equipment) : Equipment :=
  {| id := id existing;
     tag := tag existing;
     name := name existing;
     specification := fillStr (specification existing) (e_specification eqData);
     mainMaterial := fillStr (mainMaterial existing) (e_mainMaterial eqData);
     designWeight := fillNum (designWeight existing) (e_designWeight eqData);
     pageRange := pageRange existing;
     sourceFileId := sourceFileId existing;
     materials := (materials existing ++ items)%list;
     drawings := pushIfAbsent (drawings existing) base64;
     lastModified := lastModified existing;
     status := status existing |}.

(** The branch that creates the record of a new key. *)
Definition createNew (i eqIdx : nat) (key base64 : string) (items : list MaterialItem)
           (eqData : RawEquipment) : Equipment :=
  {| id := "eq-" ++ JS.natToString now ++ "-" ++ JS.natToString i ++ "-"
           ++ JS.natToString eqIdx;
     tag := if JS.startsWith key "Unknown-" then "未命名设备" else key;
     name := e_name eqData;
     specification := e_specification eqData;
     mainMaterial := e_mainMaterial eqData;
     designWeight := e_designWeight eqData;
     pageRange := None;
     sourceFileId := None;
     materials := items;
     drawings := [base64];
     lastModified := now;
     status := complete |}.

(** The body of [data.equipments.forEach]. *)
Definition mergeEquipment (i : nat) (file : File) (equipmentMap : JS.Map Equipment)
           (eqData : RawEquipment) (eqIdx : nat) : JS.Map Equipment :=
  let items := rawItems i eqIdx eqData in
  let key := tagKey (file_name file) eqIdx eqData in
  if JS.mapHas equipmentMap key
  then JS.mapMutate equipmentMap key (mergeInto (file_dataUrl file) items eqData)
  else JS.mapSet equipmentMap key
                 (createNew i eqIdx key (file_dataUrl file) items eqData).

Definition mergeFile (i : nat) (file : File) (equipments : list RawEquipment)
           (equipmentMap : JS.Map Equipment) : JS.Map Equipment :=
  JS.forEachIdx (mergeEquipment i file) equipments equipmentMap.

(** One turn of the loop over the queue. *)
Definition processEntry (st : list FileStatus * JS.Map Equipment)
           (entry : FileStatus) (i : nat) : list FileStatus * JS.Map Equipment :=
  let (updated, equipmentMap) := st in
  match fs_status entry with
  | q_success => ((updated ++ [entry])%list, equipmentMap)
  | _ =>
      match analyze (fs_file entry) with
      | Some equipments =>
          ((updated ++ [mkFileStatus (fs_file entry) q_success])%list,
           mergeFile i (fs_file entry) equipments equipmentMap)
      | None =>
          ((updated ++ [mkFileStatus (fs_file entry) q_error])%list, equipmentMap)
      end
  end.

Definition processQueue (fileQueue : list FileStatus)
  : list FileStatus * JS.Map Equipment :=
  JS.forEachIdx processEntry fileQueue ([], []).

(** The argument of [onAnalysisComplete], when it is called. *)
Definition analysisResult (fileQueue : list FileStatus) : option (list Equipment) :=
  let equipmentMap := snd (processQueue fileQueue) in
  if (0 <? List.length equipmentMap)%nat then Some (JS.mapValues equipmentMap) else None.

End Queue.

(** [base64String.split(',')[1]]: the text between the first and the second
    comma, [None] when the string has no comma. *)
Fixpoint afterComma (s : string) : option string :=
  match s with
  | EmptyString => None
  | String c rest => if Ascii.eqb c "," then Some rest else afterComma rest
  end.

Fixpoint beforeComma (s : string) : string :=
  match s with
  | EmptyString => EmptyString
  | String c rest => if Ascii.eqb c "," then EmptyString else String c (beforeComma rest)
  end.

Definition base64DataOf (base64String : string) : option string :=
  option_map beforeComma (afterComma base64String).

(** The promise [processQueue] awaits for a file: the payload of its data
    URL goes to [analyzeDrawingForMaterials].  A data URL has a comma; a
    call without payload is taken to be rejected. *)
Definition analyzeFile
           (scanDocumentStructure : string -> string -> option (list ScanEntry))
           (extractEquipmentDetails :
              string -> string -> option string -> option string -> option Details)
           (file : File) : option (list RawEquipment) :=
  match base64DataOf (file_dataUrl file) with
  | Some base64Data =>
      analyzeDrawingForMaterials scanDocumentStructure extractEquipmentDetails
                                 base64Data (file_type file)
  | None => None
  end.

(** *** The queue itself *)

Definition handleFileSelect (fileQueue : list FileStatus) (files : list File)
  : list FileStatus :=
  match files with
  | [] => fileQueue
  | _ :: _ => (fileQueue ++ map (fun f => mkFileStatus f q_pending) files)%list
  end.

Definition removeFile (fileQueue : list FileStatus) (index : nat) : list FileStatus :=
  JS.filterIdx (fun _ i => negb (Nat.eqb i index)) fileQueue.

Definition isPending (entry : FileStatus) : bool :=
  match fs_status entry with q_pending => true | _ => false end.

Definition isSuccess (entry : FileStatus) : bool :=
  match fs_status entry with q_success => true | _ => false end.

Definition pendingCount (fileQueue : list FileStatus) : nat :=
  List.length (filter isPending fileQueue).

Definition successCount (fileQueue : list FileStatus) : nat :=
  List.length (filter isSuccess fileQueue).

End ExtractionView.

(** ** components/SmartImporter.tsx: the two-phase import wizard *)

Module SmartImporter.

Open Scope string_scope.

Section Wizard.

(** The reading of [Date.now()], and the identifier
    [`eq-${Date.now()}-${Math.random()}`] of the n-th record pushed. *)
Variable now : nat.
Variable freshId : nat -> string.

Variable scanDocumentStructure : string -> string -> option (list ScanEntry).
Variable extractEquipmentDetails :
  string -> string -> string -> string -> option Details.

Definition identify (file : UploadedFile) (base : nat) (res : ScanEntry) (idx : nat)
  : Equipment :=
  {| id := freshId (base + idx);
     tag := JS.orStr (s_tag res) "Unknown";
     name := Some (JS.orStr (s_name res) "未命名设备");
     specification := None;
     mainMaterial := None;
     designWeight := None;
     pageRange := Some (JS.orStr (s_pageRange res) "全文件");
     sourceFileId := Some (f_id file);
     materials := [];
     drawings := [f_data file];
     lastModified := now;
     status := identified |}.

Definition scanFile (newIdentified : list Equipment) (file : UploadedFile)
  : list Equipment :=
  if negb (JS.truthyStr (f_data file)) then newIdentified
  else match scanDocumentStructure (f_data file) (f_mimeType file) with
       | Some results =>
           (newIdentified ++ JS.mapIdx (identify file (List.length newIdentified)) results)%list
       | None => newIdentified
       end.

Definition startStructureScan (files : list UploadedFile) : list Equipment :=
  fold_left scanFile files [].

Definition importLine (eq : Equipment) (m : RawLine) (idx : nat) : MaterialItem :=
  {| m_id := id eq ++ "-mat-" ++ JS.natToString idx;
     m_name := r_name m;
     m_material := r_material m;
     m_specification := r_specification m;
     m_weight := r_weight m;
     m_quantity := r_quantity m;
     m_unitPrice := 0%float;
     m_totalPrice := 0%float;
     m_category := JS.orStr (r_category m) "other" |}.

Definition withDetails (eq : Equipment) (details : Details) : Equipment :=
  {| id := id eq;
     tag := tag eq;
     name := name eq;
     specification := JS.orOptStr (d_specification details) (specification eq);
     mainMaterial := JS.orOptStr (d_mainMaterial details) (mainMaterial eq);
     designWeight := JS.orOptNum (d_designWeight details) (designWeight eq);
     pageRange := pageRange eq;
     sourceFileId := sourceFileId eq;
     materials := JS.mapIdx (importLine eq)
                    (match d_materials details with Some l => l | None => [] end);
     drawings := drawings eq;
     lastModified := lastModified eq;
     status := complete |}.

Definition setStatus (eq : Equipment) (s : Status) : Equipment :=
  {| id := id eq;
     tag := tag eq;
     name := name eq;
     specification := specification eq;
     mainMaterial := mainMaterial eq;
     designWeight := designWeight eq;
     pageRange := pageRange eq;
     sourceFileId := sourceFileId eq;
     materials := materials eq;
     drawings := drawings eq;
     lastModified := lastModified eq;
     status := s |}.

Definition findFile (files : list UploadedFile) (eq : Equipment) : option UploadedFile :=
  JS.find (fun f => JS.optStrEqb (Some (f_id f)) (sourceFileId eq)) files.

(** One turn of the extraction loop on the record at the current index. *)
Definition extractOne (files : list UploadedFile) (eq : Equipment) : Equipment :=
  match findFile files eq with
  | None => eq
  | Some file =>
      match extractEquipmentDetails (f_data file) (f_mimeType file) (tag eq)
                                    (JS.orStr (pageRange eq) "") with
      | Some details => withDetails eq details
      | None => setStatus eq error
      end
  end.

(** The list passed to [onImportComplete]. *)
Definition startDetailExtraction (files : list UploadedFile)
           (identifiedEquipments : list Equipment) : list Equipment :=
  map (extractOne files) identifiedEquipments.

End Wizard.

End SmartImporter.

(** ** App.tsx: the project state, its handlers and its persistence

    A handler belongs to one render and reads the state of that render
    ([rendered]); what it passes to a state setter is applied to the state
    the component holds when the update runs ([current]).  When a handler
    runs on the latest render the two are the same state. *)

Module App.

Inductive AppView : Type := IMPORTER | DIRECTORY | DETAIL.

Record State : Type := mkState {
  view : AppView;
  equipments : list Equipment;
  uploadedFiles : list UploadedFile;
  selectedEquipmentId : option string;
  lastSaved : option nat;
  laborCost : float;
  overhead : float
}.

Definition initial : State :=
  {| view := IMPORTER;
     equipments := [];
     uploadedFiles := [];
     selectedEquipmentId := None;
     lastSaved := None;
     laborCost := 15%float;
     overhead := 15%float |}.

(** An equipment as it is saved: the object [rest], without [drawings]. *)
Record SavedEquipment : Type := mkSavedEquipment {
  sv_id : string;
  sv_tag : string;
  sv_name : option string;
  sv_specification : option string;
  sv_mainMaterial : option string;
  sv_designWeight : option float;
  sv_pageRange : option string;
  sv_sourceFileId : option string;
  sv_materials : list MaterialItem;
  sv_lastModified : nat;
  sv_status : Status
}.

(** What [JSON.parse] gives back for the saved project; any property may
    be missing from a text that was not written by [saveProject]. *)
Record ProjectState : Type := mkProjectState {
  ps_id : option string;
  ps_name : option string;
  ps_files : option (list UploadedFile);
  ps_equipments : option (list SavedEquipment);
  ps_laborCostPerKg : option float;
  ps_overheadPercent : option float;
  ps_lastSaved : option nat
}.

(** The item of [localStorage] the load effect finds: absent, a text that
    does not load, or a text that parses to a project. *)
Inductive Stored : Type :=
| NoItem
| Corrupted
| Saved (parsed : ProjectState).

(** The item after a handler ran: what it was, or the text that
    [JSON.stringify] writes for [state]. *)
Inductive Item : Type :=
| Kept (stored : Stored)
| Written (state : ProjectState).

Definition withoutDrawings (eq : Equipment) : SavedEquipment :=
  {| sv_id := id eq;
     sv_tag := tag eq;
     sv_name := name eq;
     sv_specification := specification eq;
     sv_mainMaterial := mainMaterial eq;
     sv_designWeight := designWeight eq;
     sv_pageRange := pageRange eq;
     sv_sourceFileId := sourceFileId eq;
     sv_materials := materials eq;
     sv_lastModified := lastModified eq;
     sv_status := status eq |}.

(** [{...eq, drawings: []}]. *)
Definition hydrate (eq : SavedEquipment) : Equipment :=
  {| id := sv_id eq;
     tag := sv_tag eq;
     name := sv_name eq;
     specification := sv_specification eq;
     mainMaterial := sv_mainMaterial eq;
     designWeight := sv_designWeight eq;
     pageRange := sv_pageRange eq;
     sourceFileId := sv_sourceFileId eq;
     materials := sv_materials eq;
     drawings := [];
     lastModified := sv_lastModified eq;
     status := sv_status eq |}.

Definition setEquipments (st : State) (eqs : list Equipment) : State :=
  {| view := view st;
     equipments := eqs;
     uploadedFiles := uploadedFiles st;
     selectedEquipmentId := selectedEquipmentId st;
     lastSaved := lastSaved st;
     laborCost := laborCost st;
     overhead := overhead st |}.

Definition setView (st : State) (v : AppView) : State :=
  {| view := v;
     equipments := equipments st;
     uploadedFiles := uploadedFiles st;
     selectedEquipmentId := selectedEquipmentId st;
     lastSaved := lastSaved st;
     laborCost := laborCost st;
     overhead := overhead st |}.

Definition setSelectedEquipmentId (st : State) (sel : option string) : State :=
  {| view := view st;
     equipments := equipments st;
     uploadedFiles := uploadedFiles st;
     selectedEquipmentId := sel;
     lastSaved := lastSaved st;
     laborCost := laborCost st;
     overhead := overhead st |}.

Definition setLastSaved (st : State) (t : option nat) : State :=
  {| view := view st;
     equipments := equipments st;
     uploadedFiles := uploadedFiles st;
     selectedEquipmentId := selectedEquipmentId st;
     lastSaved := t;
     laborCost := laborCost st;
     overhead := overhead st |}.

Definition setLaborCost (st : State) (x : float) : State :=
  {| view := view st;
     equipments := equipments st;
     uploadedFiles := uploadedFiles st;
     selectedEquipmentId := selectedEquipmentId st;
     lastSaved := lastSaved st;
     laborCost := x;
     overhead := overhead st |}.

Definition setOverhead (st : State) (x : float) : State :=
  {| view := view st;
     equipments := equipments st;
     uploadedFiles := uploadedFiles st;
     selectedEquipmentId := selectedEquipmentId st;
     lastSaved := lastSaved st;
     laborCost := laborCost st;
     overhead := x |}.

(** The effect that runs once after the first render: the new state and
    what is left in storage. *)
Definition loadProject (stored : Stored) (st : State) : State * Stored :=
  match stored with
  | NoItem => (st, NoItem)
  | Corrupted => (st, NoItem)
  | Saved parsed =>
      let st1 := match ps_equipments parsed with
                 | Some eqs => setEquipments st (map hydrate eqs)
                 | None => st
                 end in
      let st2 := match ps_laborCostPerKg parsed with
                 | Some x => if JS.truthyNum x then setLaborCost st1 x else st1
                 | None => st1
                 end in
      let st3 := match ps_overheadPercent parsed with
                 | Some x => if JS.truthyNum x then setOverhead st2 x else st2
                 | None => st2
                 end in
      let st4 := match ps_lastSaved parsed with
                 | Some (S t) => setLastSaved st3 (Some (S t))
                 | _ => st3
                 end in
      let st5 := match ps_equipments parsed with
                 | Some (_ :: _) => setView st4 DIRECTORY
                 | _ => st4
                 end in
      (st5, stored)
  end.

(** The object [state] that [saveProject] serializes. *)
Definition snapshot (rendered : State) (now : nat) : ProjectState :=
  {| ps_id := Some "proj-1"%string;
     ps_name := Some "Default Project"%string;
     ps_files := Some [];
     ps_equipments := Some (map withoutDrawings (equipments rendered));
     ps_laborCostPerKg := Some (laborCost rendered);
     ps_overheadPercent := Some (overhead rendered);
     ps_lastSaved := Some now |}.

Section Handlers.

(** Whether [localStorage.setItem] accepts the project (it throws when
    the quota is exceeded).  [saveProject] reads the clock twice: [now] goes
    into the saved object, [now'] into the state. *)
Variable fits : ProjectState -> bool.

Definition saveProject (rendered : State) (now now' : nat) (stored : Stored)
           (current : State) : State * Item :=
  if fits (snapshot rendered now)
  then (setLastSaved current (Some now'), Written (snapshot rendered now))
  else (current, Kept stored).

Definition handleImportComplete (rendered : State) (now now' : nat) (stored : Stored)
           (current : State) (newEquipments : list Equipment) : State * Item :=
  saveProject rendered now now' stored
    (setView (setEquipments current newEquipments) DIRECTORY).

Definition handleUpdateEquipment (rendered : State) (now now' : nat) (stored : Stored)
           (current : State) (updatedEq : Equipment) : State * Item :=
  saveProject rendered now now' stored
    (setEquipments current
       (map (fun e => if String.eqb (id e) (id updatedEq) then updatedEq else e)
            (equipments current))).

End Handlers.

(** *** The written text read back

    What [JSON.parse] gives for the text [JSON.stringify] wrote.  Strings,
    absent properties and finite numbers come back as they were, negative
    zero comes back as 0.  NaN and the infinities are written as [null]:
    the object read back is then no [ProjectState], and the result is
    [None]. *)

Definition readBackOptional (o : option float) : option (option float) :=
  match o with
  | None => Some None
  | Some x => option_map Some (JS.jsonNumber x)
  end.

Definition readBackLine (m : MaterialItem) : option MaterialItem :=
  match readBackOptional (m_weight m), readBackOptional (m_quantity m),
        JS.jsonNumber (m_unitPrice m), JS.jsonNumber (m_totalPrice m) with
  | Some weight, Some quantity, Some unitPrice, Some totalPrice =>
      Some {| m_id := m_id m;
              m_name := m_name m;
              m_material := m_material m;
              m_specification := m_specification m;
              m_weight := weight;
              m_quantity := quantity;
              m_unitPrice := unitPrice;
              m_totalPrice := totalPrice;
              m_category := m_category m |}
  | _, _, _, _ => None
  end.

Definition readBackEquipment (eq : SavedEquipment) : option SavedEquipment :=
  match readBackOptional (sv_designWeight eq), JS.allOrNone readBackLine (sv_materials eq) with
  | Some designWeight, Some materials =>
      Some {| sv_id := sv_id eq;
              sv_tag := sv_tag eq;
              sv_name := sv_name eq;
              sv_specification := sv_specification eq;
              sv_mainMaterial := sv_mainMaterial eq;
              sv_designWeight := designWeight;
              sv_pageRange := sv_pageRange eq;
              sv_sourceFileId := sv_sourceFileId eq;
              sv_materials := materials;
              sv_lastModified := sv_lastModified eq;
              sv_status := sv_status eq |}
  | _, _ => None
  end.

Definition readBackEquipments (o : option (list SavedEquipment))
  : option (option (list SavedEquipment)) :=
  match o with
  | None => Some None
  | Some eqs => option_map Some (JS.allOrNone readBackEquipment eqs)
  end.

Definition readBack (state : ProjectState) : option ProjectState :=
  match readBackEquipments (ps_equipments state),
        readBackOptional (ps_laborCostPerKg state),
        readBackOptional (ps_overheadPercent state) with
  | Some equipments, Some laborCostPerKg, Some overheadPercent =>
      Some {| ps_id := ps_id state;
              ps_name := ps_name state;
              ps_files := ps_files state;
              ps_equipments := equipments;
              ps_laborCostPerKg := laborCostPerKg;
              ps_overheadPercent := overheadPercent;
              ps_lastSaved := ps_lastSaved state |}
  | _, _, _ => None
  end.

(** The item as the load effect of the next session finds it. *)
Definition reopen (item : Item) : option Stored :=
  match item with
  | Kept stored => Some stored
  | Written state => option_map Saved (readBack state)
  end.

Definition handleSelectEquipment (current : State) (eq : Equipment) : State :=
  setView (setSelectedEquipmentId current (Some (id eq))) DETAIL.

Definition handleDeleteEquipment (rendered current : State) (id0 : string) : State :=
  let st1 := setEquipments current
               (filter (fun e => negb (String.eqb (id e) id0)) (equipments current)) in
  if JS.optStrEqb (selectedEquipmentId rendered) (Some id0)
  then setSelectedEquipmentId (setView st1 DIRECTORY) None
  else st1.

(** [equipments.find(e => e.id === selectedEquipmentId)]. *)
Definition selectedEquipment (st : State) : option Equipment :=
  JS.find (fun e => JS.optStrEqb (Some (id e)) (selectedEquipmentId st)) (equipments st).

End App.

(** ** Notions of the specification used to state the properties *)

Module Spec.

Open Scope float_scope.

(** The sum [Σ_{i<n} term i], accumulated from zero in index order. *)
Fixpoint sigma (term : nat -> float) (n : nat) : float :=
  match n with
  | O => 0
  | S k => sigma term k + term k
  end.

(** The term of the [i]-th element of a list, zero past its end. *)
Definition termAt {A : Type} (f : A -> float) (l : list A) (i : nat) : float :=
  match nth_error l i with
  | Some x => f x
  | None => 0
  end.

(** [weight], [quantity] and [unitPrice] of a line as numbers. *)
Definition weight (item : MaterialItem) : float := JS.toNumber (m_weight item).
Definition quantity (item : MaterialItem) : float := JS.toNumber (m_quantity item).
Definition unitPrice (item : MaterialItem) : float := m_unitPrice item.

(** An empty text field: absent or the empty string. *)
Definition emptyStr (o : option string) : Prop := o = None \/ o = Some ""%string.

(** An empty numeric field: absent, zero, or not a number. *)
Definition emptyNum (o : option float) : Prop :=
  o = None \/ exists x, o = Some x /\ ((x =? 0) = true \/ is_nan x = true).

(** How a fill-if-empty field may change in a merge. *)
Definition fillIfEmpty {A : Type} (empty : option A -> Prop)
           (existing incoming merged : option A) : Prop :=
  (~ empty existing -> merged = existing)
  /\ (merged <> existing -> empty existing /\ ~ empty incoming /\ merged = incoming).

(** A tag that does not name the equipment: absent, empty, or the
    placeholder the scan uses. *)
Definition unresolvedTag (tag : option string) : Prop :=
  tag = None \/ tag = Some ""%string \/ tag = Some "Unknown"%string.

(** What the structure scan leaves in the staging area. *)
Definition staged (e : Equipment) : Prop :=
  materials e = [] /\ status e = identified.

(** [sub] occurs in [s] as a contiguous run of characters. *)
Definition substringOf (sub s : string) : Prop :=
  exists pre post : string, s = (pre ++ sub ++ post)%string.

(** Case-insensitive containment in either direction. *)
Definition containEachOther (toLowerCase : string -> string) (a b : string) : Prop :=
  substringOf (toLowerCase b) (toLowerCase a) \/ substringOf (toLowerCase a) (toLowerCase b).



(** A response entry that carries no usable price. *)
Definition unpriced (p : RawPrice) : Prop := emptyNum (p_pricePerKg p).

(** A material line without its generated identifier. *)
Definition forgetId (m : MaterialItem) : MaterialItem :=
  {| m_id := "";
     m_name := m_name m;
     m_material := m_material m;
     m_specification := m_specification m;
     m_weight := m_weight m;
     m_quantity := m_quantity m;
     m_unitPrice := m_unitPrice m;
     m_totalPrice := m_totalPrice m;
     m_category := m_category m |}.

(** Two records with the same content: all fields but the generated
    identifier and the time stamp agree, the material lines up to their
    identifiers and their order, the drawings up to their order. *)
Definition sameRecord (a b : Equipment) : Prop :=
  tag a = tag b /\ name a = name b
  /\ specification a = specification b /\ mainMaterial a = mainMaterial b
  /\ designWeight a = designWeight b
  /\ pageRange a = pageRange b /\ sourceFileId a = sourceFileId b
  /\ status a = status b
  /\ Permutation (map forgetId (materials a)) (map forgetId (materials b))
  /\ Permutation (drawings a) (drawings b).

(** Two ledgers with the same record set: under every merge key both hold
    a record with the same content, or neither holds one. *)
Definition sameLedger (m1 m2 : JS.Map Equipment) : Prop :=
  forall k : string,
    match JS.mapGet m1 k, JS.mapGet m2 k with
    | Some a, Some b => sameRecord a b
    | None, None => True
    | _, _ => False
    end.

(** Two values of a fill-if-empty field that cannot conflict: they are
    equal, or exactly one of them is populated. *)
Definition agree {A : Type} (truthy : option A -> bool) (a b : option A) : Prop :=
  a = b \/ truthy a <> truthy b.

(** Two raw results whose metadata does not depend on which comes first. *)
Definition compatible (r1 r2 : RawEquipment) : Prop :=
  e_name r1 = e_name r2
  /\ agree JS.truthyOptStr (e_specification r1) (e_specification r2)
  /\ agree JS.truthyOptStr (e_mainMaterial r1) (e_mainMaterial r2)
  /\ agree JS.truthyOptNum (e_designWeight r1) (e_designWeight r2).

(** The raw results of a file that fall under the key [k], with their
    occurrence index. *)
Fixpoint hits (fileName k : string) (l : list RawEquipment) (start : nat)
  : list (nat * RawEquipment) :=
  match l with
  | [] => []
  | r :: rest =>
      if String.eqb k (ExtractionView.tagKey fileName start r)
      then (start, r) :: hits fileName k rest (S start)
      else hits fileName k rest (S start)
  end.

(** The effect of one such result on what the ledger holds under [k]. *)
Definition absorbHit (now i : nat) (url k : string) (o : option Equipment)
           (hit : nat * RawEquipment) : option Equipment :=
  let items := ExtractionView.rawItems now i (fst hit) (snd hit) in
  Some (match o with
        | Some existing => ExtractionView.mergeInto url items (snd hit) existing
        | None => ExtractionView.createNew now i (fst hit) k url items (snd hit)
        end).

(** The value a fill-if-empty field settles on over a run of results. *)
Definition settle {A : Type} (fill : option A -> option A -> option A)
           (l : list (option A)) : option A :=
  match l with
  | [] => None
  | first :: rest => fold_left fill rest first
  end.

(** The material lines of a raw result, without identifiers. *)
Definition bareItems (hit : nat * RawEquipment) : list MaterialItem :=
  map forgetId (ExtractionView.rawItems 0 0 0 (snd hit)).

(** The record a key holds after its first run of results [h], all read
    from the drawing [url]. *)
Definition born (k url : string) (h : list (nat * RawEquipment)) (e : Equipment) : Prop :=
  tag e = (if JS.startsWith k "Unknown-" then "未命名设备" else k)%string
  /\ name e = match h with first :: _ => e_name (snd first) | [] => None end
  /\ pageRange e = None /\ sourceFileId e = None /\ status e = complete
  /\ specification e
     = settle ExtractionView.fillStr (map (fun hit => e_specification (snd hit)) h)
  /\ mainMaterial e
     = settle ExtractionView.fillStr (map (fun hit => e_mainMaterial (snd hit)) h)
  /\ designWeight e
     = settle ExtractionView.fillNum (map (fun hit => e_designWeight (snd hit)) h)
  /\ map forgetId (materials e) = flat_map bareItems h
  /\ drawings e = [url].

(** The record [e'] that [e] becomes after a further run of results [h],
    all read from the drawing [url]. *)
Definition grown (e : Equipment) (url : string) (h : list (nat * RawEquipment))
           (e' : Equipment) : Prop :=
  tag e' = tag e /\ name e' = name e
  /\ pageRange e' = pageRange e /\ sourceFileId e' = sourceFileId e
  /\ status e' = status e
  /\ specification e'
     = fold_left ExtractionView.fillStr (map (fun hit => e_specification (snd hit)) h)
                 (specification e)
  /\ mainMaterial e'
     = fold_left ExtractionView.fillStr (map (fun hit => e_mainMaterial (snd hit)) h)
                 (mainMaterial e)
  /\ designWeight e'
     = fold_left ExtractionView.fillNum (map (fun hit => e_designWeight (snd hit)) h)
                 (designWeight e)
  /\ map forgetId (materials e') = (map forgetId (materials e) ++ flat_map bareItems h)%list
  /\ drawings e' = match h with
                   | [] => drawings e
                   | _ :: _ => ExtractionView.pushIfAbsent (drawings e) url
                   end.

(** A string without a hyphen. *)
Fixpoint dashFree (s : string) : bool :=
  match s with
  | EmptyString => true
  | String c rest => negb (Ascii.eqb c "-") && dashFree rest
  end.

(** The roll-up recomputed from the flattened material lines of a project. *)
Definition flattenedTotal (laborCostPerKg overheadPercent : float)
           (equipments : list Equipment) : float :=
  BudgetView.grandTotal
    (BudgetView.rollup
       {| id := ""; tag := ""; name := None; specification := None;
          mainMaterial := None; designWeight := None; pageRange := None;
          sourceFileId := None; materials := flat_map materials equipments;
          drawings := []; lastModified := 0; status := complete |}
       laborCostPerKg overheadPercent).

(** The costs of the lines charted under a label, in list order. *)
Definition costsOf (label : BudgetView.Label) (materials : list MaterialItem) : list float :=
  map BudgetView.lineCost
      (filter (fun item => JS.valueEqb (BudgetView.categoryLabel (m_category item)) label)
              materials).

(** The value the chart data holds under a label: that of the first entry
    whose name is the label. *)
Fixpoint chartValueAt (data : list (BudgetView.Label * float)) (label : BudgetView.Label)
  : option float :=
  match data with
  | [] => None
  | (name, value) :: rest =>
      if JS.valueEqb name label then Some value else chartValueAt rest label
  end.

(** The labels of the table. *)
Definition tableLabels : list string := ["板材"; "锻件"; "管材"; "耗材"; "其他"]%string.

(** The chart value of a run of costs: the first one, then each next one
    added to it. *)
Definition chartValue (costs : list float) : option float :=
  match costs with
  | [] => None
  | c :: cs => Some (fold_left PrimFloat.add cs c)
  end.

(** One more cost under a label of the chart. *)
Definition chartStep (o : option float) (cost : float) : option float :=
  Some (match o with Some v => PrimFloat.add v cost | None => cost end).

(** A line with its price set aside. *)
Definition unpricedLine (m : MaterialItem) : MaterialItem := BudgetView.setUnitPrice m 0.

(** How often a character occurs in a string, and in the strings of a list. *)
Fixpoint countChar (c : ascii) (s : string) : nat :=
  match s with
  | EmptyString => 0
  | String a rest => (if Ascii.eqb a c then 1 else 0) + countChar c rest
  end.

Fixpoint countIn (c : ascii) (l : list string) : nat :=
  match l with
  | [] => 0
  | s :: rest => countChar c s + countIn c rest
  end.

(** The queue entry after its turn in [processQueue]. *)
Definition settled (analyze : ExtractionView.File -> option (list RawEquipment))
           (entry : ExtractionView.FileStatus) : ExtractionView.FileStatus :=
  match ExtractionView.fs_status entry with
  | ExtractionView.q_success => entry
  | _ =>
      match analyze (ExtractionView.fs_file entry) with
      | Some _ => ExtractionView.mkFileStatus (ExtractionView.fs_file entry)
                                              ExtractionView.q_success
      | None => ExtractionView.mkFileStatus (ExtractionView.fs_file entry)
                                            ExtractionView.q_error
      end
  end.

(** The number of material lines of a raw result, of a list of raw
    results, and of all the files a run of the queue analyses. *)
Definition rawLineCount (r : RawEquipment) : nat :=
  match e_materials r with Some l => List.length l | None => 0 end.

Fixpoint rawLines (l : list RawEquipment) : nat :=
  match l with
  | [] => 0
  | r :: rest => rawLineCount r + rawLines rest
  end.

Fixpoint analysedLines (analyze : ExtractionView.File -> option (list RawEquipment))
         (queue : list ExtractionView.FileStatus) : nat :=
  match queue with
  | [] => 0
  | entry :: rest =>
      match ExtractionView.fs_status entry with
      | ExtractionView.q_success => analysedLines analyze rest
      | _ =>
          match analyze (ExtractionView.fs_file entry) with
          | Some raws => rawLines raws + analysedLines analyze rest
          | None => analysedLines analyze rest
          end
      end
  end.

(** The number of material lines a ledger holds. *)
Fixpoint ledgerLines (m : JS.Map Equipment) : nat :=
  match m with
  | [] => 0
  | (_, e) :: rest => List.length (materials e) + ledgerLines rest
  end.

(** What every record of the extraction view's ledger satisfies. *)
Definition wellFormedRecord (e : Equipment) : Prop :=
  status e = complete /\ drawings e <> [] /\ NoDup (drawings e).

(** The last price a pricing response gives for a name, among its named
    and priced entries. *)
Fixpoint lastPrice (name : string) (response : list RawPrice) (sofar : option float)
  : option float :=
  match response with
  | [] => sofar
  | p :: rest =>
      match p_material p, p_pricePerKg p with
      | Some material, Some price =>
          if JS.truthyStr material && JS.truthyNum price && String.eqb name material
          then lastPrice name rest (Some price)
          else lastPrice name rest sofar
      | _, _ => lastPrice name rest sofar
      end
  end.

(** An equipment with its drawings dropped. *)
Definition clearDrawings (e : Equipment) : Equipment :=
  {| id := id e;
     tag := tag e;
     name := name e;
     specification := specification e;
     mainMaterial := mainMaterial e;
     designWeight := designWeight e;
     pageRange := pageRange e;
     sourceFileId := sourceFileId e;
     materials := materials e;
     drawings := [];
     lastModified := lastModified e;
     status := status e |}.

(** A number as the stored text holds it when it is finite: negative zero
    is written as 0. *)
Definition storedNumber (x : float) : float :=
  if PrimFloat.is_zero x then 0%float else x.

Definition storedLine (m : MaterialItem) : MaterialItem :=
  {| m_id := m_id m;
     m_name := m_name m;
     m_material := m_material m;
     m_specification := m_specification m;
     m_weight := option_map storedNumber (m_weight m);
     m_quantity := option_map storedNumber (m_quantity m);
     m_unitPrice := storedNumber (m_unitPrice m);
     m_totalPrice := storedNumber (m_totalPrice m);
     m_category := m_category m |}.

(** An equipment as a new session shows it after a save: without its
    drawings, and with its numbers as the text holds them. *)
Definition asStored (e : Equipment) : Equipment :=
  {| id := id e;
     tag := tag e;
     name := name e;
     specification := specification e;
     mainMaterial := mainMaterial e;
     designWeight := option_map storedNumber (designWeight e);
     pageRange := pageRange e;
     sourceFileId := sourceFileId e;
     materials := map storedLine (materials e);
     drawings := [];
     lastModified := lastModified e;
     status := status e |}.

(** Numbers that JSON can hold: neither NaN nor infinite. *)
Definition finite (x : float) : bool :=
  negb (PrimFloat.is_nan x || PrimFloat.is_infinity x).

Definition finiteOptional (o : option float) : bool :=
  match o with Some x => finite x | None => true end.

Definition finiteLine (m : MaterialItem) : bool :=
  finiteOptional (m_weight m) && finiteOptional (m_quantity m)
  && finite (m_unitPrice m) && finite (m_totalPrice m).

Definition finiteEquipment (e : Equipment) : bool :=
  finiteOptional (designWeight e) && forallb finiteLine (materials e).

(** Every number of the project a save writes is finite. *)
Definition finiteProject (st : App.State) : bool :=
  forallb finiteEquipment (App.equipments st)
  && finite (App.laborCost st) && finite (App.overhead st).

(** What a new session shows of a project parameter that was saved: the
    saved number, or the initial 15 when that number is zero or not a
    number. *)
Definition restoredParameter (x : float) : float :=
  if JS.truthyNum x then x else 15%float.

(** The tags the structure scan gives the records of one file. *)
Definition scannedTags (scan : string -> string -> option (list ScanEntry))
           (file : UploadedFile) : list string :=
  if negb (JS.truthyStr (f_data file)) then []
  else match scan (f_data file) (f_mimeType file) with
       | Some results => map (fun res => JS.orStr (s_tag res) "Unknown") results
       | None => []
       end.

(** What a run of the queue keeps true of its ledger: distinct keys, and
    well-formed records. *)
Definition ledgerInvariant (m : JS.Map Equipment) : Prop :=
  NoDup (map fst m) /\ Forall (fun kv => wellFormedRecord (snd kv)) m.

(** A record of the scan points at a file of the upload list. *)
Definition scannedFrom (files : list UploadedFile) (e : Equipment) : Prop :=
  exists file,
    In file files
    /\ sourceFileId e = Some (f_id file)
    /\ drawings e = [f_data file]
    /\ f_data file <> ""%string.

End Spec.

(** ** Sample inputs *)

Module Examples.

Import ExtractionView.
Open Scope string_scope.

Definition fileA : File := mkFile "a.pdf" "application/pdf" "data:application/pdf;base64,QQ==".
Definition fileB : File := mkFile "b.pdf" "application/pdf" "data:application/pdf;base64,Qg==".

(** Another file that is also called a.pdf. *)
Definition fileA2 : File := mkFile "a.pdf" "application/pdf" "data:application/pdf;base64,Qw==".

Definition shell : RawLine :=
  mkRawLine (Some "Shell") (Some "Q345R") (Some "DN1000") (Some 10%float) (Some 2%float)
            (Some "plate").

(** A line for which the response gives neither weight nor quantity, and
    a category outside the enumeration. *)
Definition gasket : RawLine :=
  mkRawLine (Some "Gasket") (Some "PTFE") None None None (Some "gasket").

Definition tagged (spec : option string) : RawEquipment :=
  mkRawEquipment (Some "V-1") (Some "Buffer tank") None spec None None (Some [shell]).

Definition untagged : RawEquipment :=
  mkRawEquipment None (Some "Tank") None None None None (Some [shell]).

(** Every file holds one equipment without a tag. *)
Definition analyzeUntagged (f : File) : option (list RawEquipment) := Some [untagged].

(** a.pdf and b.pdf both show V-1, with different specifications. *)
Definition analyzeTagged (f : File) : option (list RawEquipment) :=
  if String.eqb (file_name f) "a.pdf"
  then Some [tagged (Some "DN1200")]
  else Some [tagged (Some "DN1400")].

Definition pending (f : File) : FileStatus := mkFileStatus f q_pending.

Definition recordA : Equipment :=
  createNew 0 0 0 "V-1" (file_dataUrl fileA) (rawItems 0 0 0 (tagged None)) (tagged None).

Definition upload : UploadedFile := mkUploadedFile "file-1" "a.pdf" "application/pdf" "QQ==".

Definition scanTwo (data mime : string) : option (list ScanEntry) :=
  Some [mkScanEntry (Some "V-1") (Some "Buffer tank") (Some "1-2");
        mkScanEntry (Some "V-2") None None].

(** The detail call fails for V-1 and succeeds for every other tag. *)
Definition extractFailingV1 (data mime tag pages : string) : option Details :=
  if String.eqb tag "V-1" then None
  else Some (mkDetails None None (Some "DN800") None (Some 120%float) (Some [shell])).

Definition freshId (n : nat) : string := "eq-" ++ JS.natToString n.

(** The pricing response of the specification's example, with one entry
    whose price is zero. *)
Definition lookupSteel (names : list (option string)) : option (option (list RawPrice)) :=
  Some (Some [mkRawPrice (Some "304不锈钢") (Some 18%float);
              mkRawPrice (Some "碳钢") (Some 5%float);
              mkRawPrice (Some "Q345R") (Some 0%float)]).

Definition lookupFails (names : list (option string)) : option (option (list RawPrice)) :=
  None.

Definition steelPlate : MaterialItem :=
  mkMaterialItem "m1" (Some "Shell") (Some "304不锈钢板") (Some "-") (Some 10%float)
                 (Some 2%float) 3%float 0%float "plate".

Definition alloy : MaterialItem :=
  mkMaterialItem "m2" (Some "Nozzle") (Some "合金钢") (Some "-") (Some 3%float)
                 (Some 1%float) 7%float 0%float "pipe".


(** A priced line of a given category. *)
Definition priced (category : string) : MaterialItem :=
  mkMaterialItem "m5" (Some "Part") (Some "Q235") (Some "-") (Some 2%float) (Some 1%float)
                 4%float 0%float category.

Definition vesselPlate : MaterialItem :=
  mkMaterialItem "m3" (Some "Head") (Some "q345r") (Some "-") (Some 4%float)
                 (Some 1%float) 6%float 0%float "plate".

(** a.pdf and b.pdf both show V-1; only b.pdf gives its specification. *)
Definition analyzeCompatible (f : File) : option (list RawEquipment) :=
  if String.eqb (file_name f) "a.pdf"
  then Some [tagged None]
  else Some [tagged (Some "DN1400")].

(** The detail call of the extraction view, failing for V-1. *)
Definition extractFailingV1Raw (data mime : string) (tag pages : option string)
  : option Details :=
  if JS.optStrEqb tag (Some "V-1") then None
  else Some (mkDetails None None (Some "DN800") None (Some 120%float) (Some [shell])).

End Examples.

(** * Properties *)

(** ** Numbers *)

Section FloatFacts.

Open Scope float_scope.

Lemma SFeqb_finite_refl (s : bool) (m : positive) (e : Z) :
  SFeqb (S754_finite s m e) (S754_finite s m e) = true.
Proof.
  unfold SFeqb, SFcompare.
  destruct s; rewrite Z.compare_refl, Pos.compare_refl; reflexivity.
Qed.

Lemma falsy_not_positive (x : float) :
  JS.truthyNum x = false -> (0 <? x) = false.
Proof.
  unfold JS.truthyNum, is_zero, is_nan.
  rewrite FloatAxioms.ltb_spec, !FloatAxioms.eqb_spec.
  change (Prim2SF 0) with (S754_zero false).
  destruct (Prim2SF x) as [s | s | | s m e]; try reflexivity.
  - destruct s; discriminate.
  - rewrite SFeqb_finite_refl. destruct s; discriminate.
Qed.

Lemma zero_not_positive (x : float) :
  (x =? 0) = true -> (0 <? x) = false.
Proof.
  rewrite FloatAxioms.ltb_spec, FloatAxioms.eqb_spec.
  change (Prim2SF 0) with (S754_zero false).
  destruct (Prim2SF x) as [s | s | | s m e]; try reflexivity.
  - destruct s; discriminate.
  - destruct s; discriminate.
Qed.

Lemma truthy_not_zero (x : float) :
  JS.truthyNum x = true -> (x =? 0) = false.
Proof.
  unfold JS.truthyNum, is_zero. intros H.
  apply negb_true_iff in H. apply orb_false_iff in H. apply H.
Qed.

End FloatFacts.

(** ** Cost roll-up *)

Section Rollup.

Open Scope float_scope.

Lemma sigma_ext (t1 t2 : nat -> float) (n : nat) :
  (forall i, (i < n)%nat -> t1 i = t2 i) -> Spec.sigma t1 n = Spec.sigma t2 n.
Proof.
  induction n as [| n IH]; intros H; simpl.
  - reflexivity.
  - rewrite IH by (intros i Hi; apply H; lia).
    rewrite (H n) by lia. reflexivity.
Qed.

Lemma termAt_app_left {A : Type} (f : A -> float) (l l' : list A) (i : nat) :
  (i < List.length l)%nat -> Spec.termAt f (l ++ l') i = Spec.termAt f l i.
Proof.
  intros Hi. unfold Spec.termAt. rewrite nth_error_app1 by exact Hi. reflexivity.
Qed.

Lemma termAt_app_last {A : Type} (f : A -> float) (l : list A) (x : A) :
  Spec.termAt f (l ++ [x]) (List.length l) = f x.
Proof.
  unfold Spec.termAt. rewrite nth_error_app2 by lia.
  rewrite Nat.sub_diag. reflexivity.
Qed.

(** [reduce] with [sum + f item] from [0] is the sum in index order. *)
Lemma reduce_sigma {A : Type} (f : A -> float) (l : list A) :
  JS.reduce (fun sum item => sum + f item) 0 l
  = Spec.sigma (Spec.termAt f l) (List.length l).
Proof.
  unfold JS.reduce.
  induction l as [| x l IH] using rev_ind.
  - reflexivity.
  - rewrite fold_left_app, length_app, Nat.add_comm. simpl.
    rewrite IH, termAt_app_last. f_equal.
    apply sigma_ext. intros i Hi. symmetry. apply termAt_app_left. exact Hi.
Qed.

Lemma calculateCost_rollup (l o : float) (eq : Equipment) :
  EquipmentDirectory.calculateCost l o eq
  = BudgetView.grandTotal (BudgetView.rollup eq l o).
Proof. reflexivity. Qed.

(** C1: for every equipment and pricing parameters the roll-up is
    totalWeight = Σ weight × quantity, materialCost = Σ weight × quantity ×
    unitPrice, laborCost = totalWeight × laborCostPerKg, overheadCost =
    (materialCost + laborCost) × (overheadPercent / 100) and grandTotal =
    materialCost + laborCost + overheadCost; the directory's
    [calculateCost] returns the same grand total. *)
Theorem rollup_formulas (eq : Equipment) (l o : float) :
  let r := BudgetView.rollup eq l o in
  let n := List.length (materials eq) in
  BudgetView.totalWeight r
  = Spec.sigma (Spec.termAt (fun m => Spec.weight m * Spec.quantity m) (materials eq)) n
  /\ BudgetView.materialCost r
     = Spec.sigma (Spec.termAt (fun m => Spec.weight m * Spec.quantity m * Spec.unitPrice m)
                               (materials eq)) n
  /\ BudgetView.laborCost r = BudgetView.totalWeight r * l
  /\ BudgetView.overheadCost r
     = (BudgetView.materialCost r + BudgetView.laborCost r) * (o / 100)
  /\ BudgetView.grandTotal r
     = BudgetView.materialCost r + BudgetView.laborCost r + BudgetView.overheadCost r
  /\ EquipmentDirectory.calculateCost l o eq = BudgetView.grandTotal r.
Proof.
  cbv zeta. repeat split.
  - apply (reduce_sigma BudgetView.lineWeight).
  - apply (reduce_sigma BudgetView.lineCost).
Qed.

(** C2: the project total is the sum, over the equipment in order, of each
    equipment's own roll-up grand total. *)
Theorem project_total_is_sum_of_rollups (l o : float) (equipments : list Equipment) :
  EquipmentDirectory.grandTotal l o equipments
  = Spec.sigma
      (Spec.termAt (fun eq => BudgetView.grandTotal (BudgetView.rollup eq l o)) equipments)
      (List.length equipments).
Proof.
  unfold EquipmentDirectory.grandTotal.
  rewrite (reduce_sigma (EquipmentDirectory.calculateCost l o)).
  apply sigma_ext. intros i _. unfold Spec.termAt.
  destruct (nth_error equipments i); [apply calculateCost_rollup | reflexivity].
Qed.

End Rollup.

(** The project total is not the roll-up of the flattened lines: with one
    line of 1 kg and one of 2 kg at unit price 1 and 10 % overhead the two
    differ in the last place. *)
Example project_total_not_flattened :
  let line w := mkMaterialItem "" None None None (Some w) (Some 1%float) 1%float 0%float "other" in
  let eq w := mkEquipment "" "" None None None None None None [line w] [] 0 complete in
  EquipmentDirectory.grandTotal 0 10 [eq 1%float; eq 2%float]
  <> Spec.flattenedTotal 0 10 [eq 1%float; eq 2%float].
Proof.
  cbv zeta. intros H.
  apply (f_equal (fun x => PrimFloat.eqb x 0x1.a666666666667p+1%float)) in H.
  vm_compute in H. discriminate H.
Qed.

(** ** Weight-discrepancy flag *)

Section WeightWarning.

Open Scope float_scope.

Lemma bomWeight_is_totalWeight (eq : Equipment) (l o : float) :
  EquipmentDirectory.bomWeight eq = BudgetView.totalWeight (BudgetView.rollup eq l o).
Proof. reflexivity. Qed.

Lemma designW_cases (eq : Equipment) :
  (exists d, designWeight eq = Some d /\ JS.truthyNum d = true
             /\ EquipmentDirectory.designW eq = d)
  \/ (JS.truthyOptNum (designWeight eq) = false /\ EquipmentDirectory.designW eq = 0).
Proof.
  unfold EquipmentDirectory.designW, JS.orNum, JS.truthyOptNum.
  destruct (designWeight eq) as [d |]; [| right; split; reflexivity].
  destruct (JS.truthyNum d) eqn:Hd.
  - left. exists d. repeat split. exact Hd.
  - right. split; reflexivity.
Qed.

(** C3: the flag is set exactly when the design weight d and the BOM
    weight w satisfy d > 0, w > 0 and |d - w| / d > 0.1; it is not set
    when the design weight is absent or zero, nor when the BOM weight is
    zero. *)
Theorem weightWarning_iff (eq : Equipment) :
  let w := EquipmentDirectory.bomWeight eq in
  (EquipmentDirectory.weightWarning eq = true <->
     exists d, designWeight eq = Some d
               /\ (0 <? d) = true /\ (0 <? w) = true
               /\ (0.1 <? abs (d - w) / d) = true)
  /\ ((forall d, designWeight eq = Some d -> (d =? 0) = true) ->
      EquipmentDirectory.weightWarning eq = false)
  /\ ((w =? 0) = true -> EquipmentDirectory.weightWarning eq = false).
Proof.
  cbv zeta. unfold EquipmentDirectory.weightWarning.
  destruct (designW_cases eq) as [(d & Hd & Ht & ->) | (Hf & ->)].
  - split; [| split].
    + rewrite !andb_true_iff. split.
      * intros [[H1 H2] H3]. exists d. auto.
      * intros (d' & Hd' & H1 & H2 & H3).
        rewrite Hd in Hd'. injection Hd' as <-. auto.
    + intros Hz. specialize (Hz d Hd).
      rewrite (zero_not_positive d Hz). reflexivity.
    + intros Hz. rewrite (zero_not_positive _ Hz).
      apply andb_false_iff. left. apply andb_false_r.
  - split; [| split]; try (intros _; reflexivity).
    split; [intros H; discriminate H |].
    intros (d & Hd & H1 & _). rewrite Hd in Hf. simpl in Hf.
    rewrite (falsy_not_positive d Hf) in H1. discriminate H1.
Qed.

Lemma weightWarning_iff_witness :
  EquipmentDirectory.weightWarning
    (mkEquipment "" "V-1" None None None (Some 25) None None
       [mkMaterialItem "" None None None (Some 10) (Some 2) 5 0 "plate"] [] 0 complete)
  = true.
Proof.
  apply (proj1 (weightWarning_iff _)).
  exists 25. repeat split.
Defined.

End WeightWarning.

(** ** Insertion-ordered maps *)

Section MapFacts.

Context {V : Type}.

Lemma mapGet_mapMutate (m : JS.Map V) (k k' : string) (f : V -> V) :
  JS.mapGet (JS.mapMutate m k f) k'
  = if String.eqb k' k then option_map f (JS.mapGet m k) else JS.mapGet m k'.
Proof.
  unfold JS.mapGet. induction m as [| [k0 v0] m IH]; simpl.
  - destruct (String.eqb k' k); reflexivity.
  - destruct (String.eqb k k0) eqn:E; simpl.
    + apply String.eqb_eq in E. subst k0.
      destruct (String.eqb k' k); reflexivity.
    + destruct (String.eqb k' k0) eqn:E'; simpl.
      * apply String.eqb_eq in E'. subst k0.
        rewrite String.eqb_sym, E. reflexivity.
      * exact IH.
Qed.

Lemma mapGet_mapSet (m : JS.Map V) (k k' : string) (v : V) :
  JS.mapGet (JS.mapSet m k v) k'
  = if String.eqb k' k then Some v else JS.mapGet m k'.
Proof.
  unfold JS.mapGet, JS.mapSet. induction m as [| [k0 v0] m IH]; simpl.
  - reflexivity.
  - destruct (String.eqb k k0) eqn:E; simpl.
    + apply String.eqb_eq in E. subst k0.
      destruct (String.eqb k' k); reflexivity.
    + destruct (String.eqb k' k0) eqn:E'; simpl.
      * apply String.eqb_eq in E'. subst k0.
        rewrite String.eqb_sym, E. reflexivity.
      * exact IH.
Qed.

End MapFacts.

(** ** Consolidation: the merge step *)

Section MergeStep.

Import ExtractionView.

Variable now : nat.

Lemma truthyOptStr_false (o : option string) :
  JS.truthyOptStr o = false <-> Spec.emptyStr o.
Proof.
  unfold Spec.emptyStr, JS.truthyOptStr, JS.truthyStr. split.
  - destruct o as [s |]; [| auto].
    intros H. apply negb_false_iff, String.eqb_eq in H. subst s. auto.
  - intros [-> | ->]; reflexivity.
Qed.

Lemma truthyOptNum_false (o : option float) :
  JS.truthyOptNum o = false <-> Spec.emptyNum o.
Proof.
  unfold Spec.emptyNum, JS.truthyOptNum, JS.truthyNum, is_zero. split.
  - destruct o as [x |]; [| auto].
    intros H. apply negb_false_iff, orb_true_iff in H. right. exists x. auto.
  - intros [-> | (x & -> & H)]; [reflexivity |].
    apply negb_false_iff, orb_true_iff. exact H.
Qed.

Lemma fillStr_spec (existing incoming : option string) :
  Spec.fillIfEmpty Spec.emptyStr existing incoming (fillStr existing incoming).
Proof.
  unfold Spec.fillIfEmpty, fillStr.
  destruct (JS.truthyOptStr existing) eqn:He; simpl.
  - split; [reflexivity | intros H; now elim H].
  - destruct (JS.truthyOptStr incoming) eqn:Hi.
    + split.
      * intros H. elim H. apply truthyOptStr_false, He.
      * intros _. split; [apply truthyOptStr_false, He |]. split; [| reflexivity].
        intros H. apply truthyOptStr_false in H. congruence.
    + split; [reflexivity | intros H; now elim H].
Qed.

Lemma fillNum_spec (existing incoming : option float) :
  Spec.fillIfEmpty Spec.emptyNum existing incoming (fillNum existing incoming).
Proof.
  unfold Spec.fillIfEmpty, fillNum.
  destruct (JS.truthyOptNum existing) eqn:He; simpl.
  - split; [reflexivity | intros H; now elim H].
  - destruct (JS.truthyOptNum incoming) eqn:Hi.
    + split.
      * intros H. elim H. apply truthyOptNum_false, He.
      * intros _. split; [apply truthyOptNum_false, He |]. split; [| reflexivity].
        intros H. apply truthyOptNum_false in H. congruence.
    + split; [reflexivity | intros H; now elim H].
Qed.

(** What the map holds under any key after one raw result is merged. *)
Lemma mapGet_mergeEquipment (i : nat) (file : File) (m : JS.Map Equipment)
      (eqData : RawEquipment) (eqIdx : nat) (k : string) :
  let key := tagKey (file_name file) eqIdx eqData in
  let items := rawItems now i eqIdx eqData in
  JS.mapGet (mergeEquipment now i file m eqData eqIdx) k
  = if String.eqb k key
    then Some (match JS.mapGet m key with
               | Some existing => mergeInto (file_dataUrl file) items eqData existing
               | None => createNew now i eqIdx key (file_dataUrl file) items eqData
               end)
    else JS.mapGet m k.
Proof.
  cbv zeta. unfold mergeEquipment, JS.mapHas.
  destruct (JS.mapGet m (tagKey (file_name file) eqIdx eqData)) as [e |] eqn:E.
  - rewrite mapGet_mapMutate, E. reflexivity.
  - rewrite mapGet_mapSet. reflexivity.
Qed.

(** C4: when a raw result is merged into the record already stored under
    its key, each of specification, mainMaterial and designWeight keeps
    its value if that value is populated, and changes only from an empty
    value to a non-empty incoming one. *)
Theorem merge_fills_only_empty_fields (i : nat) (file : File) (m : JS.Map Equipment)
        (eqData : RawEquipment) (eqIdx : nat) (existing : Equipment) :
  let key := tagKey (file_name file) eqIdx eqData in
  JS.mapGet m key = Some existing ->
  exists merged,
    JS.mapGet (mergeEquipment now i file m eqData eqIdx) key = Some merged
    /\ Spec.fillIfEmpty Spec.emptyStr (specification existing)
                        (e_specification eqData) (specification merged)
    /\ Spec.fillIfEmpty Spec.emptyStr (mainMaterial existing)
                        (e_mainMaterial eqData) (mainMaterial merged)
    /\ Spec.fillIfEmpty Spec.emptyNum (designWeight existing)
                        (e_designWeight eqData) (designWeight merged).
Proof.
  cbv zeta. intros Hget.
  rewrite mapGet_mergeEquipment. cbv zeta.
  rewrite String.eqb_refl, Hget.
  eexists. split; [reflexivity |]. simpl.
  split; [apply fillStr_spec | split; [apply fillStr_spec | apply fillNum_spec]].
Qed.

(** The populated fields of a record survive every later merge of a file. *)
Lemma populated_fields_are_stable (i : nat) (file : File)
      (equipments : list RawEquipment) :
  forall (start : nat) (m : JS.Map Equipment) (k : string) (e : Equipment),
    JS.mapGet m k = Some e ->
    exists e',
      JS.mapGet (JS.forEachFrom (mergeEquipment now i file) equipments start m) k = Some e'
      /\ (~ Spec.emptyStr (specification e) -> specification e' = specification e)
      /\ (~ Spec.emptyStr (mainMaterial e) -> mainMaterial e' = mainMaterial e)
      /\ (~ Spec.emptyNum (designWeight e) -> designWeight e' = designWeight e).
Proof.
  induction equipments as [| eqData rest IH]; intros start m k e Hget; simpl.
  - exists e. auto.
  - pose proof (mapGet_mergeEquipment i file m eqData start k) as Hstep.
    cbv zeta in Hstep.
    destruct (String.eqb k (tagKey (file_name file) start eqData)) eqn:Ek.
    + apply String.eqb_eq in Ek. subst k. rewrite Hget in Hstep.
      destruct (IH (S start) _ _ _ Hstep) as (e' & He' & Hs & Hm & Hd).
      exists e'. split; [exact He' |]. simpl in Hs, Hm, Hd.
      pose proof (fillStr_spec (specification e) (e_specification eqData)) as [Fs _].
      pose proof (fillStr_spec (mainMaterial e) (e_mainMaterial eqData)) as [Fm _].
      pose proof (fillNum_spec (designWeight e) (e_designWeight eqData)) as [Fd _].
      split; [| split]; intros Hne.
      * rewrite <- (Fs Hne). apply Hs. rewrite (Fs Hne). exact Hne.
      * rewrite <- (Fm Hne). apply Hm. rewrite (Fm Hne). exact Hne.
      * rewrite <- (Fd Hne). apply Hd. rewrite (Fd Hne). exact Hne.
    + rewrite Hget in Hstep. apply (IH (S start) _ _ _ Hstep).
Qed.

End MergeStep.

Lemma merge_fills_only_empty_fields_witness :
  exists merged,
    JS.mapGet (ExtractionView.mergeEquipment 0 1 Examples.fileB
                 [("V-1"%string, Examples.recordA)] (Examples.tagged (Some "DN1400"%string)) 0)
              "V-1"%string = Some merged
    /\ Spec.fillIfEmpty Spec.emptyStr (specification Examples.recordA)
                        (Some "DN1400"%string) (specification merged)
    /\ Spec.fillIfEmpty Spec.emptyStr (mainMaterial Examples.recordA)
                        None (mainMaterial merged)
    /\ Spec.fillIfEmpty Spec.emptyNum (designWeight Examples.recordA)
                        None (designWeight merged).
Proof.
  apply (merge_fills_only_empty_fields 0 1 Examples.fileB
           [("V-1"%string, Examples.recordA)] (Examples.tagged (Some "DN1400"%string)) 0
           Examples.recordA).
  reflexivity.
Defined.

(** ** Merge keys of unresolved tags *)

Section MergeKeys.

Import ExtractionView.
Open Scope string_scope.

Lemma dashFree_natToString (n : nat) : Spec.dashFree (JS.natToString n) = true.
Proof.
  unfold JS.natToString. induction (Nat.to_uint n); simpl; auto.
Qed.

Lemma natToString_inj (a b : nat) : JS.natToString a = JS.natToString b -> a = b.
Proof.
  unfold JS.natToString. intros H.
  apply (f_equal NilEmpty.uint_of_string) in H.
  rewrite !NilEmpty.usu in H. injection H as H.
  apply (f_equal Nat.of_uint) in H.
  rewrite !DecimalNat.Unsigned.of_to in H. exact H.
Qed.

Lemma dashFree_with_dash (s d : string) : Spec.dashFree (s ++ String "-" d) = false.
Proof.
  induction s as [| c s IH]; simpl.
  - reflexivity.
  - rewrite IH. apply andb_false_r.
Qed.

(** The text before the last hyphen and the text after it are determined
    by the whole string. *)
Lemma split_at_last_dash (s1 s2 d1 d2 : string) :
  Spec.dashFree d1 = true -> Spec.dashFree d2 = true ->
  s1 ++ String "-" d1 = s2 ++ String "-" d2 -> s1 = s2 /\ d1 = d2.
Proof.
  intros H1 H2. revert s2.
  induction s1 as [| c s1 IH]; intros [| c' s2]; simpl; intros E.
  - injection E as E. auto.
  - injection E as Ec E. subst d1.
    rewrite dashFree_with_dash in H1. discriminate H1.
  - injection E as Ec E. subst d2.
    rewrite dashFree_with_dash in H2. discriminate H2.
  - injection E as Ec E. destruct (IH _ E) as [-> ->]. subst c'. auto.
Qed.

Lemma unknownKey_inj (f1 f2 : string) (i1 i2 : nat) :
  unknownKey f1 i1 = unknownKey f2 i2 -> f1 = f2 /\ i1 = i2.
Proof.
  unfold unknownKey. simpl. intros E. injection E as E.
  apply split_at_last_dash in E; try apply dashFree_natToString.
  destruct E as [-> E]. apply natToString_inj in E. auto.
Qed.

Lemma tagKey_unresolved (fileName : string) (eqIdx : nat) (eqData : RawEquipment) :
  Spec.unresolvedTag (e_tag eqData) ->
  tagKey fileName eqIdx eqData = unknownKey fileName eqIdx.
Proof.
  unfold tagKey. intros [H | [H | H]]; rewrite H; reflexivity.
Qed.

(** C5 (as amended): two raw results with an unresolved tag that come from
    files with different names have different merge keys, so merging one
    of them never touches the record of the other. *)
Theorem unresolved_tags_distinct_by_file_name
        (f1 f2 : File) (i1 i2 : nat) (r1 r2 : RawEquipment) :
  Spec.unresolvedTag (e_tag r1) -> Spec.unresolvedTag (e_tag r2) ->
  file_name f1 <> file_name f2 ->
  tagKey (file_name f1) i1 r1 <> tagKey (file_name f2) i2 r2
  /\ (forall now j m,
         JS.mapGet (mergeEquipment now j f2 m r2 i2) (tagKey (file_name f1) i1 r1)
         = JS.mapGet m (tagKey (file_name f1) i1 r1))
  /\ (forall now j m,
         JS.mapGet (mergeEquipment now j f1 m r1 i1) (tagKey (file_name f2) i2 r2)
         = JS.mapGet m (tagKey (file_name f2) i2 r2)).
Proof.
  intros U1 U2 Hne.
  assert (K : tagKey (file_name f1) i1 r1 <> tagKey (file_name f2) i2 r2).
  { rewrite !tagKey_unresolved by assumption.
    intros E. apply unknownKey_inj in E. apply Hne, E. }
  split; [exact K |]. split; intros now j m.
  - rewrite mapGet_mergeEquipment. cbv zeta.
    apply String.eqb_neq in K. rewrite K. reflexivity.
  - rewrite mapGet_mergeEquipment. cbv zeta.
    assert (K' : tagKey (file_name f2) i2 r2 <> tagKey (file_name f1) i1 r1) by congruence.
    apply String.eqb_neq in K'. rewrite K'. reflexivity.
Qed.

Lemma unresolved_tags_distinct_by_file_name_witness :
  tagKey "a.pdf" 0 Examples.untagged <> tagKey "b.pdf" 0 Examples.untagged.
Proof.
  apply (unresolved_tags_distinct_by_file_name Examples.fileA Examples.fileB 0 0
           Examples.untagged Examples.untagged).
  - left. reflexivity.
  - left. reflexivity.
  - discriminate.
Defined.

(** C5 as stated fails: two different files that share the name a.pdf,
    each holding one equipment without a tag, end up in one record that
    lists both drawings and both material lines. *)
Lemma same_name_files_are_merged :
  Examples.fileA <> Examples.fileA2
  /\ Spec.unresolvedTag (e_tag Examples.untagged)
  /\ tagKey (file_name Examples.fileA) 0 Examples.untagged
     = tagKey (file_name Examples.fileA2) 0 Examples.untagged
  /\ map (fun e => (drawings e, List.length (materials e)))
         (JS.mapValues
            (snd (processQueue 0 Examples.analyzeUntagged
                    [Examples.pending Examples.fileA; Examples.pending Examples.fileA2])))
     = [([file_dataUrl Examples.fileA; file_dataUrl Examples.fileA2], 2)].
Proof.
  split; [discriminate |]. split; [left; reflexivity |].
  split; reflexivity.
Qed.

End MergeKeys.

(** ** Failure of a detail extraction *)

Section DetailFailure.

Import SmartImporter.

Variable now : nat.
Variable freshId : nat -> string.
Variable scan : string -> string -> option (list ScanEntry).
Variable extract : string -> string -> string -> string -> option Details.

Lemma mapFrom_identify_staged (file : UploadedFile) (base : nat) (results : list ScanEntry) :
  forall start, Forall Spec.staged (JS.mapFrom (identify now freshId file base) results start).
Proof.
  induction results as [| res rest IH]; intros start; simpl; constructor.
  - split; reflexivity.
  - apply IH.
Qed.

Lemma scanFile_staged (acc : list Equipment) (file : UploadedFile) :
  Forall Spec.staged acc -> Forall Spec.staged (scanFile now freshId scan acc file).
Proof.
  intros H. unfold scanFile.
  destruct (negb (JS.truthyStr (f_data file))); [exact H |].
  destruct (scan (f_data file) (f_mimeType file)) as [results |]; [| exact H].
  apply Forall_app. split; [exact H | apply mapFrom_identify_staged].
Qed.

Lemma startStructureScan_staged (files : list UploadedFile) :
  Forall Spec.staged (startStructureScan now freshId scan files).
Proof.
  unfold startStructureScan.
  assert (G : forall acc, Forall Spec.staged acc ->
                          Forall Spec.staged (fold_left (scanFile now freshId scan) files acc)).
  { induction files as [| f rest IH]; intros acc H; simpl.
    - exact H.
    - apply IH, scanFile_staged, H. }
  apply G. constructor.
Qed.

(** In the importer, when the detail call fails for one identified
    equipment of a batch, the batch keeps its length, that record stays at
    its place with no materials and status error, and every other record of
    the batch is still extracted. *)
Theorem failed_extraction_is_retained
        (files : list UploadedFile) (batch : list Equipment) (i : nat)
        (eq : Equipment) (file : UploadedFile) :
  In eq (startStructureScan now freshId scan files) ->
  nth_error batch i = Some eq ->
  findFile files eq = Some file ->
  extract (f_data file) (f_mimeType file) (tag eq) (JS.orStr (pageRange eq) "") = None ->
  let result := startDetailExtraction extract files batch in
  List.length result = List.length batch
  /\ (exists kept,
         nth_error result i = Some kept
         /\ id kept = id eq /\ tag kept = tag eq /\ name kept = name eq
         /\ materials kept = [] /\ status kept = error)
  /\ (forall j e f details,
         nth_error batch j = Some e ->
         findFile files e = Some f ->
         extract (f_data f) (f_mimeType f) (tag e) (JS.orStr (pageRange e) "")
         = Some details ->
         nth_error result j = Some (withDetails e details)
         /\ status (withDetails e details) = complete).
Proof.
  intros Hin Hnth Hfile Hfail. cbv zeta. unfold startDetailExtraction.
  split; [apply length_map |]. split.
  - exists (setStatus eq error).
    rewrite nth_error_map, Hnth. simpl. unfold extractOne.
    rewrite Hfile, Hfail. repeat split. simpl.
    pose proof (startStructureScan_staged files) as Hall.
    rewrite Forall_forall in Hall. apply (Hall eq Hin).
  - intros j e f details Hj Hf Hd.
    rewrite nth_error_map, Hj. simpl. unfold extractOne.
    rewrite Hf, Hd. split; reflexivity.
Qed.

End DetailFailure.

Lemma failed_extraction_is_retained_witness :
  exists kept,
    nth_error
      (SmartImporter.startDetailExtraction Examples.extractFailingV1 [Examples.upload]
         (SmartImporter.startStructureScan 0 Examples.freshId Examples.scanTwo
            [Examples.upload])) 0 = Some kept
    /\ id kept = "eq-0"%string /\ tag kept = "V-1"%string
    /\ name kept = Some "Buffer tank"%string
    /\ materials kept = [] /\ status kept = error.
Proof.
  apply (failed_extraction_is_retained 0 Examples.freshId Examples.scanTwo
           Examples.extractFailingV1 [Examples.upload]
           (SmartImporter.startStructureScan 0 Examples.freshId Examples.scanTwo
              [Examples.upload])
           0
           (SmartImporter.identify 0 Examples.freshId Examples.upload 0
              (mkScanEntry (Some "V-1"%string) (Some "Buffer tank"%string)
                           (Some "1-2"%string)) 0)
           Examples.upload).
  - left. reflexivity.
  - reflexivity.
  - reflexivity.
  - reflexivity.
Defined.

(** The second record of the sample batch is extracted although the first
    one failed. *)
Example extraction_continues_after_failure :
  map (fun e => (tag e, status e, List.length (materials e)))
      (SmartImporter.startDetailExtraction Examples.extractFailingV1 [Examples.upload]
         (SmartImporter.startStructureScan 0 Examples.freshId Examples.scanTwo
            [Examples.upload]))
  = [("V-1"%string, error, 0); ("V-2"%string, complete, 1)].
Proof. reflexivity. Qed.

(** The compatibility wrapper of the extraction view keeps the scan entry of
    a failed detail call with an empty material list, and still returns an
    entry for every equipment of the scan. *)
Lemma analyze_keeps_failed_entry
      (scan : string -> string -> option (list ScanEntry))
      (extract : string -> string -> option string -> option string -> option Details)
      (base64Data mimeType : string) (entries : list ScanEntry) (i : nat) (entry : ScanEntry) :
  scan base64Data mimeType = Some entries ->
  nth_error entries i = Some entry ->
  extract base64Data mimeType (s_tag entry) (s_pageRange entry) = None ->
  exists results,
    analyzeDrawingForMaterials scan extract base64Data mimeType = Some results
    /\ List.length results = List.length entries
    /\ nth_error results i = Some (withoutDetails entry)
    /\ e_tag (withoutDetails entry) = s_tag entry
    /\ e_materials (withoutDetails entry) = Some [].
Proof.
  intros Hscan Hnth Hfail. unfold analyzeDrawingForMaterials. rewrite Hscan.
  eexists. split; [reflexivity |]. split; [apply length_map |].
  rewrite nth_error_map, Hnth. simpl. unfold analyzeOne. rewrite Hfail.
  repeat split.
Qed.

(** ** Strings and dictionaries *)

Section StringFacts.

Open Scope string_scope.

Lemma prefix_iff (p s : string) :
  String.prefix p s = true <-> exists post, s = p ++ post.
Proof.
  revert s. induction p as [| a p IH]; intros s; simpl.
  - split; [intros _; exists s; reflexivity | intros _; destruct s; reflexivity].
  - destruct s as [| b s]; simpl.
    + split; [discriminate | intros [post H]; discriminate H].
    + destruct (ascii_dec a b) as [-> | Hne].
      * rewrite IH. split; intros [post H]; exists post.
        -- rewrite H. reflexivity.
        -- injection H as H. exact H.
      * split; [discriminate |]. intros [post H]. injection H as H1 H2.
        elim Hne. auto.
Qed.

Lemma includes_unfold (s sub : string) :
  JS.includes s sub
  = if String.prefix sub s then true
    else match s with
         | EmptyString => false
         | String _ rest => JS.includes rest sub
         end.
Proof. destruct s; reflexivity. Qed.

(** [includes] decides contiguous containment. *)
Lemma includes_iff (s sub : string) :
  JS.includes s sub = true <-> Spec.substringOf sub s.
Proof.
  unfold Spec.substringOf. split.
  - induction s as [| c s IH]; rewrite includes_unfold.
    + destruct (String.prefix sub "") eqn:E; [| discriminate].
      intros _. apply prefix_iff in E. destruct E as [post E].
      exists "", post. exact E.
    + destruct (String.prefix sub (String c s)) eqn:E.
      * intros _. apply prefix_iff in E. destruct E as [post E].
        exists "", post. exact E.
      * intros H. destruct (IH H) as (pre & post & E').
        exists (String c pre), post. rewrite E'. reflexivity.
  - intros (pre & post & E). subst s.
    induction pre as [| c pre IH]; rewrite includes_unfold.
    + assert (P : String.prefix sub ("" ++ sub ++ post) = true)
        by (apply prefix_iff; exists post; reflexivity).
      rewrite P. reflexivity.
    + destruct (String.prefix sub (String c pre ++ sub ++ post)); [reflexivity |].
      exact IH.
Qed.

End StringFacts.

Section ObjFacts.

Context {V : Type}.

Lemma In_objSet (o : JS.Obj V) (k k' : string) (v v' : V) :
  In (k', v') (JS.objSet o k v) -> (k' = k /\ v' = v) \/ In (k', v') o.
Proof.
  induction o as [| [k0 v0] o IH]; simpl.
  - intros [H | []]. injection H as <- <-. auto.
  - destruct (String.eqb k k0) eqn:E; simpl.
    + apply String.eqb_eq in E. subst k0.
      intros [H | H]; [injection H as <- <-; auto | auto].
    + intros [H | H]; [auto |]. destruct (IH H); auto.
Qed.

Lemma objGet_In (o : JS.Obj V) (k : string) (v : V) :
  JS.objGet o k = Some v -> In (k, v) o.
Proof.
  induction o as [| [k0 v0] o IH]; simpl; [discriminate |].
  destruct (String.eqb k k0) eqn:E.
  - apply String.eqb_eq in E. subst k0. intros H. injection H as <-. auto.
  - auto.
Qed.

Lemma In_objGet (o : JS.Obj V) (k : string) :
  In k (map fst o) -> exists v, JS.objGet o k = Some v.
Proof.
  induction o as [| [k0 v0] o IH]; simpl; [intros [] |].
  destruct (String.eqb k k0) eqn:E; [eauto |].
  intros [H | H]; [| auto].
  subst k0. rewrite String.eqb_refl in E. discriminate E.
Qed.

Lemma In_insertIndex (n n0 : N) (k k0 : string) (l : list (N * string)) :
  In (n, k) (JS.insertIndex n0 k0 l) <-> (n, k) = (n0, k0) \/ In (n, k) l.
Proof.
  induction l as [| [m k'] l IH]; simpl.
  - intuition congruence.
  - destruct (n0 <=? m)%N; simpl; [intuition congruence |].
    rewrite IH. intuition congruence.
Qed.

Lemma In_indexKeys (n : N) (k : string) (ks : list string) :
  In (n, k) (JS.indexKeys ks) <-> In k ks /\ JS.arrayIndex k = Some n.
Proof.
  induction ks as [| k0 ks IH]; simpl; [tauto |].
  destruct (JS.arrayIndex k0) as [n0 |] eqn:E.
  - rewrite In_insertIndex, IH. split.
    + intros [H | [H1 H2]]; [injection H as -> ->; auto | auto].
    + intros [[-> | H1] H2]; [left; congruence | auto].
  - rewrite IH. split; [tauto |].
    intros [[-> | H1] H2]; [congruence | auto].
Qed.

(** [Object.keys] lists exactly the own keys. *)
Lemma In_keys_iff (o : JS.Obj V) (k : string) :
  In k (JS.keys o) <-> In k (map fst o).
Proof.
  unfold JS.keys. rewrite in_app_iff, in_map_iff, filter_In. split.
  - intros [([n k'] & E & H) | [H _]]; [| exact H].
    simpl in E. subst k'. apply In_indexKeys in H. apply H.
  - intros H. unfold JS.isIndexKey.
    destruct (JS.arrayIndex k) as [n |] eqn:E.
    + left. exists (n, k). split; [reflexivity |]. apply In_indexKeys. auto.
    + right. auto.
Qed.

End ObjFacts.


(** ** Price lookup *)

Section PriceLookup.

Import BudgetView.

Variable toLowerCase : string -> string.
Variable lookupPrices : list (option string) -> option (option (list RawPrice)).

Lemma keyMatches_iff (material key : string) :
  keyMatches toLowerCase material key = true
  <-> Spec.containEachOther toLowerCase material key.
Proof.
  unfold keyMatches, Spec.containEachOther.
  rewrite orb_true_iff, !includes_iff. reflexivity.
Qed.

(** An entry without a name or without a usable price adds nothing. *)
Lemma addPrice_skips (priceMap : JS.Obj float) (p : RawPrice) :
  Spec.emptyStr (p_material p) \/ Spec.unpriced p -> addPrice priceMap p = priceMap.
Proof.
  unfold addPrice, Spec.unpriced. intros [H | H].
  - apply truthyOptStr_false in H.
    destruct (p_material p) as [mat |]; [| reflexivity].
    destruct (p_pricePerKg p); [| reflexivity].
    simpl in H. rewrite H. reflexivity.
  - apply truthyOptNum_false in H.
    destruct (p_material p) as [mat |]; [| reflexivity].
    destruct (p_pricePerKg p) as [x |]; [| reflexivity].
    simpl in H. rewrite H, andb_false_r. reflexivity.
Qed.

(** Every entry of the folded map comes from a named and priced response
    entry, or was there before. *)
Lemma addPrice_entries (response : list RawPrice) :
  forall (acc : JS.Obj float) (k : string) (v : float),
    In (k, v) (fold_left addPrice response acc) ->
    In (k, v) acc
    \/ exists p, In p response /\ p_material p = Some k /\ p_pricePerKg p = Some v
                 /\ JS.truthyStr k = true /\ JS.truthyNum v = true.
Proof.
  induction response as [| p response IH]; intros acc k v H; simpl in H; [auto |].
  destruct (IH _ _ _ H) as [Hacc | (q & Hq & Hrest)].
  - unfold addPrice in Hacc.
    destruct (p_material p) as [mat |] eqn:Em; [| auto].
    destruct (p_pricePerKg p) as [x |] eqn:Ex; [| auto].
    destruct (JS.truthyStr mat && JS.truthyNum x) eqn:Et; [| auto].
    apply andb_true_iff in Et.
    unfold JS.objAssign in Hacc.
    destruct (String.eqb mat "__proto__"); [auto |].
    apply In_objSet in Hacc. destruct Hacc as [[-> ->] | Hacc]; [| auto].
    right. exists p. simpl. intuition.
  - right. exists q. simpl. intuition.
Qed.

Lemma findMaterialPrices_entries (names : list (option string)) (k : string) (v : float) :
  In (k, v) (findMaterialPrices lookupPrices names) ->
  exists response p,
    lookupPrices (JS.unique JS.optStrEqb names) = Some (Some response)
    /\ In p response /\ p_material p = Some k /\ p_pricePerKg p = Some v
    /\ JS.truthyStr k = true /\ JS.truthyNum v = true.
Proof.
  unfold findMaterialPrices. destruct names as [| n names]; [intros [] |].
  destruct (lookupPrices (JS.unique JS.optStrEqb (n :: names))) as [[response |] |];
    try (intros []).
  intros H. apply addPrice_entries in H. destruct H as [[] | (p & Hp)].
  exists response, p. intuition.
Qed.

Lemma findMaterialPrices_keys (names : list (option string)) (k : string) :
  In k (map fst (findMaterialPrices lookupPrices names)) ->
  exists v, JS.objGet (findMaterialPrices lookupPrices names) k = Some v
            /\ JS.truthyStr k = true /\ JS.truthyNum v = true.
Proof.
  intros H. destruct (In_objGet _ _ H) as [v Hv]. exists v.
  split; [exact Hv |].
  apply objGet_In, findMaterialPrices_entries in Hv.
  destruct Hv as (response & p & _ & _ & _ & _ & Hk & Hx). auto.
Qed.

Lemma priceLine_no_match (prices : JS.Obj float) (item : MaterialItem) (material : string) :
  m_material item = Some material ->
  (forall key, In key (map fst prices) -> ~ Spec.containEachOther toLowerCase material key) ->
  priceLine toLowerCase prices item = Some item.
Proof.
  intros Hm Hno. unfold priceLine, JS.find. rewrite Hm.
  destruct (List.find (keyMatches toLowerCase material) (JS.keys prices)) as [key |] eqn:E;
    [| reflexivity].
  apply find_some in E. destruct E as [Hin Hk].
  apply In_keys_iff in Hin. apply keyMatches_iff in Hk.
  elim (Hno key Hin Hk).
Qed.



Lemma mapThrowing_Forall2 {A B : Type} (f : A -> option B) (l : list A) :
  forall out, mapThrowing f l = Some out -> Forall2 (fun x y => f x = Some y) l out.
Proof.
  induction l as [| x l IH]; simpl; intros out H.
  - injection H as <-. constructor.
  - destruct (f x) as [y |] eqn:E; [| discriminate].
    destruct (mapThrowing f l) as [ys |]; [| discriminate].
    injection H as <-. constructor; auto.
Qed.





(** C10: the mapping holds only entries that the response named and
    priced with a non-zero number, an unnamed or unpriced response entry
    adds nothing, a line the lookup changes never receives a zero price,
    and a line that only unpriced response entries match is left as it is. *)
Theorem price_map_omits_unpriced_entries (names : list (option string)) :
  let prices := findMaterialPrices lookupPrices names in
  (forall key price,
      In (key, price) prices ->
      key <> ""%string /\ (price =? 0)%float = false
      /\ exists response p,
          lookupPrices (JS.unique JS.optStrEqb names) = Some (Some response)
          /\ In p response /\ p_material p = Some key /\ p_pricePerKg p = Some price)
  /\ (forall priceMap p,
         Spec.emptyStr (p_material p) \/ Spec.unpriced p -> addPrice priceMap p = priceMap)
  /\ (forall item item',
         priceLine toLowerCase prices item = Some item' ->
         item' = item \/ (m_unitPrice item' =? 0)%float = false)
  /\ (forall response item material,
         lookupPrices (JS.unique JS.optStrEqb names) = Some (Some response) ->
         m_material item = Some material ->
         (forall p key, In p response -> p_material p = Some key ->
                        Spec.containEachOther toLowerCase material key -> Spec.unpriced p) ->
         priceLine toLowerCase prices item = Some item).
Proof.
  cbv zeta. split; [| split; [| split]].
  - intros key price H.
    apply findMaterialPrices_entries in H.
    destruct H as (response & p & Hl & Hp & Hm & Hx & Hk & Hv).
    split; [| split].
    + intros ->. discriminate Hk.
    + apply truthy_not_zero, Hv.
    + exists response, p. auto.
  - apply addPrice_skips.
  - intros item item'. unfold priceLine, JS.find.
    destruct (m_material item) as [material |].
    + destruct (List.find (keyMatches toLowerCase material)
                  (JS.keys (findMaterialPrices lookupPrices names))) as [key |] eqn:E.
      * apply find_some in E. destruct E as [Hin _]. apply In_keys_iff in Hin.
        destruct (findMaterialPrices_keys _ _ Hin) as (price & Hget & Htruthy & Hv).
        rewrite Htruthy. unfold priceAt. rewrite Hget.
        intros H. injection H as <-. right. simpl. apply truthy_not_zero, Hv.
      * intros H. injection H as <-. auto.
    + destruct (JS.keys (findMaterialPrices lookupPrices names)); [| discriminate].
      intros H. injection H as <-. auto.
  - intros response item material Hl Hm Hun.
    apply (priceLine_no_match _ _ material Hm).
    intros key Hin Hc.
    destruct (findMaterialPrices_keys _ _ Hin) as (price & Hget & _ & Hv).
    apply objGet_In, findMaterialPrices_entries in Hget.
    destruct Hget as (response' & p & Hl' & Hp & Hpm & Hpx & _ & _).
    rewrite Hl in Hl'. injection Hl' as <-.
    specialize (Hun p key Hp Hpm Hc). unfold Spec.unpriced in Hun.
    apply truthyOptNum_false in Hun. rewrite Hpx in Hun. simpl in Hun. congruence.
Qed.

End PriceLookup.

(** The example of the specification: the key 304不锈钢 prices the line of
    304不锈钢板, no key matches 合金钢, and Q345R, priced at zero by the
    response, leaves its line alone. *)
Example fetch_prices_example :
  option_map (map m_unitPrice)
    (BudgetView.handleFetchPrices JS.toLowerCaseAscii Examples.lookupSteel
       [Examples.steelPlate; Examples.alloy; Examples.vesselPlate])
  = Some [18%float; 7%float; 6%float].
Proof. vm_compute. reflexivity. Qed.


(** On the sample list the first line takes the price of the key it
    contains and the second, which no key matches, keeps its price. *)
Example sample_prices_are_applied :
  option_map (map (fun m => (m_id m, (m_unitPrice m =? 18)%float, (m_unitPrice m =? 7)%float)))
             (BudgetView.handleFetchPrices JS.toLowerCaseAscii Examples.lookupSteel
                                           [Examples.steelPlate; Examples.alloy])
  = Some [("m1"%string, true, false); ("m2"%string, false, true)].
Proof. vm_compute. reflexivity. Qed.


Lemma price_map_omits_unpriced_entries_witness :
  BudgetView.priceLine JS.toLowerCaseAscii
    (findMaterialPrices Examples.lookupSteel [Some "q345r"%string]) Examples.vesselPlate
  = Some Examples.vesselPlate.
Proof.
  apply (proj2 (proj2 (proj2 (price_map_omits_unpriced_entries JS.toLowerCaseAscii
                                Examples.lookupSteel [Some "q345r"%string])))
               _ Examples.vesselPlate "q345r"%string eq_refl eq_refl).
  intros p key Hp Hkey Hc.
  apply keyMatches_iff in Hc.
  destruct Hp as [<- | [<- | [<- | []]]];
    apply (f_equal (fun o => match o with Some x => x | None => EmptyString end)) in Hkey;
    simpl in Hkey; subst key.
  - vm_compute in Hc. discriminate Hc.
  - vm_compute in Hc. discriminate Hc.
  - right. exists 0%float. split; [reflexivity | left; reflexivity].
Defined.

(** ** Construction from raw extraction output *)

Section Defaults.

Open Scope string_scope.

Lemma orStr_default (o : option string) (d : string) :
  Spec.emptyStr o -> JS.orStr o d = d.
Proof. intros [-> | ->]; reflexivity. Qed.

Lemma orStr_keep (c d : string) : c <> "" -> JS.orStr (Some c) d = c.
Proof.
  intros H. unfold JS.orStr, JS.truthyStr.
  apply String.eqb_neq in H. rewrite H. reflexivity.
Qed.

Lemma orNum_default (o : option float) (d : float) :
  Spec.emptyNum o -> JS.orNum o d = d.
Proof.
  intros H. apply truthyOptNum_false in H. unfold JS.orNum.
  destruct o as [x |]; [| reflexivity]. simpl in H. rewrite H. reflexivity.
Qed.

Lemma startsWith_unknownKey (fileName : string) (eqIdx : nat) :
  JS.startsWith (ExtractionView.unknownKey fileName eqIdx) "Unknown-" = true.
Proof.
  unfold JS.startsWith, ExtractionView.unknownKey.
  apply prefix_iff. eexists. reflexivity.
Qed.

Lemma one_is_not_zero : Some 1%float <> Some 0%float.
Proof.
  intros H.
  apply (f_equal (fun o => match o with
                           | Some x => PrimFloat.eqb x 0
                           | None => false
                           end)) in H.
  vm_compute in H. discriminate H.
Qed.

(** C8 as stated fails: a line whose quantity the response omits is built
    with quantity 1, not 0, and a category outside the enumeration is kept
    instead of becoming other. *)
Lemma missing_quantity_defaults_to_one :
  r_quantity Examples.gasket = None
  /\ m_quantity (ExtractionView.rawItem 0 0 0 Examples.gasket 0) = Some 1%float
  /\ m_quantity (ExtractionView.rawItem 0 0 0 Examples.gasket 0) <> Some 0%float
  /\ Types.recognizedCategory "gasket" = false
  /\ m_category (ExtractionView.rawItem 0 0 0 Examples.gasket 0) = "gasket"
  /\ m_category (ExtractionView.rawItem 0 0 0 Examples.gasket 0) <> "other".
Proof.
  split; [reflexivity |]. split; [reflexivity |].
  split; [apply one_is_not_zero |]. split; [reflexivity |].
  split; [reflexivity | discriminate].
Qed.

(** C8 (as amended): a material line of the extraction view gets the
    placeholders for a missing name, material and specification, weight 0
    and quantity 1 when these are missing, unit and total price 0, and the
    category other when none is given, while a given category is kept as it
    is; an unresolved tag gives the synthesized key and the placeholder
    tag; the structure scan of the importer defaults tag, name and page
    range, and its material lines start at price 0 with category other when
    none is given. *)
Theorem construction_defaults
        (now i eqIdx itemIdx base : nat) (item : RawLine) (eqData : RawEquipment)
        (fileName base64 : string) (items : list MaterialItem)
        (freshId : nat -> string) (file : UploadedFile) (res : ScanEntry) (eq : Equipment) :
  let line := ExtractionView.rawItem now i eqIdx item itemIdx in
  let key := ExtractionView.tagKey fileName eqIdx eqData in
  let scanned := SmartImporter.identify now freshId file base res itemIdx in
  let imported := SmartImporter.importLine eq item itemIdx in
  (Spec.emptyStr (r_name item) -> m_name line = Some "未知组件")
  /\ (Spec.emptyStr (r_material item) -> m_material line = Some "N/A")
  /\ (Spec.emptyStr (r_specification item) -> m_specification line = Some "-")
  /\ (Spec.emptyNum (r_weight item) -> m_weight line = Some 0%float)
  /\ (Spec.emptyNum (r_quantity item) -> m_quantity line = Some 1%float)
  /\ m_unitPrice line = 0%float /\ m_totalPrice line = 0%float
  /\ (Spec.emptyStr (r_category item) -> m_category line = "other")
  /\ (forall c, r_category item = Some c -> c <> "" -> m_category line = c)
  /\ (Spec.unresolvedTag (e_tag eqData) ->
      key = ExtractionView.unknownKey fileName eqIdx
      /\ tag (ExtractionView.createNew now i eqIdx key base64 items eqData) = "未命名设备")
  /\ (Spec.emptyStr (s_tag res) -> tag scanned = "Unknown")
  /\ (Spec.emptyStr (s_name res) -> name scanned = Some "未命名设备")
  /\ (Spec.emptyStr (s_pageRange res) -> pageRange scanned = Some "全文件")
  /\ m_unitPrice imported = 0%float /\ m_totalPrice imported = 0%float
  /\ (Spec.emptyStr (r_category item) -> m_category imported = "other").
Proof.
  cbv zeta. simpl.
  repeat match goal with |- _ /\ _ => split end;
    try reflexivity;
    try (intros H; rewrite (orStr_default _ _ H); reflexivity);
    try (intros H; rewrite (orNum_default _ _ H); reflexivity).
  - intros c Hc Hne. rewrite Hc. apply orStr_keep, Hne.
  - intros H. rewrite (tagKey_unresolved _ _ _ H). split; [reflexivity |].
    rewrite startsWith_unknownKey. reflexivity.
Qed.

Lemma construction_defaults_witness :
  m_quantity (ExtractionView.rawItem 0 0 0 Examples.gasket 0) = Some 1%float
  /\ m_weight (ExtractionView.rawItem 0 0 0 Examples.gasket 0) = Some 0%float.
Proof.
  pose proof (construction_defaults 0 0 0 0 0 Examples.gasket Examples.untagged
                "a.pdf" "" [] Examples.freshId Examples.upload
                (mkScanEntry None None None) Examples.recordA) as H.
  cbv zeta in H.
  destruct H as (_ & _ & _ & Hw & Hq & _).
  split; [apply Hq | apply Hw]; left; reflexivity.
Defined.

(** The importer copies a raw line as it is: weight and quantity stay
    absent when the response omits them. *)
Example importer_keeps_missing_numbers :
  m_weight (SmartImporter.importLine Examples.recordA Examples.gasket 0) = None
  /\ m_quantity (SmartImporter.importLine Examples.recordA Examples.gasket 0) = None.
Proof. split; reflexivity. Qed.

End Defaults.

(** ** Consolidation: the order of the files *)

Section Settle.

Context {A : Type}.
Variable truthy : option A -> bool.
Variable fill : option A -> option A -> option A.
Hypothesis fill_eq :
  forall existing incoming,
    fill existing incoming
    = if negb (truthy existing) && truthy incoming then incoming else existing.

Lemma fold_fill_truthy (l : list (option A)) (first : option A) :
  truthy first = true -> fold_left fill l first = first.
Proof.
  induction l as [| a l IH]; simpl; intros H; [reflexivity |].
  rewrite fill_eq, H. simpl. apply IH, H.
Qed.

Lemma fold_fill_falsy (l : list (option A)) (first : option A) :
  truthy first = false ->
  fold_left fill l first
  = match List.find truthy l with Some v => v | None => first end.
Proof.
  induction l as [| a l IH]; simpl; intros H; [reflexivity |].
  rewrite fill_eq, H. simpl. destruct (truthy a) eqn:E.
  - apply fold_fill_truthy, E.
  - apply IH, H.
Qed.

(** A field settles on the first populated value, or else on the first one. *)
Lemma settle_find (l : list (option A)) :
  Spec.settle fill l
  = match List.find truthy l with Some v => v | None => hd None l end.
Proof.
  destruct l as [| c l]; simpl; [reflexivity |].
  destruct (truthy c) eqn:E.
  - apply fold_fill_truthy, E.
  - apply fold_fill_falsy, E.
Qed.

Lemma settle_app (l1 l2 : list (option A)) :
  l1 <> [] -> fold_left fill l2 (Spec.settle fill l1) = Spec.settle fill (l1 ++ l2).
Proof.
  destruct l1 as [| c l1]; [congruence |]. intros _. simpl.
  rewrite fold_left_app. reflexivity.
Qed.

Lemma find_over_app (l1 l2 : list (option A)) :
  List.find truthy (l1 ++ l2)
  = match List.find truthy l1 with
    | Some v => Some v
    | None => List.find truthy l2
    end.
Proof.
  induction l1 as [| a l1 IH]; simpl; [reflexivity |].
  destruct (truthy a); [reflexivity | exact IH].
Qed.

Lemma settle_comm (l1 l2 : list (option A)) :
  l1 <> [] -> l2 <> [] ->
  (forall a b, In a l1 -> In b l2 -> Spec.agree truthy a b) ->
  Spec.settle fill (l1 ++ l2) = Spec.settle fill (l2 ++ l1).
Proof.
  intros N1 N2 H. rewrite !settle_find, !find_over_app.
  destruct (List.find truthy l1) as [v1 |] eqn:E1;
    destruct (List.find truthy l2) as [v2 |] eqn:E2; try reflexivity.
  - apply find_some in E1, E2. destruct E1 as [I1 T1], E2 as [I2 T2].
    destruct (H v1 v2 I1 I2) as [-> | Hne]; [reflexivity | congruence].
  - destruct l1 as [| a l1]; [congruence |]. destruct l2 as [| b l2]; [congruence |].
    simpl.
    pose proof (find_none _ _ E1 a (or_introl eq_refl)) as Fa.
    pose proof (find_none _ _ E2 b (or_introl eq_refl)) as Fb.
    destruct (H a b (or_introl eq_refl) (or_introl eq_refl)) as [-> | Hne];
      [reflexivity | congruence].
Qed.

End Settle.

Section FileOrder.

Import ExtractionView.

Variable now : nat.

Lemma forgetId_mapFrom (i eqIdx : nat) (l : list RawLine) :
  forall s s',
    map Spec.forgetId (JS.mapFrom (rawItem now i eqIdx) l s)
    = map Spec.forgetId (JS.mapFrom (rawItem 0 0 0) l s').
Proof.
  induction l as [| item l IH]; intros s s'; simpl; [reflexivity |].
  f_equal. apply IH.
Qed.

Lemma forgetId_rawItems (i : nat) (hit : nat * RawEquipment) :
  map Spec.forgetId (rawItems now i (fst hit) (snd hit)) = Spec.bareItems hit.
Proof. apply forgetId_mapFrom. Qed.

(** What a file leaves under a key is the fold of its results for that key. *)
Lemma mapGet_mergeFile (i : nat) (file : File) (l : list RawEquipment) :
  forall (start : nat) (m : JS.Map Equipment) (k : string),
    JS.mapGet (JS.forEachFrom (mergeEquipment now i file) l start m) k
    = fold_left (Spec.absorbHit now i (file_dataUrl file) k)
                (Spec.hits (file_name file) k l start) (JS.mapGet m k).
Proof.
  induction l as [| r l IH]; intros start m k; simpl; [reflexivity |].
  rewrite IH, mapGet_mergeEquipment. cbv zeta.
  destruct (String.eqb k (tagKey (file_name file) start r)) eqn:E; [| reflexivity].
  apply String.eqb_eq in E. rewrite <- E. reflexivity.
Qed.

Lemma In_hits (fileName k : string) (l : list RawEquipment) :
  forall (start idx : nat) (r : RawEquipment),
    In (idx, r) (Spec.hits fileName k l start) ->
    nth_error l (idx - start) = Some r /\ start <= idx /\ k = tagKey fileName idx r.
Proof.
  induction l as [| a l IH]; intros start idx r; simpl; [intros [] |].
  assert (G : In (idx, r) (Spec.hits fileName k l (S start)) ->
              nth_error (a :: l) (idx - start) = Some r /\ start <= idx
              /\ k = tagKey fileName idx r).
  { intros H. destruct (IH _ _ _ H) as (Hn & Hle & Hk).
    replace (idx - start) with (S (idx - S start)) by lia.
    simpl. repeat split; [exact Hn | lia | exact Hk]. }
  destruct (String.eqb k (tagKey fileName start a)) eqn:E; [| exact G].
  intros [H | H]; [| exact (G H)].
  injection H as <- <-. rewrite Nat.sub_diag. apply String.eqb_eq in E. auto.
Qed.

Lemma pushIfAbsent_idem (ds : list string) (u : string) :
  pushIfAbsent (pushIfAbsent ds u) u = pushIfAbsent ds u.
Proof.
  unfold pushIfAbsent at 2 3.
  destruct (JS.arrayIncludes ds u) eqn:E; simpl.
  - unfold pushIfAbsent. rewrite E. reflexivity.
  - unfold pushIfAbsent, JS.arrayIncludes.
    rewrite existsb_app. simpl. rewrite String.eqb_refl, orb_true_r. reflexivity.
Qed.

Lemma absorb_existing (i : nat) (url k : string) (h : list (nat * RawEquipment)) :
  forall e, exists e',
    fold_left (Spec.absorbHit now i url k) h (Some e) = Some e' /\ Spec.grown e url h e'.
Proof.
  induction h as [| hit h IH]; intros e; simpl.
  - exists e. split; [reflexivity |]. unfold Spec.grown. simpl.
    rewrite app_nil_r. repeat split.
  - destruct (IH (mergeInto url (rawItems now i (fst hit) (snd hit)) (snd hit) e))
      as (e' & He' & Ht & Hn & Hp & Hs & Hst & Hsp & Hmm & Hdw & Hmat & Hdr).
    exists e'. split; [exact He' |]. simpl in *.
    unfold Spec.grown. simpl.
    repeat match goal with |- _ /\ _ => split end; try assumption.
    + rewrite Hmat, map_app, forgetId_rawItems, app_assoc. reflexivity.
    + rewrite Hdr. destruct h; [reflexivity | apply pushIfAbsent_idem].
Qed.

Lemma absorb_new (i : nat) (url k : string) (h : list (nat * RawEquipment)) :
  h <> [] ->
  exists e', fold_left (Spec.absorbHit now i url k) h None = Some e' /\ Spec.born k url h e'.
Proof.
  destruct h as [| c h]; [congruence |]. intros _. simpl.
  destruct (absorb_existing i url k h
              (createNew now i (fst c) k url (rawItems now i (fst c) (snd c)) (snd c)))
    as (e' & He' & Ht & Hn & Hp & Hs & Hst & Hsp & Hmm & Hdw & Hmat & Hdr).
  exists e'. split; [exact He' |]. simpl in *.
  unfold Spec.born. simpl.
  repeat match goal with |- _ /\ _ => split end; try assumption.
  - rewrite Hmat, forgetId_rawItems. reflexivity.
  - rewrite Hdr. destruct h; [reflexivity |].
    unfold pushIfAbsent, JS.arrayIncludes. simpl.
    rewrite String.eqb_refl. reflexivity.
Qed.

Lemma born_same (k url : string) (h : list (nat * RawEquipment)) (e1 e2 : Equipment) :
  Spec.born k url h e1 -> Spec.born k url h e2 -> Spec.sameRecord e1 e2.
Proof.
  intros (T1 & N1 & P1 & S1 & St1 & Sp1 & M1 & D1 & Ma1 & Dr1)
         (T2 & N2 & P2 & S2 & St2 & Sp2 & M2 & D2 & Ma2 & Dr2).
  unfold Spec.sameRecord.
  rewrite T1, T2, N1, N2, P1, P2, S1, S2, St1, St2, Sp1, Sp2, M1, M2, D1, D2,
    Ma1, Ma2, Dr1, Dr2.
  repeat split; apply Permutation_refl.
Qed.

Lemma fillStr_eq (existing incoming : option string) :
  fillStr existing incoming
  = if negb (JS.truthyOptStr existing) && JS.truthyOptStr incoming
    then incoming else existing.
Proof. reflexivity. Qed.

Lemma fillNum_eq (existing incoming : option float) :
  fillNum existing incoming
  = if negb (JS.truthyOptNum existing) && JS.truthyOptNum incoming
    then incoming else existing.
Proof. reflexivity. Qed.

Lemma pushIfAbsent_swap (uA uB : string) :
  Permutation (pushIfAbsent [uA] uB) (pushIfAbsent [uB] uA).
Proof.
  unfold pushIfAbsent, JS.arrayIncludes. simpl.
  rewrite (String.eqb_sym uA uB).
  destruct (String.eqb uB uA) eqn:E; simpl.
  - apply String.eqb_eq in E. subst uB. apply Permutation_refl.
  - apply perm_swap.
Qed.

(** Closes the side conditions of [settle_comm]: the runs are not empty,
    and any two of their values agree because the results they come from
    are compatible. *)
Ltac cross_agreement Hc :=
  try discriminate;
  let x := fresh "x" in
  let y := fresh "y" in
  let Hx := fresh "Hx" in
  let Hy := fresh "Hy" in
  let hx := fresh "hx" in
  let hy := fresh "hy" in
  intros x y Hx Hy; apply in_map_iff in Hx, Hy;
  destruct Hx as (hx & <- & Hx), Hy as (hy & <- & Hy);
  apply (Hc hx hy Hx Hy).

(** The two orders of two runs of results under one key. *)
Lemma two_runs_commute (k uA uB : string) (hA hB : list (nat * RawEquipment)) :
  (forall a b, In a hA -> In b hB -> Spec.compatible (snd a) (snd b)) ->
  match fold_left (Spec.absorbHit now 1 uB k) hB
                  (fold_left (Spec.absorbHit now 0 uA k) hA None),
        fold_left (Spec.absorbHit now 1 uA k) hA
                  (fold_left (Spec.absorbHit now 0 uB k) hB None)
  with
  | Some a, Some b => Spec.sameRecord a b
  | None, None => True
  | _, _ => False
  end.
Proof.
  intros Hc.
  destruct hA as [| a hA], hB as [| b hB].
  - exact I.
  - change (fold_left (Spec.absorbHit now 0 uA k) [] None) with (@None Equipment).
    destruct (absorb_new 1 uB k (b :: hB)) as (e1 & -> & B1); [discriminate |].
    destruct (absorb_new 0 uB k (b :: hB)) as (e2 & E2 & B2); [discriminate |].
    change (fold_left (Spec.absorbHit now 1 uA k) []
              (fold_left (Spec.absorbHit now 0 uB k) (b :: hB) None))
      with (fold_left (Spec.absorbHit now 0 uB k) (b :: hB) None).
    rewrite E2. exact (born_same _ _ _ _ _ B1 B2).
  - change (fold_left (Spec.absorbHit now 0 uB k) [] None) with (@None Equipment).
    destruct (absorb_new 0 uA k (a :: hA)) as (e1 & E1 & B1); [discriminate |].
    destruct (absorb_new 1 uA k (a :: hA)) as (e2 & -> & B2); [discriminate |].
    change (fold_left (Spec.absorbHit now 1 uB k) []
              (fold_left (Spec.absorbHit now 0 uA k) (a :: hA) None))
      with (fold_left (Spec.absorbHit now 0 uA k) (a :: hA) None).
    rewrite E1. exact (born_same _ _ _ _ _ B1 B2).
  - destruct (absorb_new 0 uA k (a :: hA)) as (e1 & -> & B1); [discriminate |].
    destruct (absorb_new 0 uB k (b :: hB)) as (e2 & -> & B2); [discriminate |].
    destruct (absorb_existing 1 uB k (b :: hB) e1) as (e1' & -> & G1).
    destruct (absorb_existing 1 uA k (a :: hA) e2) as (e2' & -> & G2).
    destruct B1 as (T1 & N1 & P1 & S1 & St1 & Sp1 & M1 & D1 & Ma1 & Dr1).
    destruct B2 as (T2 & N2 & P2 & S2 & St2 & Sp2 & M2 & D2 & Ma2 & Dr2).
    destruct G1 as (T1' & N1' & P1' & S1' & St1' & Sp1' & M1' & D1' & Ma1' & Dr1').
    destruct G2 as (T2' & N2' & P2' & S2' & St2' & Sp2' & M2' & D2' & Ma2' & Dr2').
    assert (Hab : Spec.compatible (snd a) (snd b))
      by (apply Hc; left; reflexivity).
    unfold Spec.sameRecord.
    rewrite T1', T2', T1, T2, N1', N2', N1, N2, P1', P2', P1, P2, S1', S2', S1, S2,
      St1', St2', St1, St2.
    rewrite Sp1', Sp2', Sp1, Sp2, M1', M2', M1, M2, D1', D2', D1, D2.
    rewrite Ma1', Ma2', Ma1, Ma2, Dr1', Dr2', Dr1, Dr2.
    rewrite !(settle_app fillStr), !(settle_app fillNum) by discriminate.
    repeat match goal with |- _ /\ _ => split end; try reflexivity.
    + apply Hab.
    + apply (settle_comm JS.truthyOptStr fillStr fillStr_eq); cross_agreement Hc.
    + apply (settle_comm JS.truthyOptStr fillStr fillStr_eq); cross_agreement Hc.
    + apply (settle_comm JS.truthyOptNum fillNum fillNum_eq); cross_agreement Hc.
    + apply Permutation_app_comm.
    + apply pushIfAbsent_swap.
Qed.

End FileOrder.

Section TwoFiles.

Import ExtractionView.

Variable now : nat.
Variable analyze : File -> option (list RawEquipment).

Lemma processQueue_two (A B : File) (ra rb : list RawEquipment) :
  analyze A = Some ra -> analyze B = Some rb ->
  snd (processQueue now analyze [mkFileStatus A q_pending; mkFileStatus B q_pending])
  = mergeFile now 1 B rb (mergeFile now 0 A ra []).
Proof.
  intros HA HB. unfold processQueue, JS.forEachIdx. simpl.
  rewrite HA. simpl. rewrite HB. reflexivity.
Qed.

(** C9 (as amended): when the results of two files that fall under one
    merge key never conflict in name, specification, mainMaterial or
    designWeight, consolidating A then B and B then A give ledgers with the
    same record set, up to generated identifiers and the order of drawings
    and materials. *)
Theorem consolidation_order_independent (A B : File) (ra rb : list RawEquipment) :
  analyze A = Some ra -> analyze B = Some rb ->
  (forall i1 i2 r1 r2,
      nth_error ra i1 = Some r1 -> nth_error rb i2 = Some r2 ->
      tagKey (file_name A) i1 r1 = tagKey (file_name B) i2 r2 ->
      Spec.compatible r1 r2) ->
  Spec.sameLedger
    (snd (processQueue now analyze [mkFileStatus A q_pending; mkFileStatus B q_pending]))
    (snd (processQueue now analyze [mkFileStatus B q_pending; mkFileStatus A q_pending])).
Proof.
  intros HA HB Hc.
  rewrite (processQueue_two A B ra rb HA HB), (processQueue_two B A rb ra HB HA).
  intros k. unfold mergeFile, JS.forEachIdx.
  rewrite !mapGet_mergeFile.
  change (JS.mapGet (@nil (string * Equipment)) k) with (@None Equipment).
  apply two_runs_commute.
  intros [ia a] [ib b] Ha Hb. simpl.
  apply In_hits in Ha, Hb.
  destruct Ha as (Ha & _ & Ka), Hb as (Hb & _ & Kb).
  rewrite Nat.sub_0_r in Ha, Hb.
  apply (Hc ia ib a b Ha Hb). congruence.
Qed.

End TwoFiles.

Lemma consolidation_order_independent_witness :
  Spec.sameLedger
    (snd (ExtractionView.processQueue 0 Examples.analyzeCompatible
            [Examples.pending Examples.fileA; Examples.pending Examples.fileB]))
    (snd (ExtractionView.processQueue 0 Examples.analyzeCompatible
            [Examples.pending Examples.fileB; Examples.pending Examples.fileA])).
Proof.
  apply (consolidation_order_independent 0 Examples.analyzeCompatible
           Examples.fileA Examples.fileB
           [Examples.tagged None] [Examples.tagged (Some "DN1400"%string)]
           eq_refl eq_refl).
  intros i1 i2 r1 r2 H1 H2 _.
  apply nth_error_In in H1, H2.
  destruct H1 as [<- | []], H2 as [<- | []].
  split; [reflexivity |]. split; [right; discriminate |].
  split; left; reflexivity.
Defined.

(** C9 as stated fails: a.pdf and b.pdf both show V-1, with specification
    DN1200 and DN1400; the record keeps the specification of the file that
    is consolidated first. *)
Lemma consolidation_depends_on_order :
  map specification
      (JS.mapValues
         (snd (ExtractionView.processQueue 0 Examples.analyzeTagged
                 [Examples.pending Examples.fileA; Examples.pending Examples.fileB])))
  = [Some "DN1200"%string]
  /\ map specification
         (JS.mapValues
            (snd (ExtractionView.processQueue 0 Examples.analyzeTagged
                    [Examples.pending Examples.fileB; Examples.pending Examples.fileA])))
     = [Some "DN1400"%string]
  /\ ~ Spec.sameLedger
         (snd (ExtractionView.processQueue 0 Examples.analyzeTagged
                 [Examples.pending Examples.fileA; Examples.pending Examples.fileB]))
         (snd (ExtractionView.processQueue 0 Examples.analyzeTagged
                 [Examples.pending Examples.fileB; Examples.pending Examples.fileA])).
Proof.
  split; [reflexivity |]. split; [reflexivity |].
  intros H. specialize (H "V-1"%string).
  vm_compute in H. destruct H as (_ & _ & Hs & _). discriminate Hs.
Qed.

(** Ledgers with the same record set hold records under the same keys. *)
Lemma sameLedger_keys (m1 m2 : JS.Map Equipment) (k : string) :
  Spec.sameLedger m1 m2 -> (In k (map fst m1) <-> In k (map fst m2)).
Proof.
  intros H. specialize (H k). unfold JS.mapGet in H.
  split; intros Hin; apply In_objGet in Hin; destruct Hin as [e He].
  - rewrite He in H. destruct (JS.objGet m2 k) as [e' |] eqn:E'; [| elim H].
    apply objGet_In in E'. apply (in_map fst) in E'. exact E'.
  - rewrite He in H. destruct (JS.objGet m1 k) as [e' |] eqn:E'; [| elim H].
    apply objGet_In in E'. apply (in_map fst) in E'. exact E'.
Qed.

(** ** Failure of a detail extraction in the extraction view *)

(** Whatever raw result a record is created from, the extraction view
    marks it complete; a scan entry whose detail call failed gives a record
    without materials. *)
Lemma created_record_is_complete
      (now i eqIdx : nat) (key base64 : string) (entry : ScanEntry) :
  let raw := withoutDetails entry in
  let record :=
    ExtractionView.createNew now i eqIdx key base64
      (ExtractionView.rawItems now i eqIdx raw) raw in
  materials record = [] /\ status record = complete.
Proof. split; reflexivity. Qed.

(** C6: in the extraction view a failed detail call leaves no error mark.
    The scan of a.pdf finds V-1 and V-2 and the detail call is rejected for
    V-1: the record of V-1 is kept without materials and processing goes on
    to V-2, but the status of V-1 is complete, not error. *)
Theorem legacy_failure_is_marked_complete :
  Examples.extractFailingV1Raw "QQ==" "application/pdf" (Some "V-1"%string)
                               (Some "1-2"%string) = None
  /\ map (fun e => (tag e, List.length (materials e), status e))
         (JS.mapValues
            (snd (ExtractionView.processQueue 0
                    (ExtractionView.analyzeFile Examples.scanTwo
                                                Examples.extractFailingV1Raw)
                    [Examples.pending Examples.fileA])))
     = [("V-1"%string, 0, complete); ("V-2"%string, 1, complete)].
Proof. split; reflexivity. Qed.

(** * Further properties of the code *)

(** ** Editing the material list *)

Section Edits.

Import BudgetView.
Open Scope float_scope.

Lemma fold_sum_map {A : Type} (f : A -> float) (h : A -> A) (l : list A) :
  (forall x, f (h x) = f x) ->
  forall a, fold_left (fun s x => s + f x) (map h l) a = fold_left (fun s x => s + f x) l a.
Proof.
  intros H. induction l as [| x l IH]; intros a; simpl; [reflexivity |].
  rewrite H. apply IH.
Qed.

Lemma filter_all {A : Type} (p : A -> bool) (l : list A) :
  (forall x, In x l -> p x = true) -> filter p l = l.
Proof.
  induction l as [| x l IH]; intros H; simpl; [reflexivity |].
  rewrite (H x (or_introl eq_refl)). f_equal. apply IH. intros y Hy. apply H. right. exact Hy.
Qed.

(** Changing a price by hand changes nothing but the price of the lines
    that carry the identifier: all other fields of all lines stay, so the
    BOM weight of the equipment is the same; a line with another identifier
    is untouched, and an identifier no line carries changes nothing. *)
Theorem price_change_touches_only_prices
        (equipment : Equipment) (id0 : string) (p l o : float) :
  let edited := updateMaterials equipment (handlePriceChange (materials equipment) id0 p) in
  map Spec.unpricedLine (materials edited) = map Spec.unpricedLine (materials equipment)
  /\ totalWeight (rollup edited l o) = totalWeight (rollup equipment l o)
  /\ (forall m, In m (materials edited) -> m_id m = id0 -> m_unitPrice m = p)
  /\ (forall m, In m (materials edited) -> m_id m <> id0 -> In m (materials equipment))
  /\ ((forall m, In m (materials equipment) -> m_id m <> id0) ->
      materials edited = materials equipment).
Proof.
  cbv zeta. simpl. unfold handlePriceChange.
  split; [| split; [| split; [| split]]].
  - rewrite map_map. apply map_ext. intros m.
    destruct (String.eqb (m_id m) id0); reflexivity.
  - unfold JS.reduce. apply (fold_sum_map lineWeight). intros m.
    destruct (String.eqb (m_id m) id0); reflexivity.
  - intros m Hin Hid. apply in_map_iff in Hin. destruct Hin as (x & Hx & _).
    destruct (String.eqb (m_id x) id0) eqn:E; subst m; [reflexivity |].
    apply String.eqb_neq in E. contradiction.
  - intros m Hin Hid. apply in_map_iff in Hin. destruct Hin as (x & Hx & Hin).
    destruct (String.eqb (m_id x) id0) eqn:E; subst m; [| exact Hin].
    apply String.eqb_eq in E. simpl in Hid. contradiction.
  - intros H. rewrite <- (map_id (materials equipment)) at 2.
    apply map_ext_in. intros m Hin.
    destruct (String.eqb (m_id m) id0) eqn:E; [| reflexivity].
    apply String.eqb_eq in E. elim (H m Hin E).
Qed.

(** A row that is added and then removed leaves the list as it would be
    after removing its identifier alone: rows added at the same clock
    reading share the identifier and go together, and when no other line
    carries the identifier the list is back to what it was. *)
Theorem add_then_remove_row (now : nat) (materials : list MaterialItem) :
  let newId := m_id (newItem now) in
  removeRow (addNewRow now materials) newId = removeRow materials newId
  /\ removeRow (addNewRow now (addNewRow now materials)) newId = removeRow materials newId
  /\ ((forall m, In m materials -> m_id m <> newId) -> removeRow materials newId = materials).
Proof.
  cbv zeta.
  assert (One : forall ms, removeRow (addNewRow now ms) (m_id (newItem now))
                           = removeRow ms (m_id (newItem now))).
  { intros ms. unfold removeRow, addNewRow. rewrite filter_app. simpl.
    rewrite String.eqb_refl. simpl. apply app_nil_r. }
  split; [apply One |]. split; [rewrite One; apply One |].
  intros H. unfold removeRow. apply filter_all. intros m Hin.
  apply negb_true_iff, String.eqb_neq, H, Hin.
Qed.

Lemma valueEqb_eq (a b : JS.Value string) : JS.valueEqb a b = true <-> a = b.
Proof.
  destruct a as [x | x], b as [y | y]; simpl;
    try (split; [discriminate | intros H; discriminate H]);
    rewrite String.eqb_eq; split; intros H; [subst | injection H | subst | injection H]; auto.
Qed.

Lemma valueEqb_refl (a : JS.Value string) : JS.valueEqb a a = true.
Proof. apply valueEqb_eq. reflexivity. Qed.

Lemma valueEqb_sym (a b : JS.Value string) : JS.valueEqb a b = JS.valueEqb b a.
Proof.
  destruct a, b; simpl; try reflexivity; apply String.eqb_sym.
Qed.

Lemma existsb_eqb_In (x : string) (l : list string) :
  existsb (String.eqb x) l = true <-> In x l.
Proof.
  rewrite existsb_exists. split.
  - intros (y & Hy & E). apply String.eqb_eq in E. subst y. exact Hy.
  - intros H. exists x. split; [exact H | apply String.eqb_refl].
Qed.

Lemma NoDup_snoc {A : Type} (l : list A) (x : A) :
  NoDup l -> ~ In x l -> NoDup (l ++ [x]).
Proof.
  intros Hl Hx. induction Hl as [| y l Hy Hl IH]; simpl.
  - constructor; [intros [] | constructor].
  - constructor.
    + rewrite in_app_iff. intros [H | [H | []]]; [contradiction |].
      subst y. apply Hx. left. reflexivity.
    + apply IH. intros H. apply Hx. right. exact H.
Qed.

(** The table holds its five labels, none of them empty. *)
Lemma table_lookup (category text : string) :
  JS.objGet CATEGORY_LABELS category = Some text ->
  In text Spec.tableLabels /\ JS.truthyStr text = true
  /\ Types.recognizedCategory category = true.
Proof.
  unfold CATEGORY_LABELS, Types.recognizedCategory. simpl.
  repeat match goal with
         | |- context [String.eqb category ?k] => destruct (String.eqb category k); simpl
         end;
    intros H; try discriminate H;
    apply (f_equal (fun o => match o with Some t => t | None => EmptyString end)) in H;
    simpl in H; subst text; simpl; auto 10.
Qed.

Lemma table_lookup_none (category : string) :
  Types.recognizedCategory category = false -> JS.objGet CATEGORY_LABELS category = None.
Proof.
  unfold CATEGORY_LABELS, Types.recognizedCategory. simpl.
  repeat match goal with
         | |- context [String.eqb category ?k] => destruct (String.eqb category k); simpl
         end;
    intros H; try discriminate H; reflexivity.
Qed.

Lemma categoryLabel_closed (category : string) :
  (exists text, categoryLabel category = JS.own text /\ In text Spec.tableLabels)
  \/ (exists name, categoryLabel category = JS.inherited name
                   /\ In name JS.objectPrototypeNames).
Proof.
  unfold categoryLabel, JS.objRead.
  destruct (JS.objGet CATEGORY_LABELS category) as [text |] eqn:G.
  - destruct (table_lookup _ _ G) as (Hin & Ht & _). rewrite Ht.
    left. exists text. auto.
  - destruct (existsb (String.eqb category) JS.objectPrototypeNames) eqn:E.
    + right. exists category. split; [reflexivity | apply existsb_eqb_In, E].
    + left. exists "其他"%string. split; [reflexivity |].
      unfold Spec.tableLabels. simpl. auto 10.
Qed.

Lemma chartValueAt_addToCategory (acc : list (Label * float)) (label label' : Label)
      (cost : float) :
  Spec.chartValueAt (addToCategory acc label cost) label'
  = if JS.valueEqb label' label
    then Some (match Spec.chartValueAt acc label with Some v => v + cost | None => cost end)
    else Spec.chartValueAt acc label'.
Proof.
  induction acc as [| [n v] acc IH]; simpl.
  - rewrite (valueEqb_sym label label'). destruct (JS.valueEqb label' label); reflexivity.
  - destruct (JS.valueEqb n label) eqn:E; simpl.
    + apply valueEqb_eq in E. subst n.
      rewrite (valueEqb_sym label label').
      destruct (JS.valueEqb label' label); reflexivity.
    + destruct (JS.valueEqb n label') eqn:E'; simpl.
      * apply valueEqb_eq in E'. subst label'. rewrite E. reflexivity.
      * exact IH.
Qed.

Lemma chartValueAt_In (data : list (Label * float)) (label : Label) :
  In label (map fst data) -> exists v, Spec.chartValueAt data label = Some v.
Proof.
  induction data as [| [n v] data IH]; simpl; [intros [] |].
  destruct (JS.valueEqb n label) eqn:E; [eauto |].
  intros [H | H]; [| auto].
  subst n. rewrite valueEqb_refl in E. discriminate E.
Qed.

Lemma keys_addToCategory (acc : list (Label * float)) (label : Label) (cost : float) :
  map fst (addToCategory acc label cost) = map fst acc
  \/ (~ In label (map fst acc)
      /\ map fst (addToCategory acc label cost) = map fst acc ++ [label]).
Proof.
  induction acc as [| [n v] acc IH]; simpl.
  - right. split; [intros [] | reflexivity].
  - destruct (JS.valueEqb n label) eqn:E; simpl; [left; reflexivity |].
    destruct IH as [IH | [Hn IH]]; rewrite IH; [left; reflexivity |].
    right. split; [| reflexivity].
    intros [H | H]; [| contradiction].
    subst n. rewrite valueEqb_refl in E. discriminate E.
Qed.

Lemma NoDup_keys_addToCategory (acc : list (Label * float)) (label : Label) (cost : float) :
  NoDup (map fst acc) -> NoDup (map fst (addToCategory acc label cost)).
Proof.
  intros H. destruct (keys_addToCategory acc label cost) as [E | [Hn E]]; rewrite E.
  - exact H.
  - apply NoDup_snoc; assumption.
Qed.

Lemma chart_fold (materials : list MaterialItem) (label : Label) :
  forall acc,
    Spec.chartValueAt
      (fold_left (fun acc item =>
                    addToCategory acc (categoryLabel (m_category item)) (lineCost item))
                 materials acc) label
    = fold_left Spec.chartStep (Spec.costsOf label materials) (Spec.chartValueAt acc label).
Proof.
  unfold Spec.costsOf.
  induction materials as [| item materials IH]; intros acc; simpl; [reflexivity |].
  rewrite IH, chartValueAt_addToCategory.
  rewrite (valueEqb_sym label (categoryLabel (m_category item))).
  destruct (JS.valueEqb (categoryLabel (m_category item)) label) eqn:E; simpl; [| reflexivity].
  apply valueEqb_eq in E. rewrite E. reflexivity.
Qed.

Lemma chartStep_some_value (costs : list float) (v : float) :
  fold_left Spec.chartStep costs (Some v) = Some (fold_left PrimFloat.add costs v).
Proof.
  revert v. induction costs as [| c costs IH]; intros v; simpl; [reflexivity |].
  apply IH.
Qed.

Lemma NoDup_chart_keys (materials : list MaterialItem) :
  forall acc,
    NoDup (map fst acc) ->
    NoDup (map fst (fold_left (fun acc item =>
                                 addToCategory acc (categoryLabel (m_category item))
                                               (lineCost item))
                              materials acc)).
Proof.
  induction materials as [| item materials IH]; intros acc H; simpl; [exact H |].
  apply IH, NoDup_keys_addToCategory, H.
Qed.

(** The chart data holds each label once; the value under a label is the
    cost of its first line with the costs of its later lines added in
    order, and a label without lines has no entry.  A category of the
    table is charted under its text; a category named like a property that
    every object inherits is charted under that inherited value, one group
    per name, and not under a text; any other category is charted under
    the text of other.  So every label is one of the five texts or one of
    the inherited values. *)
Theorem categoryData_groups_by_label (materials : list MaterialItem) :
  NoDup (map fst (categoryData materials))
  /\ (forall label,
         Spec.chartValueAt (categoryData materials) label
         = Spec.chartValue (Spec.costsOf label materials))
  /\ (forall label,
         In label (map fst (categoryData materials)) ->
         (exists text, label = JS.own text /\ In text Spec.tableLabels)
         \/ (exists name, label = JS.inherited name /\ In name JS.objectPrototypeNames))
  /\ (forall category text,
         JS.objGet CATEGORY_LABELS category = Some text ->
         categoryLabel category = JS.own text)
  /\ (forall category,
         In category JS.objectPrototypeNames ->
         categoryLabel category = JS.inherited category)
  /\ (forall category,
         Types.recognizedCategory category = false ->
         ~ In category JS.objectPrototypeNames ->
         categoryLabel category = JS.own "其他"%string).
Proof.
  unfold categoryData, JS.reduce.
  assert (Get : forall label,
             Spec.chartValueAt
               (fold_left (fun acc item =>
                             addToCategory acc (categoryLabel (m_category item))
                                           (lineCost item)) materials []) label
             = Spec.chartValue (Spec.costsOf label materials)).
  { intros label. rewrite chart_fold. simpl.
    destruct (Spec.costsOf label materials) as [| c cs]; simpl; [reflexivity |].
    apply chartStep_some_value. }
  split; [apply NoDup_chart_keys; constructor |].
  split; [exact Get |]. split; [| split; [| split]].
  - intros label Hin. apply chartValueAt_In in Hin. destruct Hin as [v Hv].
    rewrite Get in Hv. unfold Spec.costsOf in Hv.
    destruct (filter (fun item => JS.valueEqb (categoryLabel (m_category item)) label)
                     materials) as [| item rest] eqn:F; [discriminate Hv |].
    assert (Hi : In item (filter (fun item =>
                                    JS.valueEqb (categoryLabel (m_category item)) label)
                                 materials)) by (rewrite F; left; reflexivity).
    apply filter_In in Hi. destruct Hi as [_ Hi]. apply valueEqb_eq in Hi.
    rewrite <- Hi. apply categoryLabel_closed.
  - intros category text G. unfold categoryLabel, JS.objRead. rewrite G.
    destruct (table_lookup _ _ G) as (_ & Ht & _). rewrite Ht. reflexivity.
  - intros category Hin. unfold JS.objectPrototypeNames in Hin. simpl in Hin.
    repeat (destruct Hin as [<- | Hin]; [reflexivity |]). destruct Hin.
  - intros category Hrec Hnot. unfold categoryLabel, JS.objRead.
    rewrite (table_lookup_none _ Hrec).
    destruct (existsb (String.eqb category) JS.objectPrototypeNames) eqn:E; [| reflexivity].
    apply existsb_eqb_In in E. contradiction.
Qed.

(** The groups of a list with two lines of the category constructor and
    one of a category outside the table: one group under the inherited
    value, one under the text of other. *)
Example chart_of_inherited_name :
  map fst (categoryData [Examples.priced "constructor"; Examples.priced "gasket";
                         Examples.priced "constructor"])
  = [JS.inherited "constructor"%string; JS.own "其他"%string].
Proof. vm_compute. reflexivity. Qed.

End Edits.

(** ** Fetching prices leaves the rest of a line alone *)

Section FetchFrame.

Import BudgetView.
Open Scope float_scope.

Variable toLowerCase : string -> string.
Variable lookupPrices : list (option string) -> option (option (list RawPrice)).

Lemma priceLine_unpriced (prices : JS.Obj float) (item item' : MaterialItem) :
  priceLine toLowerCase prices item = Some item' ->
  Spec.unpricedLine item' = Spec.unpricedLine item.
Proof.
  unfold priceLine.
  destruct (m_material item) as [material |].
  - destruct (JS.find (keyMatches toLowerCase material) (JS.keys prices)) as [key |].
    + destruct (JS.truthyStr key); intros H;
        apply (f_equal (fun o => match o with
                                 | Some x => Spec.unpricedLine x
                                 | None => Spec.unpricedLine item
                                 end)) in H; simpl in H; symmetry; exact H.
    + intros H.
      apply (f_equal (fun o => match o with
                               | Some x => Spec.unpricedLine x
                               | None => Spec.unpricedLine item
                               end)) in H; simpl in H; symmetry; exact H.
  - destruct (JS.keys prices); [| discriminate].
    intros H.
    apply (f_equal (fun o => match o with
                             | Some x => Spec.unpricedLine x
                             | None => Spec.unpricedLine item
                             end)) in H; simpl in H; symmetry; exact H.
Qed.

(** When the price lookup completes, the new list has the same lines in
    the same order with every field but the unit price unchanged, so the
    BOM weight of the equipment is what it was. *)
Theorem fetch_prices_touches_only_prices
        (materials out : list MaterialItem) :
  handleFetchPrices toLowerCase lookupPrices materials = Some out ->
  map Spec.unpricedLine out = map Spec.unpricedLine materials
  /\ forall equipment l o,
      totalWeight (rollup (updateMaterials equipment out) l o)
      = totalWeight (rollup (updateMaterials equipment materials) l o).
Proof.
  intros H. unfold handleFetchPrices in H. apply mapThrowing_Forall2 in H.
  assert (E : map Spec.unpricedLine out = map Spec.unpricedLine materials).
  { induction H as [| item item' materials' out' Hp _ IH]; simpl; [reflexivity |].
    rewrite (priceLine_unpriced _ _ _ Hp), IH. reflexivity. }
  split; [exact E |].
  intros equipment l o. simpl. unfold JS.reduce.
  rewrite <- (fold_sum_map lineWeight Spec.unpricedLine out) by reflexivity.
  rewrite <- (fold_sum_map lineWeight Spec.unpricedLine materials) by reflexivity.
  rewrite E. reflexivity.
Qed.

End FetchFrame.

Lemma fetch_prices_touches_only_prices_witness :
  map Spec.unpricedLine
      [BudgetView.setUnitPrice Examples.steelPlate 18%float; Examples.alloy;
       Examples.vesselPlate]
  = map Spec.unpricedLine [Examples.steelPlate; Examples.alloy; Examples.vesselPlate].
Proof.
  apply (fetch_prices_touches_only_prices JS.toLowerCaseAscii Examples.lookupSteel
           [Examples.steelPlate; Examples.alloy; Examples.vesselPlate]
           [BudgetView.setUnitPrice Examples.steelPlate 18%float; Examples.alloy;
            Examples.vesselPlate]).
  vm_compute. reflexivity.
Defined.

(** ** The CSV export *)

Section Csv.

Import EquipmentDirectory.
Open Scope string_scope.
Open Scope nat_scope.

Variable numberToString : float -> string.
Variable toFixed2 : float -> string.

Lemma countChar_app (c : ascii) (s t : string) :
  Spec.countChar c (s ++ t) = Spec.countChar c s + Spec.countChar c t.
Proof.
  induction s as [| a s IH]; simpl; [reflexivity |].
  rewrite IH. lia.
Qed.

Lemma append_empty_r (s : string) : s ++ "" = s.
Proof. induction s as [| a s IH]; simpl; [reflexivity | rewrite IH; reflexivity]. Qed.

Lemma append_associative (s t u : string) : (s ++ t) ++ u = s ++ (t ++ u).
Proof. induction s as [| a s IH]; simpl; [reflexivity | rewrite IH; reflexivity]. Qed.

Lemma join_cons (sep x y : string) (l : list string) :
  JS.join sep (x :: y :: l) = x ++ sep ++ JS.join sep (y :: l).
Proof. reflexivity. Qed.

Lemma countChar_join (c : ascii) (l : list string) :
  Spec.countChar c (JS.join (String c "") l)
  = (List.length l - 1) + Spec.countIn c l.
Proof.
  induction l as [| x l IH]; [reflexivity |].
  destruct l as [| y l]; [simpl; lia |].
  rewrite join_cons, !countChar_app, IH. simpl. rewrite Ascii.eqb_refl. simpl. lia.
Qed.

Lemma countChar_join_other (c sep : ascii) (l : list string) :
  c <> sep ->
  Spec.countChar c (JS.join (String sep "") l) = Spec.countIn c l.
Proof.
  intros Hne. induction l as [| x l IH]; [reflexivity |].
  destruct l as [| y l]; [simpl; lia |].
  rewrite join_cons, !countChar_app, IH. simpl.
  assert (E : Ascii.eqb sep c = false) by (apply Ascii.eqb_neq; congruence).
  rewrite E. simpl. lia.
Qed.

Lemma csvContent_unfold (l o : float) (equipments : list Equipment) :
  forall start,
    fold_left (fun csv eq =>
                 csv ++ (JS.join "," (csvFields numberToString toFixed2 l o eq) ++ newline))
              equipments start
    = start ++ fold_left (fun csv eq =>
                            csv ++ (JS.join "," (csvFields numberToString toFixed2 l o eq)
                                    ++ newline))
                         equipments "".
Proof.
  induction equipments as [| eq equipments IH]; intros start; cbn [fold_left].
  - symmetry. apply append_empty_r.
  - rewrite (IH (start ++ _)), (IH ("" ++ _)).
    rewrite append_associative. reflexivity.
Qed.

(** The export writes the fields of a row as they are, joined by commas:
    a row holds six commas more than its fields contain, and the text
    holds one line break for the header, one per equipment, and those its
    fields contain.  An empty project gives the header alone. *)
Theorem csv_rows_join_seven_fields_unescaped
        (l o : float) (equipments : list Equipment) :
  (forall eq,
      Spec.countChar "," (JS.join "," (csvFields numberToString toFixed2 l o eq))
      = 6 + Spec.countIn "," (csvFields numberToString toFixed2 l o eq))
  /\ csvContent numberToString toFixed2 l o [] = csvPrefix ++ csvHeader
  /\ Spec.countChar "010" (csvContent numberToString toFixed2 l o equipments)
     = 1 + List.length equipments
       + Spec.countIn "010" (flat_map (csvFields numberToString toFixed2 l o) equipments).
Proof.
  split; [| split].
  - intros eq. rewrite countChar_join. reflexivity.
  - reflexivity.
  - unfold csvContent. rewrite csvContent_unfold, countChar_app.
    change (Spec.countChar "010" (csvPrefix ++ csvHeader)) with 1.
    assert (A : forall a b, Spec.countIn "010" (a ++ b)
                            = Spec.countIn "010" a + Spec.countIn "010" b).
    { intros a b. induction a as [| x a IHa]; simpl; [reflexivity | rewrite IHa; lia]. }
    induction equipments as [| eq equipments IH] using rev_ind; [reflexivity |].
    rewrite fold_left_app, flat_map_app, length_app, A.
    cbn [fold_left flat_map List.length].
    rewrite countChar_app, countChar_app, app_nil_r.
    rewrite (countChar_join_other "010" ",") by discriminate.
    change (Spec.countChar "010" newline) with 1. lia.
Qed.

End Csv.

(** ** The file queue of the extraction view *)

Section FileQueue.

Import ExtractionView.
Open Scope nat_scope.
Open Scope list_scope.

Lemma filterFrom_keeps_later {A : Type} (l : list A) :
  forall start target,
    target < start ->
    JS.filterFrom (fun (_ : A) j => negb (Nat.eqb j target)) l start = l.
Proof.
  induction l as [| x l IH]; intros start target H; simpl; [reflexivity |].
  assert (E : Nat.eqb start target = false) by (apply Nat.eqb_neq; lia).
  rewrite E. simpl. f_equal. apply IH. lia.
Qed.

Lemma filterFrom_drops_one {A : Type} (l : list A) :
  forall start i,
    JS.filterFrom (fun (_ : A) j => negb (Nat.eqb j (start + i))) l start
    = firstn i l ++ skipn (S i) l.
Proof.
  induction l as [| x l IH]; intros start i; simpl.
  - destruct i; reflexivity.
  - destruct i as [| i].
    + rewrite Nat.add_0_r, Nat.eqb_refl. simpl.
      apply filterFrom_keeps_later. lia.
    + assert (E : Nat.eqb start (start + S i) = false) by (apply Nat.eqb_neq; lia).
      rewrite E. simpl. f_equal.
      replace (start + S i) with (S start + i) by lia. apply IH.
Qed.

(** Removing a file from the queue drops exactly the entry at that index
    and keeps the others in order; an index past the end changes nothing. *)
Theorem removeFile_drops_the_entry_at_index (fileQueue : list FileStatus) (index : nat) :
  removeFile fileQueue index = firstn index fileQueue ++ skipn (S index) fileQueue
  /\ (index < List.length fileQueue ->
      S (List.length (removeFile fileQueue index)) = List.length fileQueue)
  /\ (List.length fileQueue <= index -> removeFile fileQueue index = fileQueue).
Proof.
  assert (E : removeFile fileQueue index
              = firstn index fileQueue ++ skipn (S index) fileQueue).
  { unfold removeFile, JS.filterIdx. apply (filterFrom_drops_one fileQueue 0 index). }
  split; [exact E |]. split.
  - intros H. rewrite E, length_app, length_firstn, length_skipn. lia.
  - intros H. rewrite E, firstn_all2, skipn_all2 by lia. apply app_nil_r.
Qed.

Variable now : nat.
Variable analyze : File -> option (list RawEquipment).

Lemma processEntry_queue (l : list FileStatus) :
  forall start updated m,
    fst (JS.forEachFrom (processEntry now analyze) l start (updated, m))
    = updated ++ map (Spec.settled analyze) l.
Proof.
  induction l as [| entry l IH]; intros start updated m; simpl.
  - symmetry. apply app_nil_r.
  - unfold Spec.settled at 1.
    destruct (fs_status entry); try (rewrite IH, <- app_assoc; reflexivity);
      destruct (analyze (fs_file entry)); rewrite IH, <- app_assoc; reflexivity.
Qed.

Lemma processEntry_all_success (l : list FileStatus) :
  Forall (fun e => fs_status e = q_success) l ->
  forall start updated m,
    snd (JS.forEachFrom (processEntry now analyze) l start (updated, m)) = m.
Proof.
  induction 1 as [| entry l He _ IH]; intros start updated m; simpl; [reflexivity |].
  rewrite He. apply IH.
Qed.

(** A run of the queue gives every entry its turn: the files stay in
    place, an entry that had succeeded is left alone, every other entry
    ends as success or error by the outcome of its analysis, and nothing
    stays pending.  A queue of files that had all succeeded builds an
    empty ledger, and the completion callback is not called. *)
Theorem processQueue_settles_every_entry (fileQueue : list FileStatus) :
  let updated := fst (processQueue now analyze fileQueue) in
  updated = map (Spec.settled analyze) fileQueue
  /\ map fs_file updated = map fs_file fileQueue
  /\ Forall (fun e => fs_status e = q_success \/ fs_status e = q_error) updated
  /\ pendingCount updated = 0
  /\ (Forall (fun e => fs_status e = q_success) fileQueue ->
      snd (processQueue now analyze fileQueue) = []
      /\ analysisResult now analyze fileQueue = None).
Proof.
  cbv zeta.
  assert (E : fst (processQueue now analyze fileQueue)
              = map (Spec.settled analyze) fileQueue).
  { unfold processQueue, JS.forEachIdx. rewrite processEntry_queue. reflexivity. }
  rewrite E.
  assert (St : forall e, fs_status (Spec.settled analyze e) = q_success
                        \/ fs_status (Spec.settled analyze e) = q_error).
  { intros e. unfold Spec.settled.
    destruct (fs_status e) eqn:Es; try (left; exact Es);
      destruct (analyze (fs_file e)); simpl; auto. }
  split; [reflexivity |]. split; [| split; [| split]].
  - rewrite map_map. apply map_ext. intros e. unfold Spec.settled.
    destruct (fs_status e); try reflexivity; destruct (analyze (fs_file e)); reflexivity.
  - apply Forall_forall. intros e He. apply in_map_iff in He.
    destruct He as (e0 & <- & _). apply St.
  - clear E. unfold pendingCount.
    induction fileQueue as [| e l IH]; simpl; [reflexivity |].
    unfold isPending at 1. destruct (St e) as [Hs | Hs]; rewrite Hs; simpl; apply IH.
  - intros H.
    assert (M : snd (processQueue now analyze fileQueue) = []).
    { unfold processQueue, JS.forEachIdx. apply processEntry_all_success, H. }
    split; [exact M |]. unfold analysisResult. rewrite M. reflexivity.
Qed.

End FileQueue.

(** ** What the ledger of the extraction view keeps *)

Section Ledger.

Import ExtractionView.
Open Scope nat_scope.
Open Scope list_scope.

Variable now : nat.
Variable analyze : File -> option (list RawEquipment).

Lemma forEachFrom_invariant {A St : Type} (P : St -> Prop) (f : St -> A -> nat -> St)
      (l : list A) :
  (forall st x i, P st -> P (f st x i)) ->
  forall start st, P st -> P (JS.forEachFrom f l start st).
Proof.
  intros Hf. induction l as [| x l IH]; intros start st H; simpl; [exact H |].
  apply IH, Hf, H.
Qed.

Lemma mapGet_none_iff {V : Type} (m : JS.Map V) (k : string) :
  JS.mapGet m k = None <-> ~ In k (map fst m).
Proof.
  unfold JS.mapGet. split.
  - intros H Hin. apply In_objGet in Hin. destruct Hin as [v Hv]. congruence.
  - intros H. destruct (JS.objGet m k) as [v |] eqn:E; [| reflexivity].
    apply objGet_In in E. apply (in_map fst) in E. contradiction.
Qed.

Lemma mapSet_absent {V : Type} (m : JS.Map V) (k : string) (v : V) :
  JS.mapGet m k = None -> JS.mapSet m k v = m ++ [(k, v)].
Proof.
  unfold JS.mapGet, JS.mapSet. induction m as [| [k0 v0] m IH]; simpl; [reflexivity |].
  destruct (String.eqb k k0); [discriminate |].
  intros H. rewrite (IH H). reflexivity.
Qed.

Lemma keys_mapMutate {V : Type} (m : JS.Map V) (k : string) (f : V -> V) :
  map fst (JS.mapMutate m k f) = map fst m.
Proof.
  induction m as [| [k0 v0] m IH]; simpl; [reflexivity |].
  destruct (String.eqb k k0); simpl; [reflexivity | rewrite IH; reflexivity].
Qed.

Lemma Forall_mapMutate {V : Type} (P : V -> Prop) (m : JS.Map V) (k : string) (f : V -> V) :
  (forall v, P v -> P (f v)) ->
  Forall (fun kv => P (snd kv)) m -> Forall (fun kv => P (snd kv)) (JS.mapMutate m k f).
Proof.
  intros Hf H. induction H as [| [k0 v0] m Hv Hm IH]; simpl; [constructor |].
  destruct (String.eqb k k0); constructor; auto. apply Hf, Hv.
Qed.

Lemma pushIfAbsent_NoDup (ds : list string) (u : string) :
  ds <> [] -> NoDup ds -> pushIfAbsent ds u <> [] /\ NoDup (pushIfAbsent ds u).
Proof.
  intros Hne Hnd. unfold pushIfAbsent, JS.arrayIncludes.
  destruct (existsb (String.eqb u) ds) eqn:E; simpl; [auto |].
  split.
  - destruct ds; [congruence | discriminate].
  - apply NoDup_snoc; [exact Hnd |].
    intros Hin. apply existsb_eqb_In in Hin. congruence.
Qed.

Lemma mergeEquipment_invariant (i : nat) (file : File) (m : JS.Map Equipment)
      (r : RawEquipment) (idx : nat) :
  Spec.ledgerInvariant m -> Spec.ledgerInvariant (mergeEquipment now i file m r idx).
Proof.
  intros [Hk Hr]. unfold mergeEquipment, JS.mapHas.
  destruct (JS.mapGet m (tagKey (file_name file) idx r)) as [e |] eqn:E.
  - split; [rewrite keys_mapMutate; exact Hk |].
    apply (Forall_mapMutate Spec.wellFormedRecord); [| exact Hr].
    intros v (Hs & Hne & Hnd). unfold Spec.wellFormedRecord. simpl.
    split; [exact Hs |]. apply pushIfAbsent_NoDup; assumption.
  - rewrite (mapSet_absent _ _ _ E). split.
    + rewrite map_app. simpl. apply NoDup_snoc; [exact Hk |].
      apply mapGet_none_iff, E.
    + apply Forall_app. split; [exact Hr |]. constructor; [| constructor].
      unfold Spec.wellFormedRecord. simpl.
      split; [reflexivity |]. split; [discriminate |].
      constructor; [intros [] | constructor].
Qed.

Lemma processEntry_invariant (st : list FileStatus * JS.Map Equipment)
      (entry : FileStatus) (i : nat) :
  Spec.ledgerInvariant (snd st) -> Spec.ledgerInvariant (snd (processEntry now analyze st entry i)).
Proof.
  destruct st as [updated m]. simpl. intros H.
  destruct (fs_status entry); simpl; try exact H;
    destruct (analyze (fs_file entry)) as [raws |]; simpl; try exact H;
    unfold mergeFile, JS.forEachIdx;
    apply (forEachFrom_invariant Spec.ledgerInvariant); try exact H;
    intros st x j; apply mergeEquipment_invariant.
Qed.

(** The ledger a run of the queue builds never holds two records under
    one merge key, and each of its records is marked complete and lists at
    least one drawing, none of them twice. *)
Theorem ledger_records_are_well_formed (fileQueue : list FileStatus) :
  let ledger := snd (processQueue now analyze fileQueue) in
  NoDup (map fst ledger)
  /\ Forall Spec.wellFormedRecord (JS.mapValues ledger).
Proof.
  cbv zeta.
  assert (H : Spec.ledgerInvariant (snd (processQueue now analyze fileQueue))).
  { unfold processQueue, JS.forEachIdx.
    apply (forEachFrom_invariant (fun st => Spec.ledgerInvariant (snd st))).
    - intros st x i. apply processEntry_invariant.
    - split; constructor. }
  destruct H as [Hk Hr]. split; [exact Hk |].
  unfold JS.mapValues. apply Forall_map. exact Hr.
Qed.

Lemma length_mapFrom {A B : Type} (f : A -> nat -> B) (l : list A) :
  forall start, List.length (JS.mapFrom f l start) = List.length l.
Proof.
  induction l as [| x l IH]; intros start; simpl; [reflexivity | rewrite IH; reflexivity].
Qed.

Lemma ledgerLines_app (m1 m2 : JS.Map Equipment) :
  Spec.ledgerLines (m1 ++ m2) = Spec.ledgerLines m1 + Spec.ledgerLines m2.
Proof.
  induction m1 as [| [k e] m1 IH]; simpl; [reflexivity | rewrite IH; lia].
Qed.

Lemma ledgerLines_mapMutate (m : JS.Map Equipment) (k : string)
      (f : Equipment -> Equipment) (n : nat) (e0 : Equipment) :
  (forall e, List.length (materials (f e)) = List.length (materials e) + n) ->
  JS.mapGet m k = Some e0 ->
  Spec.ledgerLines (JS.mapMutate m k f) = Spec.ledgerLines m + n.
Proof.
  intros Hf. unfold JS.mapGet. induction m as [| [k0 v0] m IH]; simpl; [discriminate |].
  destruct (String.eqb k k0); simpl.
  - intros _. rewrite Hf. lia.
  - intros H. rewrite (IH H). lia.
Qed.

Lemma ledgerLines_mergeEquipment (i : nat) (file : File) (m : JS.Map Equipment)
      (r : RawEquipment) (idx : nat) :
  Spec.ledgerLines (mergeEquipment now i file m r idx)
  = Spec.ledgerLines m + Spec.rawLineCount r.
Proof.
  assert (L : List.length (rawItems now i idx r) = Spec.rawLineCount r).
  { unfold rawItems, JS.mapIdx, Spec.rawLineCount. rewrite length_mapFrom.
    destruct (e_materials r); reflexivity. }
  unfold mergeEquipment, JS.mapHas.
  destruct (JS.mapGet m (tagKey (file_name file) idx r)) as [e |] eqn:E.
  - rewrite (ledgerLines_mapMutate m _ _ (Spec.rawLineCount r) e); [reflexivity | | exact E].
    intros e'. simpl. rewrite length_app, L. reflexivity.
  - rewrite (mapSet_absent _ _ _ E), ledgerLines_app. simpl. rewrite L. lia.
Qed.

Lemma ledgerLines_mergeFile (i : nat) (file : File) (raws : list RawEquipment) :
  forall start m,
    Spec.ledgerLines (JS.forEachFrom (mergeEquipment now i file) raws start m)
    = Spec.ledgerLines m + Spec.rawLines raws.
Proof.
  induction raws as [| r raws IH]; intros start m; simpl; [lia |].
  rewrite IH, ledgerLines_mergeEquipment. lia.
Qed.

Lemma ledgerLines_queue (l : list FileStatus) :
  forall start updated m,
    Spec.ledgerLines (snd (JS.forEachFrom (processEntry now analyze) l start (updated, m)))
    = Spec.ledgerLines m + Spec.analysedLines analyze l.
Proof.
  induction l as [| entry l IH]; intros start updated m; [simpl; lia |].
  cbn [JS.forEachFrom Spec.analysedLines]. unfold processEntry at 2.
  destruct (fs_status entry); try (rewrite IH; reflexivity);
    destruct (analyze (fs_file entry)) as [raws |]; rewrite IH; try lia;
    unfold mergeFile, JS.forEachIdx; rewrite ledgerLines_mergeFile; lia.
Qed.

(** Consolidation neither drops nor de-duplicates material lines: the
    records of the ledger hold, together, exactly as many lines as the
    analysed files returned. *)
Theorem consolidation_keeps_every_material_line (fileQueue : list FileStatus) :
  Spec.ledgerLines (snd (processQueue now analyze fileQueue))
  = Spec.analysedLines analyze fileQueue.
Proof.
  unfold processQueue, JS.forEachIdx. rewrite ledgerLines_queue. reflexivity.
Qed.

End Ledger.

(** Two results without a usable tag share a merge key exactly when they
    have the same file name and the same occurrence index: within one file
    they never merge with each other. *)
Theorem unresolved_keys_determine_origin
        (f1 f2 : string) (i1 i2 : nat) (r1 r2 : RawEquipment) :
  Spec.unresolvedTag (e_tag r1) -> Spec.unresolvedTag (e_tag r2) ->
  (ExtractionView.tagKey f1 i1 r1 = ExtractionView.tagKey f2 i2 r2 <-> f1 = f2 /\ i1 = i2).
Proof.
  intros U1 U2. rewrite !tagKey_unresolved by assumption. split.
  - apply unknownKey_inj.
  - intros [-> ->]. reflexivity.
Qed.

Lemma unresolved_keys_determine_origin_witness :
  ExtractionView.tagKey "a.pdf" 0 Examples.untagged
  = ExtractionView.tagKey "a.pdf" 1 Examples.untagged
  <-> "a.pdf"%string = "a.pdf"%string /\ 0 = 1.
Proof.
  apply (unresolved_keys_determine_origin "a.pdf" "a.pdf" 0 1
           Examples.untagged Examples.untagged);
    left; reflexivity.
Defined.

Lemma populated_fields_are_stable_witness :
  exists e',
    JS.mapGet
      (JS.forEachFrom (ExtractionView.mergeEquipment 0 1 Examples.fileB)
         [Examples.tagged (Some "DN1400"%string); Examples.tagged None] 0
         [("V-1"%string,
           ExtractionView.createNew 0 0 0 "V-1" "" [] (Examples.tagged (Some "DN1200"%string)))])
      "V-1"%string = Some e'
    /\ (~ Spec.emptyStr (Some "DN1200"%string) -> specification e' = Some "DN1200"%string)
    /\ (~ Spec.emptyStr None -> mainMaterial e' = None)
    /\ (~ Spec.emptyNum None -> designWeight e' = None).
Proof.
  exact (populated_fields_are_stable 0 1 Examples.fileB
           [Examples.tagged (Some "DN1400"%string); Examples.tagged None] 0
           [("V-1"%string,
             ExtractionView.createNew 0 0 0 "V-1" "" []
               (Examples.tagged (Some "DN1200"%string)))]
           "V-1"%string
           (ExtractionView.createNew 0 0 0 "V-1" "" []
              (Examples.tagged (Some "DN1200"%string)))
           eq_refl).
Defined.

(** ** The project state of the application *)

Section Project.

Import App.
Open Scope nat_scope.
Open Scope list_scope.

Variable fits : ProjectState -> bool.

Lemma jsonNumber_finite (x : float) :
  JS.jsonNumber x = if Spec.finite x then Some (Spec.storedNumber x) else None.
Proof.
  unfold JS.jsonNumber, Spec.finite, Spec.storedNumber.
  destruct (PrimFloat.is_nan x || PrimFloat.is_infinity x); simpl; [reflexivity |].
  destruct (PrimFloat.is_zero x); reflexivity.
Qed.

Lemma readBackOptional_finite (o : option float) :
  readBackOptional o
  = if Spec.finiteOptional o then Some (option_map Spec.storedNumber o) else None.
Proof.
  destruct o as [x |]; simpl; [| reflexivity].
  rewrite jsonNumber_finite. destruct (Spec.finite x); reflexivity.
Qed.

Lemma readBackLine_finite (m : MaterialItem) :
  readBackLine m = if Spec.finiteLine m then Some (Spec.storedLine m) else None.
Proof.
  unfold readBackLine, Spec.finiteLine.
  rewrite !readBackOptional_finite, !jsonNumber_finite.
  destruct (Spec.finiteOptional (m_weight m)); simpl; [| reflexivity].
  destruct (Spec.finiteOptional (m_quantity m)); simpl; [| reflexivity].
  destruct (Spec.finite (m_unitPrice m)); simpl; [| reflexivity].
  destruct (Spec.finite (m_totalPrice m)); reflexivity.
Qed.

Lemma allOrNone_forallb {A B : Type} (f : A -> option B) (ok : A -> bool) (g : A -> B)
      (l : list A) :
  (forall x, f x = if ok x then Some (g x) else None) ->
  JS.allOrNone f l = if forallb ok l then Some (map g l) else None.
Proof.
  intros H. induction l as [| x l IH]; simpl; [reflexivity |].
  rewrite H, IH. destruct (ok x); simpl; [| reflexivity].
  destruct (forallb ok l); reflexivity.
Qed.

Lemma readBackEquipment_finite (e : Equipment) :
  readBackEquipment (withoutDrawings e)
  = if Spec.finiteEquipment e then Some (withoutDrawings (Spec.asStored e)) else None.
Proof.
  unfold readBackEquipment, Spec.finiteEquipment.
  rewrite readBackOptional_finite.
  rewrite (allOrNone_forallb readBackLine Spec.finiteLine Spec.storedLine)
    by apply readBackLine_finite.
  cbn [withoutDrawings sv_designWeight sv_materials].
  destruct (Spec.finiteOptional (designWeight e)); simpl; [| reflexivity].
  destruct (forallb Spec.finiteLine (materials e)); reflexivity.
Qed.

(** The project a new session finds after a save of [rendered], when all
    its numbers are finite. *)
Lemma readBack_snapshot (rendered : State) (now : nat) :
  readBack (snapshot rendered now)
  = if Spec.finiteProject rendered
    then Some {| ps_id := Some "proj-1"%string;
                 ps_name := Some "Default Project"%string;
                 ps_files := Some [];
                 ps_equipments :=
                   Some (map (fun e => withoutDrawings (Spec.asStored e))
                             (equipments rendered));
                 ps_laborCostPerKg := Some (Spec.storedNumber (laborCost rendered));
                 ps_overheadPercent := Some (Spec.storedNumber (overhead rendered));
                 ps_lastSaved := Some now |}
    else None.
Proof.
  unfold readBack, snapshot, Spec.finiteProject, readBackEquipments.
  cbn [ps_equipments ps_laborCostPerKg ps_overheadPercent ps_id ps_name ps_files
       ps_lastSaved].
  assert (E : JS.allOrNone readBackEquipment (map withoutDrawings (equipments rendered))
              = if forallb Spec.finiteEquipment (equipments rendered)
                then Some (map (fun e => withoutDrawings (Spec.asStored e))
                               (equipments rendered))
                else None).
  { induction (equipments rendered) as [| e l IH]; simpl; [reflexivity |].
    rewrite readBackEquipment_finite, IH.
    destruct (Spec.finiteEquipment e); simpl; [| reflexivity].
    destruct (forallb Spec.finiteEquipment l); reflexivity. }
  rewrite E, !readBackOptional_finite. simpl.
  destruct (forallb Spec.finiteEquipment (equipments rendered)); simpl; [| reflexivity].
  destruct (Spec.finite (laborCost rendered)); simpl; [| reflexivity].
  destruct (Spec.finite (overhead rendered)); reflexivity.
Qed.

Lemma restored_storedNumber (x : float) :
  (if JS.truthyNum (Spec.storedNumber x) then Spec.storedNumber x else 15%float)
  = Spec.restoredParameter x.
Proof.
  unfold Spec.restoredParameter, Spec.storedNumber, JS.truthyNum.
  destruct (PrimFloat.is_zero x) eqn:Z; [| rewrite Z; reflexivity].
  change (PrimFloat.is_zero 0 || PrimFloat.is_nan 0) with true. reflexivity.
Qed.

Lemma loadProject_stored (rendered : State) (now : nat) (parsed : ProjectState) :
  readBack (snapshot rendered now) = Some parsed ->
  let reloaded := fst (loadProject (Saved parsed) initial) in
  equipments reloaded = map Spec.asStored (equipments rendered)
  /\ laborCost reloaded = Spec.restoredParameter (laborCost rendered)
  /\ overhead reloaded = Spec.restoredParameter (overhead rendered)
  /\ lastSaved reloaded = match now with 0 => None | S _ => Some now end
  /\ view reloaded = match equipments rendered with [] => IMPORTER | _ :: _ => DIRECTORY end
  /\ uploadedFiles reloaded = []
  /\ selectedEquipmentId reloaded = None
  /\ snd (loadProject (Saved parsed) initial) = Saved parsed.
Proof.
  rewrite readBack_snapshot.
  destruct (Spec.finiteProject rendered); [| discriminate].
  intros H.
  apply (f_equal (fun o => match o with Some x => x | None => parsed end)) in H.
  subst parsed. cbv zeta. unfold loadProject.
  cbn [ps_equipments ps_laborCostPerKg ps_overheadPercent ps_lastSaved fst snd].
  rewrite map_map.
  pose proof (restored_storedNumber (laborCost rendered)) as Hl.
  pose proof (restored_storedNumber (overhead rendered)) as Ho.
  destruct (JS.truthyNum (Spec.storedNumber (laborCost rendered)));
    destruct (JS.truthyNum (Spec.storedNumber (overhead rendered)));
    destruct now; destruct (equipments rendered); repeat split;
    try exact Hl; try exact Ho.
Qed.

(** Saving and opening the application again, for a project whose numbers
    are all finite: the text read back is a project; the new session shows
    the saved equipments in their order with every field but the drawings,
    which are empty, and with negative zeros as 0; it takes the labour cost
    and the overhead from the saved project unless the saved number is
    zero, where it keeps the initial 15; it starts in the directory exactly
    when an equipment was saved, with nothing selected and no uploaded
    file; and it leaves the saved project in storage. *)
Theorem reload_restores_saved_project
        (rendered current : State) (now now' : nat) (stored : Stored) :
  fits (snapshot rendered now) = true ->
  Spec.finiteProject rendered = true ->
  exists parsed,
    reopen (snd (saveProject fits rendered now now' stored current)) = Some (Saved parsed)
    /\ (let reloaded := fst (loadProject (Saved parsed) initial) in
        equipments reloaded = map Spec.asStored (equipments rendered)
        /\ Forall (fun e => drawings e = []) (equipments reloaded)
        /\ laborCost reloaded = Spec.restoredParameter (laborCost rendered)
        /\ overhead reloaded = Spec.restoredParameter (overhead rendered)
        /\ lastSaved reloaded = match now with 0 => None | S _ => Some now end
        /\ view reloaded
           = match equipments rendered with [] => IMPORTER | _ :: _ => DIRECTORY end
        /\ uploadedFiles reloaded = []
        /\ selectedEquipmentId reloaded = None
        /\ snd (loadProject (Saved parsed) initial) = Saved parsed).
Proof.
  intros Hfits Hfin. unfold saveProject. rewrite Hfits. cbn [snd reopen].
  destruct (readBack (snapshot rendered now)) as [parsed |] eqn:R.
  - exists parsed. split; [reflexivity |].
    destruct (loadProject_stored rendered now parsed R)
      as (He & Hl & Ho & Hs & Hv & Hf & Hsel & Hst).
    cbv zeta. repeat split; try assumption.
    rewrite He. apply Forall_map, Forall_forall. reflexivity.
  - rewrite readBack_snapshot, Hfin in R. discriminate R.
Qed.

(** The automatic save of an import or of an edit writes the list of the
    render the handler belongs to, not the list it has just set: the screen
    shows the new list, the text written holds the list from before the
    change, and a new session that reads the text as a project shows that
    earlier list. *)
Theorem autosave_stores_the_list_before_the_change
        (st : State) (now now' : nat) (stored : Stored)
        (newEquipments : list Equipment) (updatedEq : Equipment) :
  fits (snapshot st now) = true ->
  let imported := handleImportComplete fits st now now' stored st newEquipments in
  let updated := handleUpdateEquipment fits st now now' stored st updatedEq in
  equipments (fst imported) = newEquipments
  /\ view (fst imported) = DIRECTORY
  /\ lastSaved (fst imported) = Some now'
  /\ (exists written,
         snd imported = Written written
         /\ ps_equipments written = Some (map withoutDrawings (equipments st)))
  /\ (forall next,
         reopen (snd imported) = Some next ->
         equipments (fst (loadProject next initial)) = map Spec.asStored (equipments st))
  /\ equipments (fst updated)
     = map (fun e => if String.eqb (id e) (id updatedEq) then updatedEq else e)
           (equipments st)
  /\ lastSaved (fst updated) = Some now'
  /\ (exists written,
         snd updated = Written written
         /\ ps_equipments written = Some (map withoutDrawings (equipments st)))
  /\ (forall next,
         reopen (snd updated) = Some next ->
         equipments (fst (loadProject next initial)) = map Spec.asStored (equipments st)).
Proof.
  intros Hfits. cbv zeta. unfold handleImportComplete, handleUpdateEquipment, saveProject.
  rewrite Hfits. cbn [fst snd reopen].
  assert (Next : forall next,
             option_map Saved (readBack (snapshot st now)) = Some next ->
             equipments (fst (loadProject next initial))
             = map Spec.asStored (equipments st)).
  { intros next H.
    destruct (readBack (snapshot st now)) as [parsed |] eqn:R; [| discriminate H].
    simpl in H.
    assert (E : next = Saved parsed).
    { apply (f_equal (fun o => match o with Some x => x | None => next end)) in H.
      symmetry. exact H. }
    subst next. apply (loadProject_stored st now parsed R). }
  split; [reflexivity |]. split; [reflexivity |]. split; [reflexivity |].
  split; [exists (snapshot st now); split; reflexivity |].
  split; [exact Next |].
  split; [reflexivity |]. split; [reflexivity |].
  split; [exists (snapshot st now); split; reflexivity |].
  exact Next.
Qed.

Lemma find_id_after_update (updatedEq : Equipment) (l : list Equipment) :
  In (id updatedEq) (map id l) ->
  JS.find (fun e => JS.optStrEqb (Some (id e)) (Some (id updatedEq)))
          (map (fun e => if String.eqb (id e) (id updatedEq) then updatedEq else e) l)
  = Some updatedEq.
Proof.
  unfold JS.find. induction l as [| e l IH]; simpl; [intros [] |].
  intros H. destruct (String.eqb (id e) (id updatedEq)) eqn:E.
  - simpl. rewrite String.eqb_refl. reflexivity.
  - simpl. rewrite E. apply IH. destruct H as [H | H]; [| exact H].
    rewrite H, String.eqb_refl in E. discriminate.
Qed.

(** An edit replaces every record that has the identifier of the edited
    one and leaves the others, their order and their number as they are;
    the record the detail view then looks up under that identifier is the
    edited one; with no record of that identifier the list is unchanged.
    The view and the selection are not touched. *)
Theorem update_replaces_the_records_with_its_id
        (rendered current : State) (now now' : nat) (stored : Stored)
        (updatedEq : Equipment) :
  let st := fst (handleUpdateEquipment fits rendered now now' stored current updatedEq) in
  map id (equipments st) = map id (equipments current)
  /\ (forall i e, nth_error (equipments current) i = Some e ->
        nth_error (equipments st) i
        = Some (if String.eqb (id e) (id updatedEq) then updatedEq else e))
  /\ (forall e, In e (equipments st) -> id e = id updatedEq -> e = updatedEq)
  /\ (In (id updatedEq) (map id (equipments current)) ->
      selectedEquipmentId current = Some (id updatedEq) ->
      selectedEquipment st = Some updatedEq)
  /\ (~ In (id updatedEq) (map id (equipments current)) ->
      equipments st = equipments current)
  /\ view st = view current
  /\ selectedEquipmentId st = selectedEquipmentId current.
Proof.
  cbv zeta. unfold handleUpdateEquipment, saveProject.
  set (upd := fun e => if String.eqb (id e) (id updatedEq) then updatedEq else e).
  assert (Eq : equipments
                 (fst (if fits (snapshot rendered now)
                       then (setLastSaved
                               (setEquipments current (map upd (equipments current)))
                               (Some now'), Written (snapshot rendered now))
                       else (setEquipments current (map upd (equipments current)), Kept stored)))
               = map upd (equipments current))
    by (destruct (fits (snapshot rendered now)); reflexivity).
  assert (Ev : view
                 (fst (if fits (snapshot rendered now)
                       then (setLastSaved
                               (setEquipments current (map upd (equipments current)))
                               (Some now'), Written (snapshot rendered now))
                       else (setEquipments current (map upd (equipments current)), Kept stored)))
               = view current)
    by (destruct (fits (snapshot rendered now)); reflexivity).
  assert (Es : selectedEquipmentId
                 (fst (if fits (snapshot rendered now)
                       then (setLastSaved
                               (setEquipments current (map upd (equipments current)))
                               (Some now'), Written (snapshot rendered now))
                       else (setEquipments current (map upd (equipments current)), Kept stored)))
               = selectedEquipmentId current)
    by (destruct (fits (snapshot rendered now)); reflexivity).
  unfold selectedEquipment. rewrite Eq, Ev, Es.
  split; [| split; [| split; [| split; [| split; [| split]]]]]; try reflexivity.
  - rewrite map_map. apply map_ext. intros e. unfold upd.
    destruct (String.eqb (id e) (id updatedEq)) eqn:E; [| reflexivity].
    apply String.eqb_eq in E. symmetry. exact E.
  - intros i e H. rewrite nth_error_map, H. reflexivity.
  - intros e Hin Hid. apply in_map_iff in Hin. destruct Hin as (e0 & He0 & _).
    unfold upd in He0. destruct (String.eqb (id e0) (id updatedEq)) eqn:E.
    + symmetry. exact He0.
    + subst e0. rewrite Hid, String.eqb_refl in E. discriminate.
  - intros Hin Hsel. rewrite Hsel. apply find_id_after_update, Hin.
  - intros Hnot. rewrite <- (map_id (equipments current)) at 2.
    apply map_ext_in. intros e He. unfold upd.
    destruct (String.eqb (id e) (id updatedEq)) eqn:E; [| reflexivity].
    apply String.eqb_eq in E. exfalso. apply Hnot. rewrite <- E.
    apply in_map, He.
Qed.

(** Deleting removes every record with the identifier and keeps the
    others in their order; when the identifier is the selected one the
    selection is cleared and the directory is shown, otherwise view and
    selection stay; afterwards the detail view never looks up a record with
    the deleted identifier. *)
Theorem delete_removes_every_record_with_the_id (current : State) (id0 : string) :
  let st := handleDeleteEquipment current current id0 in
  ~ In id0 (map id (equipments st))
  /\ (forall e, In e (equipments st) <-> In e (equipments current) /\ id e <> id0)
  /\ (~ In id0 (map id (equipments current)) -> equipments st = equipments current)
  /\ (selectedEquipmentId current = Some id0 ->
      selectedEquipmentId st = None /\ view st = DIRECTORY)
  /\ (selectedEquipmentId current <> Some id0 ->
      selectedEquipmentId st = selectedEquipmentId current /\ view st = view current)
  /\ (forall e, selectedEquipment st = Some e -> id e <> id0).
Proof.
  cbv zeta.
  set (keep := fun e : Equipment => negb (String.eqb (id e) id0)).
  assert (Eq : equipments (handleDeleteEquipment current current id0)
               = filter keep (equipments current)).
  { unfold handleDeleteEquipment.
    destruct (JS.optStrEqb (selectedEquipmentId current) (Some id0)); reflexivity. }
  assert (Hmem : forall e, In e (filter keep (equipments current))
                           <-> In e (equipments current) /\ id e <> id0).
  { intros e. rewrite filter_In. unfold keep. rewrite Bool.negb_true_iff.
    rewrite String.eqb_neq. reflexivity. }
  split; [| split; [| split; [| split; [| split]]]].
  - rewrite Eq. intros Hin. apply in_map_iff in Hin. destruct Hin as (e & He & Hin).
    apply Hmem in Hin. tauto.
  - rewrite Eq. exact Hmem.
  - intros Hnot. rewrite Eq. apply filter_all. intros e He. unfold keep.
    rewrite Bool.negb_true_iff, String.eqb_neq. intros Hid. apply Hnot.
    rewrite <- Hid. apply in_map, He.
  - intros Hsel. unfold handleDeleteEquipment. rewrite Hsel. simpl.
    rewrite String.eqb_refl. split; reflexivity.
  - intros Hsel. unfold handleDeleteEquipment.
    destruct (JS.optStrEqb (selectedEquipmentId current) (Some id0)) eqn:E;
      [| split; reflexivity].
    exfalso. apply Hsel. destruct (selectedEquipmentId current) as [s |]; simpl in E;
      [| discriminate].
    apply String.eqb_eq in E. rewrite E. reflexivity.
  - intros e Hfind. unfold selectedEquipment, JS.find in Hfind.
    apply find_some in Hfind. destruct Hfind as [Hin _].
    rewrite Eq in Hin. apply Hmem in Hin. tauto.
Qed.

End Project.

Lemma reload_restores_saved_project_witness :
  exists parsed,
    App.reopen
      (snd (App.saveProject (fun _ => true)
              (App.setLaborCost (App.setEquipments App.initial [Examples.recordA]) 0%float)
              7 8 App.NoItem App.initial))
    = Some (App.Saved parsed)
    /\ App.equipments (fst (App.loadProject (App.Saved parsed) App.initial))
       = map Spec.asStored [Examples.recordA]
    /\ App.laborCost (fst (App.loadProject (App.Saved parsed) App.initial)) = 15%float.
Proof.
  destruct (reload_restores_saved_project (fun _ => true)
              (App.setLaborCost (App.setEquipments App.initial [Examples.recordA]) 0%float)
              App.initial 7 8 App.NoItem eq_refl eq_refl)
    as (parsed & Hopen & He & _ & Hl & _).
  exists parsed. split; [exact Hopen |]. split; [exact He | exact Hl].
Defined.

Lemma autosave_stores_the_list_before_the_change_witness :
  App.equipments
    (fst (App.handleImportComplete (fun _ => true) App.initial 7 8 App.NoItem App.initial
            [Examples.recordA]))
  = [Examples.recordA]
  /\ (forall next,
         App.reopen
           (snd (App.handleImportComplete (fun _ => true) App.initial 7 8 App.NoItem
                   App.initial [Examples.recordA])) = Some next ->
         App.equipments (fst (App.loadProject next App.initial)) = []).
Proof.
  destruct (autosave_stores_the_list_before_the_change (fun _ => true) App.initial 7 8
              App.NoItem [Examples.recordA] Examples.recordA eq_refl)
    as (Hnew & _ & _ & _ & Hold & _).
  split; [exact Hnew | exact Hold].
Defined.

(** ** The two phases of the import wizard *)

Section Wizard.

Import SmartImporter.
Open Scope nat_scope.
Open Scope list_scope.

Variable now : nat.
Variable freshId : nat -> string.
Variable scan : string -> string -> option (list ScanEntry).
Variable extract : string -> string -> string -> string -> option Details.

Lemma truthyStr_nonempty (s : string) : JS.truthyStr s = true -> s <> ""%string.
Proof.
  unfold JS.truthyStr. rewrite Bool.negb_true_iff. apply String.eqb_neq.
Qed.

Lemma mapFrom_identify (file : UploadedFile) (base : nat) (results : list ScanEntry) :
  forall start,
    map tag (JS.mapFrom (identify now freshId file base) results start)
    = map (fun res => JS.orStr (s_tag res) "Unknown") results
    /\ Forall (fun e => sourceFileId e = Some (f_id file) /\ drawings e = [f_data file])
              (JS.mapFrom (identify now freshId file base) results start).
Proof.
  induction results as [| res rest IH]; intros start; simpl.
  - split; constructor.
  - destruct (IH (S start)) as [Ht Hf]. split.
    + rewrite Ht. reflexivity.
    + constructor; [split; reflexivity | exact Hf].
Qed.

Lemma scanFile_tags (acc : list Equipment) (file : UploadedFile) :
  map tag (scanFile now freshId scan acc file)
  = map tag acc ++ Spec.scannedTags scan file.
Proof.
  unfold scanFile, Spec.scannedTags.
  destruct (negb (JS.truthyStr (f_data file))); [rewrite app_nil_r; reflexivity |].
  destruct (scan (f_data file) (f_mimeType file)) as [results |];
    [| rewrite app_nil_r; reflexivity].
  rewrite map_app. unfold JS.mapIdx.
  rewrite (proj1 (mapFrom_identify file (List.length acc) results 0)). reflexivity.
Qed.

Lemma scanFile_scannedFrom (files : list UploadedFile) (acc : list Equipment)
      (file : UploadedFile) :
  In file files ->
  Forall (Spec.scannedFrom files) acc ->
  Forall (Spec.scannedFrom files) (scanFile now freshId scan acc file).
Proof.
  intros Hin H. unfold scanFile.
  destruct (JS.truthyStr (f_data file)) eqn:Et; simpl; [| exact H].
  destruct (scan (f_data file) (f_mimeType file)) as [results |]; [| exact H].
  apply Forall_app. split; [exact H |]. unfold JS.mapIdx.
  pose proof (proj2 (mapFrom_identify file (List.length acc) results 0)) as Hf.
  eapply Forall_impl; [| exact Hf].
  intros e [Hs Hd]. exists file. repeat split; try assumption.
  apply truthyStr_nonempty, Et.
Qed.

Lemma startStructureScan_scannedFrom (files : list UploadedFile) :
  Forall (Spec.scannedFrom files) (startStructureScan now freshId scan files).
Proof.
  unfold startStructureScan.
  assert (G : forall fs acc,
             (forall f, In f fs -> In f files) ->
             Forall (Spec.scannedFrom files) acc ->
             Forall (Spec.scannedFrom files) (fold_left (scanFile now freshId scan) fs acc)).
  { induction fs as [| f rest IH]; intros acc Hsub H; simpl; [exact H |].
    apply IH.
    - intros g Hg. apply Hsub. right. exact Hg.
    - apply scanFile_scannedFrom; [apply Hsub; left; reflexivity | exact H]. }
  apply G; [auto | constructor].
Qed.

(** The structure scan lists the equipments file by file in upload order
    and, within a file, in the order of the scan: a file without data or
    whose scan fails contributes nothing and does not stop the others, a
    missing tag is shown as Unknown, and every record starts identified,
    with no materials, pointing at its file of the upload list. *)
Theorem scan_lists_records_in_file_order (files : list UploadedFile) :
  let batch := startStructureScan now freshId scan files in
  map tag batch = flat_map (Spec.scannedTags scan) files
  /\ Forall Spec.staged batch
  /\ Forall (fun e => exists file,
                 In file files /\ sourceFileId e = Some (f_id file)
                 /\ drawings e = [f_data file] /\ f_data file <> ""%string) batch.
Proof.
  cbv zeta. split; [| split].
  - unfold startStructureScan.
    assert (G : forall fs acc,
               map tag (fold_left (scanFile now freshId scan) fs acc)
               = map tag acc ++ flat_map (Spec.scannedTags scan) fs).
    { induction fs as [| f rest IH]; intros acc; simpl.
      - rewrite app_nil_r. reflexivity.
      - rewrite IH, scanFile_tags, <- app_assoc. reflexivity. }
    apply (G files []).
  - apply startStructureScan_staged.
  - apply startStructureScan_scannedFrom.
Qed.

Lemma findFile_scannedFrom (files : list UploadedFile) (e : Equipment) :
  Spec.scannedFrom files e -> exists file, findFile files e = Some file.
Proof.
  intros (file & Hin & Hs & _). unfold findFile, JS.find. rewrite Hs.
  destruct (find (fun f => JS.optStrEqb (Some (f_id f)) (Some (f_id file))) files)
    as [f |] eqn:E; [eauto |].
  exfalso. pose proof (find_none _ _ E file Hin) as H. simpl in H.
  rewrite String.eqb_refl in H. discriminate.
Qed.

Lemma Forall2_map_right {A B : Type} (P : A -> Prop) (R : A -> B -> Prop) (f : A -> B)
      (l : list A) :
  (forall x, P x -> R x (f x)) -> Forall P l -> Forall2 R l (map f l).
Proof.
  intros H Hl. induction Hl as [| x l Hx Hl IH]; simpl; constructor; auto.
Qed.

(** Extraction after a scan of the same upload list leaves no record
    behind: every record of the batch comes out at its place, with its
    identifier, tag, name, pages, source file and drawing, and is either
    complete or marked as failed with no materials. *)
Theorem scanned_batch_is_fully_processed (files : list UploadedFile) :
  let batch := startStructureScan now freshId scan files in
  let result := startDetailExtraction extract files batch in
  Forall2 (fun e r =>
             id r = id e /\ tag r = tag e /\ name r = name e
             /\ pageRange r = pageRange e /\ sourceFileId r = sourceFileId e
             /\ drawings r = drawings e
             /\ (status r = complete \/ (status r = error /\ materials r = [])))
          batch result
  /\ Forall (fun r => status r <> identified) result.
Proof.
  cbv zeta.
  pose proof (startStructureScan_staged now freshId scan files) as Hst.
  pose proof (startStructureScan_scannedFrom files) as Hfrom.
  assert (Hboth : Forall (fun e => Spec.staged e /\ Spec.scannedFrom files e)
                         (startStructureScan now freshId scan files)).
  { rewrite Forall_forall in *. intros e He. split; auto. }
  assert (Hone : forall e, Spec.staged e /\ Spec.scannedFrom files e ->
                           id (extractOne extract files e) = id e
                           /\ tag (extractOne extract files e) = tag e
                           /\ name (extractOne extract files e) = name e
                           /\ pageRange (extractOne extract files e) = pageRange e
                           /\ sourceFileId (extractOne extract files e) = sourceFileId e
                           /\ drawings (extractOne extract files e) = drawings e
                           /\ (status (extractOne extract files e) = complete
                               \/ (status (extractOne extract files e) = error
                                   /\ materials (extractOne extract files e) = []))).
  { intros e [[Hm _] Hf]. destruct (findFile_scannedFrom files e Hf) as [file Hfile].
    unfold extractOne. rewrite Hfile.
    destruct (extract (f_data file) (f_mimeType file) (tag e) (JS.orStr (pageRange e) ""));
      simpl; repeat split; auto. }
  unfold startDetailExtraction. split.
  - apply (Forall2_map_right (fun e => Spec.staged e /\ Spec.scannedFrom files e));
      [exact Hone | exact Hboth].
  - apply Forall_map. eapply Forall_impl; [| exact Hboth].
    intros e He. destruct (Hone e He) as (_ & _ & _ & _ & _ & _ & [Hs | [Hs _]]);
      rewrite Hs; discriminate.
Qed.

End Wizard.

(** ** The price map of the pricing service *)

Section PriceMap.

Variable lookupPrices : list (option string) -> option (option (list RawPrice)).

Lemma objGet_addPrice (priceMap : JS.Obj float) (p : RawPrice) (k : string) :
  JS.objGet (addPrice priceMap p) k
  = if String.eqb k "__proto__" then JS.objGet priceMap k
    else Spec.lastPrice k [p] (JS.objGet priceMap k).
Proof.
  unfold addPrice. simpl.
  destruct (p_material p) as [material |];
    [| destruct (String.eqb k "__proto__"); reflexivity].
  destruct (p_pricePerKg p) as [price |];
    [| destruct (String.eqb k "__proto__"); reflexivity].
  destruct (JS.truthyStr material && JS.truthyNum price); simpl;
    [| destruct (String.eqb k "__proto__"); reflexivity].
  unfold JS.objAssign.
  destruct (String.eqb material "__proto__") eqn:Em.
  - apply String.eqb_eq in Em. subst material.
    destruct (String.eqb k "__proto__"); reflexivity.
  - pose proof (mapGet_mapSet priceMap material k price) as H.
    unfold JS.mapGet, JS.mapSet in H. rewrite H.
    destruct (String.eqb k "__proto__") eqn:Ek; [| reflexivity].
    apply String.eqb_eq in Ek. subst k.
    rewrite String.eqb_sym, Em. reflexivity.
Qed.

Lemma lastPrice_cons (k : string) (p : RawPrice) (rest : list RawPrice)
      (sofar : option float) :
  Spec.lastPrice k (p :: rest) sofar = Spec.lastPrice k rest (Spec.lastPrice k [p] sofar).
Proof.
  simpl. destruct (p_material p) as [material |]; [| reflexivity].
  destruct (p_pricePerKg p) as [price |]; [| reflexivity].
  destruct (JS.truthyStr material && JS.truthyNum price && String.eqb k material);
    reflexivity.
Qed.

Lemma objGet_fold_addPrice (response : list RawPrice) (k : string) :
  forall priceMap,
    JS.objGet (fold_left addPrice response priceMap) k
    = if String.eqb k "__proto__" then JS.objGet priceMap k
      else Spec.lastPrice k response (JS.objGet priceMap k).
Proof.
  induction response as [| p rest IH]; intros priceMap.
  - simpl. destruct (String.eqb k "__proto__"); reflexivity.
  - rewrite lastPrice_cons. cbn [fold_left]. rewrite IH, objGet_addPrice.
    destruct (String.eqb k "__proto__"); reflexivity.
Qed.

(** The price the service reports for a material is the one of the last
    entry of the response that names it and carries a usable price; earlier
    entries for the same name are overwritten, entries without a name or
    with a price of zero change nothing.  The name [__proto__] never has a
    price, whatever the response says.  With no materials asked for, or
    when the call or the parsing fails, no name has a price. *)
Theorem price_map_last_price_wins (materials : list (option string)) (k : string) :
  JS.objGet (findMaterialPrices lookupPrices materials) k
  = match materials with
    | [] => None
    | _ :: _ =>
        match lookupPrices (JS.unique JS.optStrEqb materials) with
        | Some (Some response) =>
            if String.eqb k "__proto__" then None else Spec.lastPrice k response None
        | _ => None
        end
    end.
Proof.
  unfold findMaterialPrices. destruct materials as [| m rest]; [reflexivity |].
  destruct (lookupPrices (JS.unique JS.optStrEqb (m :: rest))) as [[response |] |];
    try reflexivity.
  apply (objGet_fold_addPrice response k []).
Qed.

(** A response that prices [__proto__] and a steel: only the steel is in
    the mapping. *)
Example inherited_name_is_not_priced :
  map fst (fold_left addPrice
             [mkRawPrice (Some "__proto__"%string) (Some 10%float);
              mkRawPrice (Some "Q345R"%string) (Some 5%float)] [])
  = ["Q345R"%string].
Proof. reflexivity. Qed.

End PriceMap.

(** ** Edits of one field of a line *)

Section FieldEdits.

Import BudgetView.
Open Scope list_scope.

Lemma map_if_commute {A : Type} (p q : A -> bool) (f g : A -> A) (l : list A) :
  (forall x, p (g x) = p x) -> (forall x, q (f x) = q x) ->
  (forall x, f (g x) = g (f x)) ->
  map (fun x => if p x then f x else x) (map (fun x => if q x then g x else x) l)
  = map (fun x => if q x then g x else x) (map (fun x => if p x then f x else x) l).
Proof.
  intros Hp Hq Hfg. rewrite !map_map. apply map_ext. intros x.
  destruct (p x) eqn:Ep; destruct (q x) eqn:Eq;
    rewrite ?Hp, ?Hq, ?Ep, ?Eq, ?Hfg; reflexivity.
Qed.

(** Edits of the weight, the quantity and the price of lines do not
    interfere: in any order they give the same list, also on the same
    line; none of them changes the identifiers, the order or the number of
    the lines; and of two edits of the same field of the same identifier
    the later one stands. *)
Theorem field_edits_commute
        (materials : list MaterialItem) (i j k : string) (w w' q p : float) :
  handleWeightChange (handleQuantityChange materials j q) i w
  = handleQuantityChange (handleWeightChange materials i w) j q
  /\ handlePriceChange (handleWeightChange materials i w) k p
     = handleWeightChange (handlePriceChange materials k p) i w
  /\ handlePriceChange (handleQuantityChange materials j q) k p
     = handleQuantityChange (handlePriceChange materials k p) j q
  /\ map m_id (handleWeightChange materials i w) = map m_id materials
  /\ map m_id (handleQuantityChange materials j q) = map m_id materials
  /\ map m_id (handlePriceChange materials k p) = map m_id materials
  /\ handleWeightChange (handleWeightChange materials i w) i w'
     = handleWeightChange materials i w'.
Proof.
  unfold handleWeightChange, handleQuantityChange, handlePriceChange.
  split; [| split; [| split; [| split; [| split; [| split]]]]].
  - apply (map_if_commute (fun m => String.eqb (m_id m) i)
                          (fun m => String.eqb (m_id m) j)
                          (fun m => setWeight m w) (fun m => setQuantity m q));
      reflexivity.
  - apply (map_if_commute (fun m => String.eqb (m_id m) k)
                          (fun m => String.eqb (m_id m) i)
                          (fun m => setUnitPrice m p) (fun m => setWeight m w));
      reflexivity.
  - apply (map_if_commute (fun m => String.eqb (m_id m) k)
                          (fun m => String.eqb (m_id m) j)
                          (fun m => setUnitPrice m p) (fun m => setQuantity m q));
      reflexivity.
  - rewrite map_map. apply map_ext. intros m.
    destruct (String.eqb (m_id m) i); reflexivity.
  - rewrite map_map. apply map_ext. intros m.
    destruct (String.eqb (m_id m) j); reflexivity.
  - rewrite map_map. apply map_ext. intros m.
    destruct (String.eqb (m_id m) k); reflexivity.
  - rewrite map_map. apply map_ext. intros m.
    destruct (String.eqb (m_id m) i) eqn:E; simpl; rewrite E; reflexivity.
Qed.

End FieldEdits.

(** ** Selecting files and reading their payload *)

Section FileSelect.

Import ExtractionView.
Open Scope nat_scope.
Open Scope list_scope.

Lemma filter_pending_new (files : list File) :
  filter isPending (map (fun f => mkFileStatus f q_pending) files)
  = map (fun f => mkFileStatus f q_pending) files
  /\ filter isSuccess (map (fun f => mkFileStatus f q_pending) files) = [].
Proof.
  induction files as [| f files [IH1 IH2]]; [split; reflexivity |].
  split.
  - change (mkFileStatus f q_pending
              :: filter isPending (map (fun f => mkFileStatus f q_pending) files)
            = mkFileStatus f q_pending :: map (fun f => mkFileStatus f q_pending) files).
    rewrite IH1. reflexivity.
  - exact IH2.
Qed.

(** Selecting files appends one pending entry per file, in order, after
    the entries the queue holds, which keep their status: the pending count
    grows by the number of files and the success count stays.  Removing the
    entry of a file that was selected alone gives the queue back. *)
Theorem file_select_appends_pending_entries
        (fileQueue : list FileStatus) (files : list File) (f : File) :
  handleFileSelect fileQueue files
  = fileQueue ++ map (fun x => mkFileStatus x q_pending) files
  /\ pendingCount (handleFileSelect fileQueue files)
     = pendingCount fileQueue + List.length files
  /\ successCount (handleFileSelect fileQueue files) = successCount fileQueue
  /\ removeFile (handleFileSelect fileQueue [f]) (List.length fileQueue) = fileQueue.
Proof.
  assert (E : handleFileSelect fileQueue files
              = fileQueue ++ map (fun x => mkFileStatus x q_pending) files).
  { unfold handleFileSelect. destruct files; [rewrite app_nil_r |]; reflexivity. }
  destruct (filter_pending_new files) as [Hp Hs].
  split; [exact E |]. split; [| split].
  - rewrite E. unfold pendingCount. rewrite filter_app, length_app, Hp, length_map.
    reflexivity.
  - rewrite E. unfold successCount. rewrite filter_app, Hs, app_nil_r. reflexivity.
  - unfold removeFile, JS.filterIdx.
    pose proof (filterFrom_drops_one (handleFileSelect fileQueue [f]) 0
                  (List.length fileQueue)) as H.
    cbn [Nat.add] in H. rewrite H. unfold handleFileSelect.
    rewrite firstn_app, Nat.sub_diag, firstn_all, app_nil_r.
    rewrite skipn_all2 by (rewrite length_app; simpl; lia).
    apply app_nil_r.
Qed.

Lemma afterComma_app (header rest : string) :
  Spec.countChar "," header = 0 ->
  afterComma (header ++ String "," rest) = Some rest.
Proof.
  induction header as [| c header IH]; simpl; [reflexivity |].
  destruct (Ascii.eqb c ","); [discriminate |]. exact IH.
Qed.

Lemma beforeComma_free (s : string) :
  Spec.countChar "," s = 0 -> beforeComma s = s.
Proof.
  induction s as [| c s IH]; simpl; [reflexivity |].
  destruct (Ascii.eqb c ","); [discriminate |].
  intros H. rewrite (IH H). reflexivity.
Qed.

Lemma afterComma_none_iff (s : string) :
  afterComma s = None <-> Spec.countChar "," s = 0.
Proof.
  induction s as [| c s IH]; simpl; [tauto |].
  destruct (Ascii.eqb c ","); [split; discriminate | exact IH].
Qed.

(** The payload sent to the analysis is the payload of the data URL: the
    text after the header and its comma, when neither holds another comma,
    as in a base64 data URL.  A text without a comma has no payload. *)
Theorem base64DataOf_recovers_payload (header payload : string) :
  Spec.countChar "," header = 0 ->
  Spec.countChar "," payload = 0 ->
  base64DataOf (header ++ String "," payload) = Some payload
  /\ base64DataOf header = None.
Proof.
  intros Hh Hp. unfold base64DataOf. split.
  - rewrite (afterComma_app header payload Hh). simpl.
    rewrite (beforeComma_free payload Hp). reflexivity.
  - rewrite (proj2 (afterComma_none_iff header) Hh). reflexivity.
Qed.

End FileSelect.

Lemma base64DataOf_recovers_payload_witness :
  ExtractionView.base64DataOf "data:application/pdf;base64,QQ==" = Some "QQ=="%string
  /\ ExtractionView.base64DataOf "data:application/pdf;base64" = None.
Proof.
  apply (base64DataOf_recovers_payload "data:application/pdf;base64" "QQ==");
    reflexivity.
Defined.

Lemma analyze_keeps_failed_entry_witness :
  exists results,
    analyzeDrawingForMaterials Examples.scanTwo Examples.extractFailingV1Raw
                               "QQ==" "application/pdf" = Some results
    /\ List.length results = 2
    /\ nth_error results 0
       = Some (withoutDetails (mkScanEntry (Some "V-1"%string) (Some "Buffer tank"%string)
                                           (Some "1-2"%string)))
    /\ e_tag (withoutDetails (mkScanEntry (Some "V-1"%string) (Some "Buffer tank"%string)
                                          (Some "1-2"%string))) = Some "V-1"%string
    /\ e_materials (withoutDetails (mkScanEntry (Some "V-1"%string)
                                                (Some "Buffer tank"%string)
                                                (Some "1-2"%string))) = Some [].
Proof.
  apply (analyze_keeps_failed_entry Examples.scanTwo Examples.extractFailingV1Raw
           "QQ==" "application/pdf"
           [mkScanEntry (Some "V-1"%string) (Some "Buffer tank"%string) (Some "1-2"%string);
            mkScanEntry (Some "V-2"%string) None None]
           0
           (mkScanEntry (Some "V-1"%string) (Some "Buffer tank"%string) (Some "1-2"%string)));
    reflexivity.
Defined.
